(** * study-plan-generator: the fallback template and the provider loop of app.js

    A shallow embedding of [generateFallbackPlan] and of the
    [POST /generate-plan] handler of [src/app.js], with the fragment of the
    ECMAScript runtime they use:

    - a JS string is its sequence of UTF-16 code units ([JS.jsstring]);
    - a JS Number is an IEEE 754 binary64 value ([JS.number], the
      [spec_float] of the Standard Library at precision 53);
    - the two remote collaborators of the handler (the text-generation
      client and the Firestore collection) are an oracle ([App.world]) that
      answers each call from the history of the calls made so far, and the
      handler returns its HTTP response together with that history;
    - the routes [GET /check-models], [GET /study-plans] and
      [GET /study-plan/:id] are in [Routes], with objects as lists of
      properties and the collection as what its two reads give. *)

From Stdlib Require Import List ZArith NArith Lia Bool String Ascii SpecFloat.
Import ListNotations.

Local Open Scope list_scope.

(* ================================================================== *)
(** * The ECMAScript runtime used by app.js *)
(* ================================================================== *)

Module JS.

(** ** Strings *)

Definition code_unit := N.
Definition jsstring := list code_unit.

(** A source literal, all of whose characters are ASCII. *)
Definition lit (s : string) : jsstring :=
  map N_of_ascii (list_ascii_of_string s).

(** [IsStringPrefix(p, s)]. *)
Fixpoint starts_with (p s : jsstring) : bool :=
  match p, s with
  | [], _ => true
  | _ :: _, [] => false
  | c :: p', d :: s' => N.eqb c d && starts_with p' s'
  end.

(** [String.prototype.indexOf(p)]: the least index at which [p] occurs. *)
Fixpoint indexOf (s p : jsstring) : option nat :=
  if starts_with p s then Some 0%nat
  else match s with
       | [] => None
       | _ :: s' => option_map S (indexOf s' p)
       end.

(** [String.prototype.includes(p)]. *)
Definition includes (s p : jsstring) : bool :=
  match indexOf s p with Some _ => true | None => false end.

(** [String.prototype.replace(p, r)] for a string pattern [p]: the first
    occurrence of [p] is replaced, the others stay.  The replacement [r] is
    inserted as it is, which is what ECMAScript does when [r] holds no [$];
    app.js only ever passes the empty string. *)
Definition replace (s p r : jsstring) : jsstring :=
  match indexOf s p with
  | None => s
  | Some i => firstn i s ++ r ++ skipn (i + List.length p) s
  end.

(** [WhiteSpace] and [LineTerminator] code points (all in the BMP):
    TAB, LF, VT, FF, CR, SP, NBSP, U+1680, U+2000..U+200A, LS, PS,
    U+202F, U+205F, U+3000 and the BOM. *)
Definition is_white_space (c : code_unit) : bool :=
  existsb (N.eqb c)
    [9; 10; 11; 12; 13; 32; 160; 5760; 8232; 8233; 8239; 8287; 12288; 65279]%N
  || ((8192 <=? c)%N && (c <=? 8202)%N).

Fixpoint trimStart (s : jsstring) : jsstring :=
  match s with
  | [] => []
  | c :: s' => if is_white_space c then trimStart s' else s
  end.

Definition trimEnd (s : jsstring) : jsstring := rev (trimStart (rev s)).

(** [String.prototype.trim()]. *)
Definition trim (s : jsstring) : jsstring := trimEnd (trimStart s).

(** The class [\d] of a regular expression: the ASCII digits only. *)
Definition is_digit (c : code_unit) : bool := ((48 <=? c)%N && (c <=? 57)%N).

Fixpoint take_while (f : code_unit -> bool) (s : jsstring) : jsstring :=
  match s with
  | [] => []
  | c :: s' => if f c then c :: take_while f s' else []
  end.

Fixpoint drop_while (f : code_unit -> bool) (s : jsstring) : jsstring :=
  match s with
  | [] => []
  | c :: s' => if f c then drop_while f s' else s
  end.

(** [s.match(/\d+/)]: [null], or the match array, whose only element is the
    matched text.  The match starts at the leftmost digit of [s] and [+] is
    greedy, so the matched text is the first maximal run of digits. *)
Definition match_digits (s : jsstring) : option jsstring :=
  match drop_while (fun c => negb (is_digit c)) s with
  | [] => None
  | run => Some (take_while is_digit run)
  end.

(** A string without a digit, and the first maximal run of digits of a
    string: what comes before it holds no digit, it is not empty, and what
    comes after it does not start with a digit. *)
Definition no_digit (s : jsstring) : Prop :=
  forall c, In c s -> is_digit c = false.

Definition first_digit_run (s run : jsstring) : Prop :=
  exists before after,
    s = before ++ run ++ after
    /\ no_digit before
    /\ run <> []
    /\ (forall c, In c run -> is_digit c = true)
    /\ (forall c t, after = c :: t -> is_digit c = false).

(** The integer a run of digits is the decimal notation of. *)
Definition digits_value (run : jsstring) : Z :=
  fold_left (fun acc c => (acc * 10 + (Z.of_N c - 48))%Z) run 0%Z.

(** [ToString] of the result of [match]: ["null"] for [null]; an array is
    joined with commas, and the array has one element. *)
Definition match_result_toString (r : option jsstring) : jsstring :=
  match r with
  | None => lit "null"
  | Some m => m
  end.

(** ** Numbers *)

Definition number := spec_float.
Definition prec : Z := 53.
Definition emax : Z := 1024.

(** The Number value for a mathematical integer (round to nearest, ties to
    even); [negzero] is the sign given to a zero. *)
Definition Number_of_Z_signed (negzero : bool) (z : Z) : number :=
  binary_normalize prec emax z 0 negzero.
Definition Number_of_Z (z : Z) : number := Number_of_Z_signed false z.

(** The Number value for the positive rational [p/q]. *)
Definition Number_of_Q (p q : positive) : number :=
  SFdiv prec emax (S754_finite false p 0) (S754_finite false q 0).

(** The integer a Number denotes, when it denotes one. *)
Definition Number_to_Z (x : number) : option Z :=
  match x with
  | S754_zero _ => Some 0%Z
  | S754_finite s m e =>
      let v := if (0 <=? e)%Z then Some (Zpos m * 2 ^ e)%Z
               else if (Zpos m mod 2 ^ (- e) =? 0)%Z
                    then Some (Zpos m / 2 ^ (- e))%Z else None in
      option_map (fun z => if s then (- z)%Z else z) v
  | _ => None
  end.

Definition mul : number -> number -> number := SFmul prec emax.
Definition add : number -> number -> number := SFadd prec emax.
Definition sub : number -> number -> number := SFsub prec emax.
(** [x > y]. *)
Definition gt (x y : number) : bool := SFltb y x.

(** [ToBoolean] of a Number: false for NaN, +0 and -0. *)
Definition ToBoolean (x : number) : bool :=
  match x with
  | S754_nan | S754_zero _ => false
  | _ => true
  end.

(** [x || y] on Numbers. *)
Definition or_else (x y : number) : number := if ToBoolean x then x else y.

(** The literal [0.7]: the binary64 value nearest to 7/10. *)
Definition lit_0_7 : number := S754_finite false 6305039478318694 (-53).

(** [Math.ceil]. *)
Definition Math_ceil (x : number) : number :=
  match x with
  | S754_finite s m e =>
      if (0 <=? e)%Z then x
      else
        let d := (2 ^ (- e))%Z in
        let q := (Zpos m / d)%Z in
        if (Zpos m mod d =? 0)%Z then x
        else if s then Number_of_Z_signed true (- q)
        else Number_of_Z (q + 1)
  | _ => x
  end.

(** The value of a digit in a radix up to 36. *)
Definition digit_of (c : code_unit) : option Z :=
  if ((48 <=? c) && (c <=? 57))%N then Some (Z.of_N c - 48)%Z
  else if ((97 <=? c) && (c <=? 122))%N then Some (Z.of_N c - 87)%Z
  else if ((65 <=? c) && (c <=? 90))%N then Some (Z.of_N c - 55)%Z
  else None.

Definition radix_digit (R : Z) (c : code_unit) : option Z :=
  match digit_of c with
  | Some v => if (v <? R)%Z then Some v else None
  | None => None
  end.

(** The digits of the longest prefix of [s] made of radix-[R] digits. *)
Fixpoint radix_prefix (R : Z) (s : jsstring) : list Z :=
  match s with
  | [] => []
  | c :: s' =>
      match radix_digit R c with
      | Some v => v :: radix_prefix R s'
      | None => []
      end
  end.

Definition radix_value (R : Z) (ds : list Z) : Z :=
  fold_left (fun acc v => (acc * R + v)%Z) ds 0%Z.

(** [parseInt(s)] with no radix argument: leading white space is skipped, a
    sign is read, a [0x] or [0X] prefix selects radix 16, and the longest
    prefix of digits is converted; no digit gives NaN.  (For more than 20
    significant digits ECMAScript lets an implementation approximate; this
    is the exact conversion, which is what V8 does.) *)
Definition parseInt (input : jsstring) : number :=
  let s0 := trimStart input in
  let '(neg, s1) :=
    match s0 with
    | c :: r => if (c =? 45)%N then (true, r)
                else if (c =? 43)%N then (false, r) else (false, s0)
    | [] => (false, s0)
    end in
  let '(R, s2) :=
    match s1 with
    | c :: x :: r =>
        if ((c =? 48) && ((x =? 120) || (x =? 88)))%N then (16%Z, r)
        else (10%Z, s1)
    | _ => (10%Z, s1)
    end in
  match radix_prefix R s2 with
  | [] => S754_nan
  | ds => let v := radix_value R ds in
          Number_of_Z_signed neg (if neg then (- v)%Z else v)
  end.

(** ** Number::toString *)

(** The decimal digits of a natural number, most significant first, put in
    front of [acc]; a number has no more decimal digits than [fuel], its
    number of binary digits. *)
Fixpoint decimal_acc (fuel : nat) (z : Z) (acc : jsstring) : jsstring :=
  match fuel with
  | O => acc
  | S fuel' =>
      let acc' := (48 + Z.to_N (z mod 10))%N :: acc in
      if (z <? 10)%Z then acc' else decimal_acc fuel' (z / 10) acc'
  end.

Definition decimal (z : Z) : jsstring :=
  decimal_acc (S (Z.to_nat (Z.log2 z))) z [].

(** The Number value of the decimal [s * 10^(n-k)] ([s > 0]), an integer
    when [k <= n], and whether it is [x]. *)
Definition Number_of_decimal (s n k : Z) : number :=
  if (k <=? n)%Z then Number_of_Z (s * 10 ^ (n - k))
  else Number_of_Q (Z.to_pos s) (Z.to_pos (10 ^ (k - n))).

Definition denotes (x : number) (s n k : Z) : bool :=
  SFeqb (Number_of_decimal s n k) x.

(** The least [t >= t0] with [den <= num * 10^t], searched for [fuel] steps. *)
Fixpoint scale_up (fuel : nat) (num den t : Z) : Z :=
  match fuel with
  | O => t
  | S fuel' => if (den <=? num * 10 ^ t)%Z then t
               else scale_up fuel' num den (t + 1)%Z
  end.

(** The [n] with [10^(n-1) <= num/den < 10^n]. *)
Definition magnitude (num den : Z) : Z :=
  if (den <=? num)%Z then Z.of_nat (List.length (decimal (num / den)))
  else (1 - scale_up 400 num den 1)%Z.

(** Step 5 of Number::toString for a positive finite [x = num/den]: the
    triple [(n, k, s)] with [k] as small as possible such that the decimal
    [s * 10^(n-k)] of [k] digits denotes [x]; among the candidates of that
    length the one closest to [x] is taken. *)
Fixpoint shortest (fuel : nat) (x : number) (num den n0 k : Z) : Z * Z * Z :=
  let P := (num * 10 ^ Z.max (k - n0) 0)%Z in
  let Q := (den * 10 ^ Z.max (n0 - k) 0)%Z in
  let lo := (P / Q)%Z in
  let hi := (lo + 1)%Z in
  let '(nh, sh) := if (hi =? 10 ^ k)%Z then ((n0 + 1)%Z, (10 ^ (k - 1))%Z)
                   else (n0, hi) in
  let ok_lo := denotes x lo n0 k in
  let ok_hi := denotes x sh nh k in
  let lo_closer :=
    match (2 * (P - lo * Q) ?= Q)%Z with
    | Lt => true
    | Gt => false
    | Eq => Z.even lo
    end in
  if ok_lo && (lo_closer || negb ok_hi) then (n0, k, lo)
  else if ok_hi then (nh, k, sh)
  else match fuel with
       | O => (n0, k, lo)
       | S fuel' => shortest fuel' x num den n0 (k + 1)%Z
       end.

(** Steps 6 to 10 of Number::toString: the layout of the digits. *)
Definition layout (n k s : Z) : jsstring :=
  let ds := decimal s in
  if ((k <=? n) && (n <=? 21))%Z then
    ds ++ repeat 48%N (Z.to_nat (n - k))
  else if ((0 <? n) && (n <=? 21))%Z then
    firstn (Z.to_nat n) ds ++ lit "." ++ skipn (Z.to_nat n) ds
  else if ((-6 <? n) && (n <=? 0))%Z then
    lit "0." ++ repeat 48%N (Z.to_nat (- n)) ++ ds
  else
    let e := (n - 1)%Z in
    let expo := lit "e" ++ (if (e <? 0)%Z then lit "-" else lit "+")
                ++ decimal (Z.abs e) in
    if (k =? 1)%Z then ds ++ expo
    else firstn 1 ds ++ lit "." ++ skipn 1 ds ++ expo.

(** [Number::toString(x)] in radix 10, which is what a template literal and
    [string + number] apply to a Number. *)
Definition Number_toString (x : number) : jsstring :=
  match x with
  | S754_nan => lit "NaN"
  | S754_zero _ => lit "0"
  | S754_infinity s => (if s then lit "-" else []) ++ lit "Infinity"
  | S754_finite s m e =>
      let num := if (0 <=? e)%Z then (Zpos m * 2 ^ e)%Z else Zpos m in
      let den := if (0 <=? e)%Z then 1%Z else (2 ^ (- e))%Z in
      let '(n, k, d) :=
        shortest 20 (S754_finite false m e) num den (magnitude num den) 1 in
      (if s then lit "-" else []) ++ layout n k d
  end.

End JS.


(* ================================================================== *)
(** * app.js *)
(* ================================================================== *)

Module App.
Import JS.

(** ** generateFallbackPlan (lines 30-95) *)

(** Line 31: [parseInt(duration.match(/\d+/)) || 4]. *)
Definition durationWeeks (duration : jsstring) : number :=
  or_else (parseInt (match_result_toString (match_digits duration)))
          (Number_of_Z 4).

(** Line 32; the template never uses it. *)
Definition weeksText (durationWeeks : number) : jsstring :=
  if gt durationWeeks (Number_of_Z 1) then lit "weeks" else lit "week".

(** Line 46, the weeks of Phase 2:
    [${durationWeeks > 2 ? '3-' + Math.ceil(durationWeeks * 0.7) : '2'}]. *)
Definition phase2Weeks (durationWeeks : number) : jsstring :=
  if gt durationWeeks (Number_of_Z 2)
  then lit "3-" ++ Number_toString (Math_ceil (mul durationWeeks lit_0_7))
  else lit "2".

(** Line 52, the weeks of Phase 3:
    [${Math.ceil(durationWeeks * 0.7) + 1}-${durationWeeks - 1}]. *)
Definition phase3Weeks (durationWeeks : number) : jsstring :=
  Number_toString (add (Math_ceil (mul durationWeeks lit_0_7)) (Number_of_Z 1))
  ++ lit "-"
  ++ Number_toString (sub durationWeeks (Number_of_Z 1)).

(** Lines 34-94: the template literal, for a given [durationWeeks]. *)
Definition planTemplate (subject level duration goals : jsstring)
    (durationWeeks : number) : jsstring :=
  lit "Study Plan for "
  ++ subject
  ++ lit " ("
  ++ level
  ++ lit " Level)
Duration: "
  ++ duration
  ++ lit "
Goals: "
  ++ goals
  ++ lit "

=== STUDY PLAN OVERVIEW ===

Phase 1: Foundation (Week 1"
  ++ (if gt durationWeeks (Number_of_Z 2) then lit "-2" else [])
  ++ lit ")
- Review fundamental concepts and terminology
- Gather study materials and resources
- Establish daily study routine (1-2 hours)
- Complete basic exercises and assessments

Phase 2: Core Learning (Week "
  ++ phase2Weeks durationWeeks
  ++ lit ")
- Deep dive into main topics and concepts
- Practice problem-solving techniques
- Create summary notes and mind maps
- Regular self-assessment and progress tracking

Phase 3: Advanced Application (Week "
  ++ phase3Weeks durationWeeks
  ++ lit ")
- Explore complex topics and real-world applications
- Work on challenging problems and case studies
- Connect concepts across different areas
- Prepare for practical implementation

Phase 4: Review & Mastery (Final Week)
- Comprehensive review of all materials
- Practice tests and mock examinations
- Identify and address knowledge gaps
- Final preparation and confidence building

=== DAILY STUDY STRUCTURE ===

Morning Session (30-45 minutes):
- Review previous day's material
- Preview new concepts for the day

Main Study Session (60-90 minutes):
- Focus on new topic learning
- Complete practice exercises
- Take detailed notes

Evening Review (15-30 minutes):
- Summarize key learnings
- Plan next day's study goals
- Update progress tracker

=== WEEKLY MILESTONES ===

Week 1: Master foundational concepts
Week 2: Complete core topic modules
"
  ++ (if gt durationWeeks (Number_of_Z 2)
      then lit "Week 3: Apply knowledge to practical scenarios
"
      else [])
  ++ (if gt durationWeeks (Number_of_Z 3)
      then lit "Week 4: Integrate advanced concepts
"
      else [])
  ++ lit "Final Week: Achieve mastery and meet stated goals

=== STUDY TIPS ===

- Use active learning techniques (summarizing, teaching others)
- Take regular breaks using the Pomodoro technique
- Create a distraction-free study environment
- Join study groups or find accountability partners
- Regularly assess progress and adjust plan as needed

Note: This is a template plan generated when AI services are unavailable. For a more personalized and detailed study plan, please try again later when our AI service is restored.".

Definition generateFallbackPlan (subject level duration goals : jsstring)
  : jsstring :=
  planTemplate subject level duration goals (durationWeeks duration).

(** ** POST /generate-plan (lines 129-283) *)

(** Lines 139-155. *)
Definition prompt (subject level duration goals : jsstring) : jsstring :=
  lit "Create a comprehensive, personalized study plan with the following specifications:

Subject: "
  ++ subject
  ++ lit "
Academic Level: "
  ++ level
  ++ lit "
Study Duration: "
  ++ duration
  ++ lit "
Learning Goals: "
  ++ goals
  ++ lit "

Please structure the response with:
1. Study plan overview with phases
2. Weekly breakdown with specific topics
3. Daily study schedule recommendations
4. Key milestones and checkpoints
5. Assessment methods and progress tracking
6. Recommended resources and materials
7. Tips for effective learning

Make the plan detailed, practical, and tailored to the specified level and duration.".

(** Lines 158-164. *)
Definition models : list jsstring :=
  [ lit "mistralai/Mistral-7B-Instruct-v0.3";
    lit "microsoft/DialoGPT-medium";
    lit "google/flan-t5-large";
    lit "facebook/blenderbot-400M-distill";
    lit "bigscience/bloom-560m" ].

(** [req.body] after [express.json()]: each of the four fields is absent
    or, as the API declares them, a string. *)
Record request_body := {
  body_subject : option jsstring;
  body_level : option jsstring;
  body_duration : option jsstring;
  body_goals : option jsstring
}.

(** [!field]: [undefined] and the empty string are falsy. *)
Definition falsy (field : option jsstring) : bool :=
  match field with
  | None | Some [] => true
  | Some (_ :: _) => false
  end.

(** [ToString] of a field, as a template literal interpolates it. *)
Definition field_string (field : option jsstring) : jsstring :=
  match field with
  | Some s => s
  | None => lit "undefined"
  end.

(** The document handed to [db.collection('studyPlans').add]; its
    [createdAt] is the server-timestamp sentinel, a constant. *)
Record StoredPlan := {
  doc_subject : jsstring;
  doc_level : jsstring;
  doc_duration : jsstring;
  doc_goals : jsstring;
  doc_plan : jsstring;
  doc_modelUsed : jsstring;
  doc_isAiGenerated : bool
}.

(** The calls the handler makes to its collaborators, in order. *)
Inductive event :=
| TextGeneration (model inputs : jsstring)
| StoreAdd (doc : StoredPlan).

(** What [await inference.textGeneration(...)] gives: the promise rejects
    with an [Error], of which the handler reads the [message], or resolves
    to a response, which may be [null] or [undefined] and whose
    [generated_text] may be absent.  The generation parameters of lines
    177-183 are constants and are left out of the call. *)
Record generation_output := { generated_text : option jsstring }.

Inductive call_result :=
| Rejects (message : jsstring)
| Resolves (response : option generation_output).

(** The collaborators: each answer may depend on every call made so far in
    the request.  [studyPlans_add] gives the id of the new document, or
    [None] when the write throws. *)
Record world := {
  textGeneration : list event -> jsstring -> jsstring -> call_result;
  studyPlans_add : list event -> StoredPlan -> option jsstring
}.

(** The HTTP response: [res.status(...)] (200 when it is not called) and
    the fields of the object given to [res.json]. *)
Record response := {
  status : Z;
  success : option bool;
  error : option jsstring;
  plan : option jsstring;
  planId : option jsstring;
  modelUsed : option jsstring;
  isAiGenerated : option bool;
  message : option jsstring;
  warning : option jsstring
}.

(** Lines 134-136. *)
Definition bad_request : response :=
  {| status := 400; success := None;
     error := Some (lit "Missing required fields: subject, level, duration, and goals are all required");
     plan := None; planId := None; modelUsed := None; isAiGenerated := None;
     message := None; warning := None |}.

(** Lines 188-194: [response && response.generated_text], the text the
    condition lets through. *)
Definition truthy_generated_text (response : option generation_output)
  : option jsstring :=
  match response with
  | Some {| generated_text := Some (c :: t) |} => Some (c :: t)
  | _ => None
  end.

(** Lines 189-194: [generatedText] once the echoed prompt is removed. *)
Definition generatedText (prompt raw : jsstring) : jsstring :=
  if includes raw prompt then trim (replace raw prompt []) else raw.

(** Lines 170-244: the loop over the models that are left.  [Some r] is a
    [return res.json(r)] from inside the loop, [None] its exhaustion. *)
Fixpoint try_models (w : world) (subject level duration goals prompt : jsstring)
    (ms : list jsstring) (lastError : option jsstring) (log : list event)
  : option response * list event :=
  match ms with
  | [] => (None, log)
  | model :: rest =>
      let log1 := log ++ [TextGeneration model prompt] in
      match textGeneration w log model prompt with
      | Rejects err =>
          try_models w subject level duration goals prompt rest (Some err) log1
      | Resolves response =>
          match truthy_generated_text response with
          | Some raw =>
              let generatedText := generatedText prompt raw in
              if (List.length generatedText <? 100)%nat then
                try_models w subject level duration goals prompt rest lastError log1
              else
                let doc := {| doc_subject := subject; doc_level := level;
                              doc_duration := duration; doc_goals := goals;
                              doc_plan := generatedText; doc_modelUsed := model;
                              doc_isAiGenerated := true |} in
                match studyPlans_add w log1 doc with
                | Some id =>
                    (Some {| status := 200; success := Some true; error := None;
                             plan := Some generatedText; planId := Some id;
                             modelUsed := Some model; isAiGenerated := Some true;
                             message := None; warning := None |},
                     log1 ++ [StoreAdd doc])
                | None =>
                    (Some {| status := 200; success := Some true; error := None;
                             plan := Some generatedText; planId := None;
                             modelUsed := Some model; isAiGenerated := Some true;
                             message := None;
                             warning := Some (lit "Plan generated successfully but not saved to database") |},
                     log1 ++ [StoreAdd doc])
                end
          | None =>
              try_models w subject level duration goals prompt rest
                (Some (lit "No generated text in response")) log1
          end
      end
  end.

(** Lines 246-282: the fallback once every model has been tried. *)
Definition fallback (w : world) (subject level duration goals : jsstring)
    (log : list event) : response * list event :=
  let fallbackPlan := generateFallbackPlan subject level duration goals in
  let doc := {| doc_subject := subject; doc_level := level;
                doc_duration := duration; doc_goals := goals;
                doc_plan := fallbackPlan; doc_modelUsed := lit "fallback";
                doc_isAiGenerated := false |} in
  let unavailable :=
    lit "AI services are currently unavailable. A template study plan has been generated for you." in
  match studyPlans_add w log doc with
  | Some id =>
      ({| status := 200; success := Some true; error := None;
          plan := Some fallbackPlan; planId := Some id;
          modelUsed := Some (lit "fallback"); isAiGenerated := Some false;
          message := Some unavailable; warning := None |},
       log ++ [StoreAdd doc])
  | None =>
      ({| status := 200; success := Some true; error := None;
          plan := Some fallbackPlan; planId := None;
          modelUsed := Some (lit "fallback"); isAiGenerated := Some false;
          message := Some unavailable;
          warning := Some (lit "Plan not saved to database due to connection issues") |},
       log ++ [StoreAdd doc])
  end.

(** Lines 129-283, for a given list of models: the response and the calls
    made to the collaborators. *)
Definition generate_plan_with (ms : list jsstring) (w : world)
    (body : request_body) : response * list event :=
  if falsy (body_subject body) || falsy (body_level body)
     || falsy (body_duration body) || falsy (body_goals body)
  then (bad_request, [])
  else
    let subject := field_string (body_subject body) in
    let level := field_string (body_level body) in
    let duration := field_string (body_duration body) in
    let goals := field_string (body_goals body) in
    let prompt := prompt subject level duration goals in
    match try_models w subject level duration goals prompt ms None [] with
    | (Some r, log) => (r, log)
    | (None, log) => fallback w subject level duration goals log
    end.

(** The handler of app.js. *)
Definition post_generate_plan : world -> request_body -> response * list event :=
  generate_plan_with models.

(** ** What the claims talk about *)

(** The models called, in order. *)
Definition provider_calls (log : list event) : list jsstring :=
  flat_map (fun e => match e with TextGeneration m _ => [m] | StoreAdd _ => [] end) log.

(** The documents written, in order. *)
Definition store_writes (log : list event) : list StoredPlan :=
  flat_map (fun e => match e with StoreAdd d => [d] | TextGeneration _ _ => [] end) log.

(** The history when the [i]-th model of [ms] is called: the calls to the
    models before it. *)
Definition calls_before (prompt : jsstring) (ms : list jsstring) : list event :=
  map (fun m => TextGeneration m prompt) ms.

(** The document the loop writes for an accepted text (lines 206-215). *)
Definition accepted_doc (subject level duration goals model text : jsstring)
  : StoredPlan :=
  {| doc_subject := subject; doc_level := level; doc_duration := duration;
     doc_goals := goals; doc_plan := text; doc_modelUsed := model;
     doc_isAiGenerated := true |}.

(** A request whose four fields are present and not empty. *)
Definition valid_request (body : request_body) (subject level duration goals : jsstring) : Prop :=
  body = {| body_subject := Some subject; body_level := Some level;
            body_duration := Some duration; body_goals := Some goals |}
  /\ subject <> [] /\ level <> [] /\ duration <> [] /\ goals <> [].

(** A provider answer the loop moves on from: a rejected call, no text, or
    a text shorter than 100 code units once the echo is removed. *)
Definition unusable (prompt : jsstring) (r : call_result) : Prop :=
  forall raw, r = Resolves (Some {| generated_text := Some raw |}) ->
              (List.length (generatedText prompt raw) < 100)%nat.

(** A field that is absent or the empty string. *)
Definition missing_or_empty (field : option jsstring) : Prop :=
  field = None \/ field = Some [].

(** Every model of [ms], called in turn, gives an unusable answer. *)
Definition all_unusable (w : world) (prompt : jsstring) (ms : list jsstring) : Prop :=
  forall i m, nth_error ms i = Some m ->
    unusable prompt (textGeneration w (calls_before prompt (firstn i ms)) m prompt).

End App.

(** The week ranges of the template in exact integer arithmetic, as the
    specification words them. *)
Module Spec.
Import JS.

(** The week count of a duration: the value of its first maximal run of
    digits, and 4 when there is none or the value is 0. *)
Definition week_count (duration : jsstring) (W : Z) : Prop :=
  (no_digit duration /\ W = 4%Z)
  \/ exists run, first_digit_run duration run
                 /\ W = if (digits_value run =? 0)%Z then 4%Z else digits_value run.

(** [ceil(W * 0.7)] for an integer [W]. *)
Definition ceil_0_7 (W : Z) : Z := (7 * W + 9) / 10.

(** Phase 2: weeks 3 through [ceil(W * 0.7)] when [W > 2], week 2 otherwise. *)
Definition phase2_weeks (W : Z) : jsstring :=
  if (2 <? W)%Z then lit "3-" ++ decimal (ceil_0_7 W) else lit "2".

(** Phase 3: weeks [ceil(W * 0.7) + 1] through [W - 1], with no guard. *)
Definition phase3_weeks (W : Z) : jsstring :=
  decimal (ceil_0_7 W + 1) ++ lit "-" ++ decimal (W - 1).


End Spec.

(** Concrete requests and collaborators, on which the theorems are run. *)
Module Demo.
Import JS App.

Definition biology : request_body :=
  {| body_subject := Some (lit "Biology"); body_level := Some (lit "Beginner");
     body_duration := Some (lit "4 weeks"); body_goals := Some (lit "Pass exam") |}.

Definition biology_prompt : jsstring :=
  prompt (lit "Biology") (lit "Beginner") (lit "4 weeks") (lit "Pass exam").

(** No goals given. *)
Definition no_goals : request_body :=
  {| body_subject := Some (lit "Biology"); body_level := Some (lit "Beginner");
     body_duration := Some (lit "4 weeks"); body_goals := Some [] |}.

(** A plan of 120 code units. *)
Definition long_plan : jsstring := repeat 80%N 120.

(** The first model is out of quota, the others echo the prompt before
    their plan; the store is down. *)
Definition second_answers : world :=
  {| textGeneration := fun _ model inputs =>
       if starts_with (lit "mistralai/") model then Rejects (lit "quota exceeded")
       else Resolves (Some {| generated_text := Some (inputs ++ lit "

" ++ long_plan ++ lit " ") |});
     studyPlans_add := fun _ _ => None |}.

(** Every model fails in one of the three ways; the store works. *)
Definition providers_down : world :=
  {| textGeneration := fun log _ _ =>
       match List.length log with
       | 0%nat => Rejects (lit "service unavailable")
       | 1%nat => Resolves None
       | 2%nat => Resolves (Some {| generated_text := None |})
       | 3%nat => Resolves (Some {| generated_text := Some [] |})
       | _ => Resolves (Some {| generated_text := Some (lit "too short") |})
       end;
     studyPlans_add := fun _ _ => Some (lit "doc-1") |}.

(** Every model fails and the store is down too. *)
Definition all_down : world :=
  {| textGeneration := fun _ _ _ => Rejects (lit "service unavailable");
     studyPlans_add := fun _ _ => None |}.

End Demo.

(* ================================================================== *)
(** * app.js: the other routes *)
(* ================================================================== *)

Module Routes.
Import JS App.

(** [a === b] on strings. *)
Fixpoint string_eqb (a b : jsstring) : bool :=
  match a, b with
  | [], [] => true
  | c :: a', d :: b' => N.eqb c d && string_eqb a' b'
  | _, _ => false
  end.

(** ** Objects

    An object is the list of its properties, each key once, in the order
    in which the keys were first set; this is the order in which they are
    enumerated when no key is an array index. *)
Section Objects.

Variable V : Type.

Definition object := list (jsstring * V).

(** [o[key]]. *)
Fixpoint obj_get (o : object) (key : jsstring) : option V :=
  match o with
  | [] => None
  | (k, v) :: o' => if string_eqb k key then Some v else obj_get o' key
  end.

(** [o[key] = v]: an existing property keeps its place. *)
Fixpoint obj_set (o : object) (key : jsstring) (v : V) : object :=
  match o with
  | [] => [(key, v)]
  | (k, v') :: o' =>
      if string_eqb k key then (k, v) :: o' else (k, v') :: obj_set o' key v
  end.

Definition obj_keys (o : object) : list jsstring := map fst o.

(** [{...target, ...source}]: the properties of [source] are set in turn. *)
Definition obj_assign (target source : object) : object :=
  fold_left (fun acc kv => obj_set acc (fst kv) (snd kv)) source target.

End Objects.

Arguments obj_get {V} o key.
Arguments obj_set {V} o key v.
Arguments obj_keys {V} o.
Arguments obj_assign {V} target source.

(** ** GET /check-models (lines 98-126) *)

(** Lines 99-105. *)
Definition probed_models : list jsstring :=
  [ lit "mistralai/Mistral-7B-Instruct-v0.3";
    lit "microsoft/DialoGPT-medium";
    lit "google/flan-t5-large";
    lit "facebook/blenderbot-400M-distill";
    lit "bigscience/bloom-560m" ].

(** Lines 116 and 118: what is recorded for a probe. *)
Definition model_status (r : call_result) : jsstring :=
  match r with
  | Resolves _ => lit "Available"
  | Rejects err => lit "Unavailable: " ++ err
  end.

(** Lines 109-120: the loop, with the status object and the calls so far.
    The probe is [inputs: "Hello"] with [max_new_tokens: 5]. *)
Fixpoint probe_models (w : world) (ms : list jsstring)
    (modelStatus : object jsstring) (log : list event)
  : object jsstring * list event :=
  match ms with
  | [] => (modelStatus, log)
  | model :: rest =>
      probe_models w rest
        (obj_set modelStatus model
           (model_status (textGeneration w log model (lit "Hello"))))
        (log ++ [TextGeneration model (lit "Hello")])
  end.

(** Lines 122-125: the response, a 200. *)
Record models_report := {
  report_status : Z;
  report_timestamp : jsstring;
  report_modelStatus : object jsstring
}.

(** The handler for a given list of models; [now] is
    [new Date().toISOString()] when the loop has ended. *)
Definition check_models_with (ms : list jsstring) (w : world) (now : jsstring)
  : models_report * list event :=
  let '(modelStatus, log) := probe_models w ms [] [] in
  ({| report_status := 200; report_timestamp := now;
      report_modelStatus := modelStatus |}, log).

Definition get_check_models : world -> jsstring -> models_report * list event :=
  check_models_with probed_models.

(** The probes of the models [ms], in order. *)
Definition probes (ms : list jsstring) : list event :=
  map (fun m => TextGeneration m (lit "Hello")) ms.

(** ** GET /study-plans and GET /study-plan/:id (lines 286-340) *)

(** A value of a Firestore field.  A Timestamp is given by the [Date] its
    [toDate()] returns, in milliseconds; [FOther] stands for the values
    with no [toDate] method that are not listed (bytes, geo points,
    references, arrays, maps). *)
Inductive fsvalue :=
| FNull
| FBool (b : bool)
| FNumber (x : number)
| FString (s : jsstring)
| FTimestamp (date : Z)
| FOther.

(** [doc.data()]. *)
Definition data := object fsvalue.

(** A document of a query snapshot: [doc.id] and [doc.data()]. *)
Record document := {
  document_id : jsstring;
  document_data : data
}.

(** The snapshot of one document: [doc.id], and [doc.data()] when
    [doc.exists]. *)
Record snapshot := {
  snapshot_id : jsstring;
  snapshot_data : option data
}.

(** What an awaited read gives: it throws an error with a message, or
    returns. *)
Inductive read (A : Type) :=
| ReadFails (message : jsstring)
| ReadGives (a : A).

Arguments ReadFails {A} message.
Arguments ReadGives {A} a.

(** Lines 288-291: the query. *)
Record query := {
  query_orderBy : jsstring;
  query_descending : bool;
  query_limit : Z
}.

Definition recent_query : query :=
  {| query_orderBy := lit "createdAt"; query_descending := true;
     query_limit := 50 |}.

(** The collection, as the two routes read it. *)
Record store := {
  store_query : query -> read (list document);
  store_get : jsstring -> read snapshot
}.

(** A value in the object given to [res.json]. *)
Inductive jsvalue :=
| JUndefined
| JDate (date : Z)
| JStored (v : fsvalue).

(** What the [catch] of a route has caught: the error of the read, or the
    TypeError of calling a [toDate] that is not a function. *)
Inductive thrown :=
| StoreError (message : jsstring)
| NotAFunction.

(** [doc.data().createdAt?.toDate()]: [undefined] for a field that is
    absent or null, the date of a Timestamp, and a TypeError ([None]) for
    any other value. *)
Definition createdAt_toDate (d : data) : option jsvalue :=
  match obj_get d (lit "createdAt") with
  | None | Some FNull => Some JUndefined
  | Some (FTimestamp date) => Some (JDate date)
  | Some _ => None
  end.

(** Lines 295-299 and 325-329:
    [{ id: doc.id, ...doc.data(), createdAt: doc.data().createdAt?.toDate() }]. *)
Definition plan_object (id : jsstring) (d : data) : option (object jsvalue) :=
  match createdAt_toDate d with
  | None => None
  | Some created =>
      Some (obj_set
              (obj_assign [(lit "id", JStored (FString id))]
                          (map (fun kv => (fst kv, JStored (snd kv))) d))
              (lit "createdAt") created)
  end.

(** Lines 294-300: [snapshot.forEach(doc => plans.push(...))]; [None] when
    a callback throws. *)
Fixpoint collect_plans (docs : list document) (plans : list (object jsvalue))
  : option (list (object jsvalue)) :=
  match docs with
  | [] => Some plans
  | doc :: rest =>
      match plan_object (document_id doc) (document_data doc) with
      | None => None
      | Some p => collect_plans rest (plans ++ [p])
      end
  end.

(** The response of the two routes. *)
Record read_response (A : Type) := {
  read_status : Z;
  read_success : bool;
  read_payload : option A;
  read_error : option jsstring;
  read_details : option thrown
}.

Arguments read_status {A} r.
Arguments read_success {A} r.
Arguments read_payload {A} r.
Arguments read_error {A} r.
Arguments read_details {A} r.

Definition read_ok {A : Type} (a : A) : read_response A :=
  {| read_status := 200; read_success := true; read_payload := Some a;
     read_error := None; read_details := None |}.

Definition read_failed {A : Type} (error : jsstring) (e : thrown) : read_response A :=
  {| read_status := 500; read_success := false; read_payload := None;
     read_error := Some error; read_details := Some e |}.

(** Lines 286-311. *)
Definition get_study_plans (st : store) : read_response (list (object jsvalue)) :=
  match store_query st recent_query with
  | ReadFails message =>
      read_failed (lit "Failed to fetch study plans") (StoreError message)
  | ReadGives docs =>
      match collect_plans docs [] with
      | Some plans => read_ok plans
      | None => read_failed (lit "Failed to fetch study plans") NotAFunction
      end
  end.

(** Lines 314-340. *)
Definition get_study_plan (st : store) (id : jsstring) : read_response (object jsvalue) :=
  match store_get st id with
  | ReadFails message =>
      read_failed (lit "Failed to fetch study plan") (StoreError message)
  | ReadGives doc =>
      match snapshot_data doc with
      | None =>
          {| read_status := 404; read_success := false; read_payload := None;
             read_error := Some (lit "Study plan not found");
             read_details := None |}
      | Some d =>
          match plan_object (snapshot_id doc) d with
          | Some planData => read_ok planData
          | None => read_failed (lit "Failed to fetch study plan") NotAFunction
          end
      end
  end.

(** Lines 206-215 and 253-262: the fields of the document that
    [POST /generate-plan] writes, with the value the store holds for
    [createdAt]. *)
Definition stored_fields (doc : StoredPlan) (createdAt : fsvalue) : data :=
  [ (lit "subject", FString (doc_subject doc));
    (lit "level", FString (doc_level doc));
    (lit "duration", FString (doc_duration doc));
    (lit "goals", FString (doc_goals doc));
    (lit "plan", FString (doc_plan doc));
    (lit "modelUsed", FString (doc_modelUsed doc));
    (lit "createdAt", createdAt);
    (lit "isAiGenerated", FBool (doc_isAiGenerated doc)) ].

(** ** The responses of POST /generate-plan, given the write *)

(** The response of the loop for a text it accepts (lines 217-233). *)
Definition accepted_response (w : world) (log1 : list event) (doc : StoredPlan)
  : response :=
  {| status := 200; success := Some true; error := None;
     plan := Some (doc_plan doc); planId := studyPlans_add w log1 doc;
     modelUsed := Some (doc_modelUsed doc); isAiGenerated := Some true;
     message := None;
     warning := match studyPlans_add w log1 doc with
                | Some _ => None
                | None => Some (lit "Plan generated successfully but not saved to database")
                end |}.

(** The document of the fallback (lines 253-262). *)
Definition fallback_doc (subject level duration goals : jsstring) : StoredPlan :=
  {| doc_subject := subject; doc_level := level; doc_duration := duration;
     doc_goals := goals;
     doc_plan := generateFallbackPlan subject level duration goals;
     doc_modelUsed := lit "fallback"; doc_isAiGenerated := false |}.

(** The response of the fallback (lines 264-281). *)
Definition fallback_response (w : world) (log : list event) (doc : StoredPlan)
  : response :=
  {| status := 200; success := Some true; error := None;
     plan := Some (doc_plan doc); planId := studyPlans_add w log doc;
     modelUsed := Some (lit "fallback"); isAiGenerated := Some false;
     message := Some (lit "AI services are currently unavailable. A template study plan has been generated for you.");
     warning := match studyPlans_add w log doc with
                | Some _ => None
                | None => Some (lit "Plan not saved to database due to connection issues")
                end |}.

(** ** What the properties talk about *)

(** A field [createdAt] that [toDate] can be called on, or that [?.]
    skips. *)
Definition dated (d : data) : Prop :=
  match obj_get d (lit "createdAt") with
  | None | Some FNull | Some (FTimestamp _) => True
  | Some _ => False
  end.

(** A provider that gives the answer [r] to every call. *)
Definition always_answers (w : world) (model : jsstring) (r : call_result) : Prop :=
  forall log inputs, textGeneration w log model inputs = r.

(** The inputs of the calls to the providers. *)
Definition provider_inputs (log : list event) : list jsstring :=
  flat_map (fun e => match e with TextGeneration _ i => [i] | StoreAdd _ => [] end) log.

End Routes.

(** Concrete collaborators for the other routes. *)
Module Samples.
Import JS App Routes.

(** A plan as [POST /generate-plan] writes it on the fallback path. *)
Definition written : StoredPlan :=
  {| doc_subject := lit "Biology"; doc_level := lit "Beginner";
     doc_duration := lit "4 weeks"; doc_goals := lit "Pass exam";
     doc_plan := generateFallbackPlan (lit "Biology") (lit "Beginner")
                   (lit "4 weeks") (lit "Pass exam");
     doc_modelUsed := lit "fallback"; doc_isAiGenerated := false |}.

(** A document with a field [id] of its own and no [createdAt]. *)
Definition own_id : data :=
  [ (lit "subject", FString (lit "Maths")); (lit "id", FString (lit "mine")) ].

(** What is returned for it when it is the document "def". *)
Definition own_id_object : object jsvalue :=
  [ (lit "id", JStored (FString (lit "mine")));
    (lit "subject", JStored (FString (lit "Maths")));
    (lit "createdAt", JUndefined) ].

(** A document whose [createdAt] is a string. *)
Definition string_date : data :=
  [ (lit "subject", FString (lit "Maths"));
    (lit "createdAt", FString (lit "2024-01-01")) ].

(** A store with three documents, the last one malformed; only "abc"
    can be fetched. *)
Definition three_documents : store :=
  {| store_query := fun _ =>
       ReadGives [ {| document_id := lit "abc";
                      document_data := stored_fields written (FTimestamp 1700000000000) |};
                   {| document_id := lit "def"; document_data := own_id |};
                   {| document_id := lit "ghi"; document_data := string_date |} ];
     store_get := fun id =>
       if string_eqb id (lit "abc")
       then ReadGives {| snapshot_id := id;
                         snapshot_data := Some (stored_fields written (FTimestamp 1700000000000)) |}
       else ReadGives {| snapshot_id := id; snapshot_data := None |} |}.

(** A store with the two well-formed documents. *)
Definition two_documents : store :=
  {| store_query := fun _ =>
       ReadGives [ {| document_id := lit "abc";
                      document_data := stored_fields written (FTimestamp 1700000000000) |};
                   {| document_id := lit "def"; document_data := own_id |} ];
     store_get := fun id => ReadGives {| snapshot_id := id; snapshot_data := None |} |}.

(** A store that cannot be reached. *)
Definition unreachable : store :=
  {| store_query := fun _ => ReadFails (lit "deadline exceeded");
     store_get := fun _ => ReadFails (lit "deadline exceeded") |}.

(** Providers that answer every call, but with nothing usable. *)
Definition empty_answers : world :=
  {| textGeneration := fun _ _ _ => Resolves (Some {| generated_text := Some [] |});
     studyPlans_add := fun _ _ => Some (lit "doc-1") |}.

(** The first model answers with 100 spaces. *)
Definition blank_answer : world :=
  {| textGeneration := fun _ _ _ =>
       Resolves (Some {| generated_text := Some (repeat 32%N 100) |});
     studyPlans_add := fun _ _ => Some (lit "doc-1") |}.

(** The first model only echoes the prompt, the second one fails. *)
Definition echo_only : world :=
  {| textGeneration := fun _ _ inputs =>
       Resolves (Some {| generated_text := Some (lit " " ++ inputs ++ lit "
") |});
     studyPlans_add := fun _ _ => Some (lit "doc-1") |}.

End Samples.

Import JS App.

(* ================================================================== *)
(** * The runtime on examples *)
(* ================================================================== *)

(** Values as a JavaScript engine gives them. *)

Example replace_first_only :
  replace (lit "abcabc") (lit "bc") [] = lit "aabc".
Proof. reflexivity. Qed.

Example trim_both_ends :
  trim (lit "
  a b 	 ") = lit "a b".
Proof. reflexivity. Qed.

Example match_digits_first_run :
  match_digits (lit "in 12 or 15 weeks") = Some (lit "12").
Proof. reflexivity. Qed.

Example parseInt_leading_zeros : parseInt (lit "007") = Number_of_Z 7.
Proof. reflexivity. Qed.

Example parseInt_hexadecimal : parseInt (lit " -0x1F") = Number_of_Z (-31).
Proof. reflexivity. Qed.

Example lit_0_7_nearest : lit_0_7 = Number_of_Q 7 10.
Proof. reflexivity. Qed.

Example three_times_0_7 :
  Number_toString (mul (Number_of_Z 3) lit_0_7) = lit "2.0999999999999996".
Proof. vm_compute. reflexivity. Qed.

Example ten_times_0_7 :
  Number_toString (mul (Number_of_Z 10) lit_0_7) = lit "7".
Proof. vm_compute. reflexivity. Qed.

Example toString_sum :
  Number_toString (add (Number_of_Q 1 10) (Number_of_Q 2 10))
  = lit "0.30000000000000004".
Proof. vm_compute. reflexivity. Qed.

Example toString_rounded_integer :
  Number_toString (Number_of_Z 123456789012345677877) = lit "123456789012345680000".
Proof. vm_compute. reflexivity. Qed.

Example toString_exponent :
  Number_toString (Number_of_Z (10 ^ 21)) = lit "1e+21"
  /\ Number_toString (Number_of_Q 1 10000000) = lit "1e-7".
Proof. split; vm_compute; reflexivity. Qed.

Example ceil_negative_half :
  Math_ceil (SFopp (Number_of_Q 1 2)) = S754_zero true.
Proof. reflexivity. Qed.

Ltac pow_pos := apply Z.pow_pos_nonneg; lia.

(* ================================================================== *)
(** * Strings: indexOf, replace and trim *)
(* ================================================================== *)

Lemma starts_with_app (p t : jsstring) : starts_with p (p ++ t) = true.
Proof.
  induction p as [|c p IH]; simpl; [reflexivity|].
  now rewrite N.eqb_refl, IH.
Qed.



Lemma indexOf_None (s p : jsstring) :
  indexOf s p = None -> forall b a, s <> b ++ p ++ a.
Proof.
  induction s as [|c s IH]; simpl; intros H b a Hs.
  - destruct (starts_with p []) eqn:Hp; [discriminate|].
    destruct b; [|discriminate]. destruct p; discriminate.
  - destruct (starts_with p (c :: s)) eqn:Hp; [discriminate|].
    destruct (indexOf s p) eqn:Hj; [discriminate|].
    destruct b as [|c' b].
    + simpl in Hs. rewrite Hs, starts_with_app in Hp. discriminate.
    + injection Hs as _ Hs. exact (IH eq_refl _ _ Hs).
Qed.

Lemma indexOf_prefix (p t : jsstring) : indexOf (p ++ t) p = Some 0%nat.
Proof.
  destruct (p ++ t) eqn:E; simpl; rewrite <- E, starts_with_app; reflexivity.
Qed.








Lemma generatedText_nil (p : jsstring) : generatedText p [] = [].
Proof.
  unfold generatedText, includes, replace. simpl.
  destruct (starts_with p []); [|reflexivity].
  simpl. now rewrite skipn_nil.
Qed.




(** On that answer the accepted text is the plan itself. *)
Example echo_of_the_long_plan :
  generatedText Demo.biology_prompt
    (Demo.biology_prompt ++ lit "

" ++ Demo.long_plan ++ lit " ")
  = Demo.long_plan.
Proof. vm_compute. reflexivity. Qed.

(* ================================================================== *)
(** * The provider loop *)
(* ================================================================== *)

Lemma calls_before_app (p : jsstring) (a b : list jsstring) :
  calls_before p (a ++ b) = calls_before p a ++ calls_before p b.
Proof. apply map_app. Qed.

Lemma provider_calls_app (a b : list event) :
  provider_calls (a ++ b) = provider_calls a ++ provider_calls b.
Proof. apply flat_map_app. Qed.

Lemma store_writes_app (a b : list event) :
  store_writes (a ++ b) = store_writes a ++ store_writes b.
Proof. apply flat_map_app. Qed.

Lemma provider_calls_before (p : jsstring) (ms : list jsstring) :
  provider_calls (calls_before p ms) = ms.
Proof. induction ms as [|m ms IH]; simpl; [|rewrite IH]; reflexivity. Qed.

Lemma store_writes_before (p : jsstring) (ms : list jsstring) :
  store_writes (calls_before p ms) = [].
Proof. induction ms as [|m ms IH]; simpl; [reflexivity|exact IH]. Qed.

Lemma truthy_generated_text_Some (r : option generation_output) (raw : jsstring) :
  truthy_generated_text r = Some raw ->
  r = Some {| generated_text := Some raw |} /\ raw <> [].
Proof.
  destruct r as [[[[|c t]|]]|]; simpl; try discriminate.
  intros H; injection H as <-. split; [reflexivity|discriminate].
Qed.

Section Loop.

Variable w : world.
Variables subject level duration goals p : jsstring.

Let loop := try_models w subject level duration goals p.

Let accepted_doc := accepted_doc subject level duration goals.

(** One iteration on an unusable answer: the call is logged and the loop
    goes on with the models that are left. *)
Lemma loop_unusable (model : jsstring) (rest : list jsstring)
    (lastError : option jsstring) (log : list event) :
  unusable p (textGeneration w log model p) ->
  exists lastError',
    loop (model :: rest) lastError log
    = loop rest lastError' (log ++ [TextGeneration model p]).
Proof.
  intros Hu. unfold loop. simpl.
  destruct (textGeneration w log model p) as [err|r] eqn:Hr.
  - now exists (Some err).
  - destruct (truthy_generated_text r) as [raw|] eqn:Ht.
    + apply truthy_generated_text_Some in Ht as [-> _].
      specialize (Hu raw eq_refl).
      apply Nat.ltb_lt in Hu. rewrite Hu. now exists lastError.
    + now exists (Some (lit "No generated text in response")).
Qed.

(** A rejected call is absorbed: the error is kept in [lastError] and the
    next model is tried. *)
Lemma loop_rejects (model : jsstring) (rest : list jsstring)
    (lastError : option jsstring) (log : list event) (err : jsstring) :
  textGeneration w log model p = Rejects err ->
  loop (model :: rest) lastError log
  = loop rest (Some err) (log ++ [TextGeneration model p]).
Proof. intros Hr. unfold loop. simpl. now rewrite Hr. Qed.

(** Over a prefix of unusable answers the loop only logs the calls. *)
Lemma loop_skip (pre rest : list jsstring) :
  forall (lastError : option jsstring) (log : list event),
    (forall i m, nth_error pre i = Some m ->
       unusable p (textGeneration w (log ++ calls_before p (firstn i pre)) m p)) ->
    exists lastError',
      loop (pre ++ rest) lastError log
      = loop rest lastError' (log ++ calls_before p pre).
Proof.
  induction pre as [|m pre IH]; intros lastError log Hpre.
  - exists lastError. simpl. now rewrite app_nil_r.
  - assert (H0 := Hpre 0%nat m eq_refl). simpl in H0. rewrite app_nil_r in H0.
    destruct (loop_unusable m (pre ++ rest) lastError log H0) as [le2 E2].
    simpl app. rewrite E2.
    destruct (IH le2 (log ++ [TextGeneration m p])) as [le3 E3].
    + intros i m' Hi. specialize (Hpre (S i) m' Hi). simpl in Hpre.
      now rewrite <- app_assoc.
    + exists le3. rewrite E3. simpl. now rewrite <- app_assoc.
Qed.

(** One iteration on an acceptable answer: the text is written once and
    returned, with a warning instead of an id when the write throws. *)
Lemma loop_accepts (model : jsstring) (rest : list jsstring)
    (lastError : option jsstring) (log : list event) (raw : jsstring) :
  textGeneration w log model p = Resolves (Some {| generated_text := Some raw |}) ->
  (100 <= List.length (generatedText p raw))%nat ->
  let text := generatedText p raw in
  let log1 := log ++ [TextGeneration model p] in
  exists r,
    loop (model :: rest) lastError log
    = (Some r, log1 ++ [StoreAdd (accepted_doc model text)])
    /\ status r = 200%Z /\ success r = Some true /\ plan r = Some text
    /\ modelUsed r = Some model /\ isAiGenerated r = Some true
    /\ planId r = studyPlans_add w log1 (accepted_doc model text)
    /\ (planId r = None ->
        warning r = Some (lit "Plan generated successfully but not saved to database")).
Proof.
  intros Hr Hlen text log1. unfold loop. simpl. rewrite Hr.
  destruct raw as [|c t].
  - rewrite generatedText_nil in Hlen. simpl in Hlen. lia.
  - simpl truthy_generated_text. cbv iota beta.
    destruct (Nat.ltb_spec (List.length (generatedText p (c :: t))) 100) as [Hlt|_];
      [lia|].
    fold text log1. unfold accepted_doc, App.accepted_doc.
    destruct (studyPlans_add w log1 _) as [id|] eqn:Hadd;
      eexists; (split; [reflexivity|]); simpl; repeat split; try assumption;
      try congruence; auto.
Qed.

(** Whatever the providers do, the loop either returns a response to a
    request it has written once, after calling a prefix of the models, or
    runs out of models having only called them. *)
Lemma loop_outcome (ms : list jsstring) :
  forall (lastError : option jsstring) (log : list event),
    match loop ms lastError log with
    | (Some r, log') =>
        exists called model rest raw,
          ms = called ++ model :: rest
          /\ let text := generatedText p raw in
             let log1 := log ++ calls_before p (called ++ [model]) in
             log' = log1 ++ [StoreAdd (accepted_doc model text)]
             /\ (100 <= List.length text)%nat
             /\ status r = 200%Z /\ success r = Some true /\ plan r = Some text
             /\ modelUsed r = Some model /\ isAiGenerated r = Some true
             /\ planId r = studyPlans_add w log1 (accepted_doc model text)
             /\ (planId r = None -> exists wtext, warning r = Some wtext /\ wtext <> [])
    | (None, log') => log' = log ++ calls_before p ms
    end.
Proof.
  induction ms as [|m ms IH]; intros lastError log.
  - simpl. now rewrite app_nil_r.
  - unfold loop. simpl.
    assert (Hcont : forall le,
      match loop ms le (log ++ [TextGeneration m p]) with
      | (Some r, log') =>
          exists called model rest raw,
            m :: ms = called ++ model :: rest
            /\ let text := generatedText p raw in
               let log1 := log ++ calls_before p (called ++ [model]) in
               log' = log1 ++ [StoreAdd (accepted_doc model text)]
               /\ (100 <= List.length text)%nat
               /\ status r = 200%Z /\ success r = Some true /\ plan r = Some text
               /\ modelUsed r = Some model /\ isAiGenerated r = Some true
               /\ planId r = studyPlans_add w log1 (accepted_doc model text)
               /\ (planId r = None -> exists wtext, warning r = Some wtext /\ wtext <> [])
      | (None, log') => log' = log ++ calls_before p (m :: ms)
      end).
    { intros le. specialize (IH le (log ++ [TextGeneration m p])).
      destruct (loop ms le (log ++ [TextGeneration m p])) as [[r|] log'].
      - destruct IH as (called & model & rest & raw & Hms & H).
        exists (m :: called), model, rest, raw. split; [simpl; now f_equal|].
        assert (E : (log ++ [TextGeneration m p]) ++ calls_before p (called ++ [model])
                    = log ++ calls_before p ((m :: called) ++ [model]))
          by (rewrite <- app_assoc; reflexivity).
        cbv zeta in H |- *. rewrite E in H. exact H.
      - rewrite IH. rewrite <- app_assoc. reflexivity. }
    destruct (textGeneration w log m p) as [err|resp] eqn:Hr; [apply Hcont|].
    destruct (truthy_generated_text resp) as [raw|] eqn:Ht; [|apply Hcont].
    destruct (Nat.ltb_spec (List.length (generatedText p raw)) 100) as [_|Hge];
      [apply Hcont|].
    destruct (studyPlans_add w (log ++ [TextGeneration m p]) _) as [id|] eqn:Hadd.
    + exists [], m, ms, raw. simpl. unfold accepted_doc, App.accepted_doc.
      repeat split; try assumption; try congruence; try discriminate.
    + exists [], m, ms, raw. simpl. unfold accepted_doc, App.accepted_doc.
      repeat split; try assumption; try congruence.
      intros _. eexists. split; [reflexivity|discriminate].
Qed.

End Loop.

(* ================================================================== *)
(** * The handler *)
(* ================================================================== *)

Lemma models_NoDup : NoDup models.
Proof.
  assert (H : forallb (fun i => forallb (fun j =>
               (i =? j)%nat
               || negb (if list_eq_dec N.eq_dec (nth i models []) (nth j models [])
                        then true else false))
               (seq 0 5)) (seq 0 5) = true) by (vm_compute; reflexivity).
  apply (NoDup_nth models []). intros i j Hi Hj E.
  change (List.length models) with 5%nat in Hi, Hj.
  rewrite forallb_forall in H.
  assert (Hi' : In i (seq 0 5)) by (apply in_seq; lia).
  specialize (H i Hi'). rewrite forallb_forall in H.
  assert (Hj' : In j (seq 0 5)) by (apply in_seq; lia).
  specialize (H j Hj'). apply orb_true_iff in H as [H|H].
  - now apply Nat.eqb_eq.
  - rewrite E in H. destruct (list_eq_dec N.eq_dec _ _); [discriminate|congruence].
Qed.

(** On a valid request the handler runs the loop and, when it is
    exhausted, the fallback. *)
Lemma generate_plan_valid (ms : list jsstring) (w : world) (body : request_body)
    (subject level duration goals : jsstring) :
  valid_request body subject level duration goals ->
  generate_plan_with ms w body
  = match try_models w subject level duration goals
            (prompt subject level duration goals) ms None [] with
    | (Some r, log) => (r, log)
    | (None, log) => fallback w subject level duration goals log
    end.
Proof.
  intros (-> & Hs & Hl & Hd & Hg). unfold generate_plan_with. simpl.
  destruct subject; [congruence|]. destruct level; [congruence|].
  destruct duration; [congruence|]. destruct goals; [congruence|].
  reflexivity.
Qed.

(** The fallback writes the template once and answers 200 with it. *)
Lemma fallback_outcome (w : world) (subject level duration goals : jsstring)
    (log : list event) :
  exists r doc,
    fallback w subject level duration goals log = (r, log ++ [StoreAdd doc])
    /\ doc_plan doc = generateFallbackPlan subject level duration goals
    /\ doc_modelUsed doc = lit "fallback" /\ doc_isAiGenerated doc = false
    /\ status r = 200%Z /\ success r = Some true
    /\ plan r = Some (doc_plan doc) /\ modelUsed r = Some (doc_modelUsed doc)
    /\ isAiGenerated r = Some false
    /\ planId r = studyPlans_add w log doc
    /\ (planId r = None -> exists wtext, warning r = Some wtext /\ wtext <> []).
Proof.
  unfold fallback.
  destruct (studyPlans_add w log _) as [id|] eqn:Hadd;
    eexists; eexists; (split; [reflexivity|]); simpl; rewrite Hadd;
    repeat split; try discriminate.
  intros _. eexists. split; [reflexivity|discriminate].
Qed.

Lemma valid_or_rejected (ms : list jsstring) (w : world) (body : request_body) :
  generate_plan_with ms w body = (bad_request, [])
  \/ exists subject level duration goals,
       valid_request body subject level duration goals.
Proof.
  destruct body as [[[|a s]|] [[|b l]|] [[|c d]|] [[|e g]|]];
    try (left; reflexivity).
  right. exists (a :: s), (b :: l), (c :: d), (e :: g).
  repeat split; discriminate.
Qed.

(** C1. On a valid request, for any list of providers: when provider [k] is
    the first whose answer carries a [generated_text] of at least 100 code
    units once the echo is stripped ([pre] being the providers before it,
    all unusable), the response is a 200 with [modelUsed] = [k],
    [isAiGenerated] true and the stripped text of [k] as plan; the providers
    called are exactly [pre] then [k], each position once, so none after [k]
    and, the list having no duplicate, no provider twice. *)
Theorem first_acceptable_provider_wins
    (w : world) (body : request_body) (subject level duration goals : jsstring)
    (pre post : list jsstring) (k raw : jsstring) :
  valid_request body subject level duration goals ->
  all_unusable w (prompt subject level duration goals) pre ->
  textGeneration w (calls_before (prompt subject level duration goals) pre) k
                 (prompt subject level duration goals)
    = Resolves (Some {| generated_text := Some raw |}) ->
  (100 <= List.length (generatedText (prompt subject level duration goals) raw))%nat ->
  let out := generate_plan_with (pre ++ k :: post) w body in
  status (fst out) = 200%Z
  /\ modelUsed (fst out) = Some k
  /\ isAiGenerated (fst out) = Some true
  /\ plan (fst out) = Some (generatedText (prompt subject level duration goals) raw)
  /\ provider_calls (snd out) = pre ++ [k]
  /\ (NoDup (pre ++ k :: post) -> NoDup (provider_calls (snd out))).
Proof.
  intros Hv Hpre Hk Hlen out. subst out.
  rewrite (generate_plan_valid _ _ _ _ _ _ _ Hv).
  set (p := prompt subject level duration goals) in *.
  destruct (loop_skip w subject level duration goals p pre (k :: post) None [])
    as [le E]; [exact Hpre|].
  rewrite E. simpl app.
  destruct (loop_accepts w subject level duration goals p k post le
              (calls_before p pre) raw Hk Hlen)
    as (r & Er & Hst & _ & Hplan & Hmodel & Hai & _).
  rewrite Er. simpl.
  assert (Hcalls : provider_calls
            ((calls_before p pre ++ [TextGeneration k p])
             ++ [StoreAdd (accepted_doc subject level duration goals k (generatedText p raw))])
          = pre ++ [k]).
  { rewrite !provider_calls_app, provider_calls_before. simpl.
    now rewrite app_nil_r. }
  repeat split; try assumption.
  rewrite Hcalls. intros Hnd.
  change (pre ++ k :: post) with (pre ++ [k] ++ post) in Hnd.
  rewrite app_assoc in Hnd. exact (NoDup_app_remove_r _ _ Hnd).
Qed.

(** C2. On a valid request, when every provider's attempt raises, carries
    no [generated_text], or carries one shorter than 100 code units once
    the echo is stripped, the response has [isAiGenerated] false,
    [modelUsed] "fallback" and [generateFallbackPlan(subject, level,
    duration, goals)] as plan. *)
Theorem all_unusable_gives_fallback
    (ms : list jsstring) (w : world) (body : request_body)
    (subject level duration goals : jsstring) :
  valid_request body subject level duration goals ->
  all_unusable w (prompt subject level duration goals) ms ->
  let out := generate_plan_with ms w body in
  isAiGenerated (fst out) = Some false
  /\ modelUsed (fst out) = Some (lit "fallback")
  /\ plan (fst out) = Some (generateFallbackPlan subject level duration goals)
  /\ status (fst out) = 200%Z
  /\ provider_calls (snd out) = ms.
Proof.
  intros Hv Hall out. subst out.
  rewrite (generate_plan_valid _ _ _ _ _ _ _ Hv).
  set (p := prompt subject level duration goals) in *.
  destruct (loop_skip w subject level duration goals p ms [] None [])
    as [le E]; [exact Hall|].
  rewrite app_nil_r in E. rewrite E. simpl.
  destruct (fallback_outcome w subject level duration goals (calls_before p ms))
    as (r & doc & Ef & Hp & Hm & _ & Hst & _ & Hplan & Hmodel & Hai & _).
  rewrite Ef. simpl. rewrite Hplan, Hmodel, Hp, Hm.
  repeat split; try assumption.
  rewrite provider_calls_app, provider_calls_before. simpl. apply app_nil_r.
Qed.

(** C3. On a valid request the response is a 200 whatever the providers
    do, even when all of them fail; and a provider call that raises is
    absorbed: the loop goes on with the next provider. *)
Theorem provider_errors_never_escape
    (ms : list jsstring) (w : world) (body : request_body)
    (subject level duration goals : jsstring) :
  valid_request body subject level duration goals ->
  status (fst (generate_plan_with ms w body)) = 200%Z
  /\ forall model rest lastError log err,
       textGeneration w log model (prompt subject level duration goals) = Rejects err ->
       try_models w subject level duration goals
         (prompt subject level duration goals) (model :: rest) lastError log
       = try_models w subject level duration goals
           (prompt subject level duration goals) rest (Some err)
           (log ++ [TextGeneration model (prompt subject level duration goals)]).
Proof.
  intros Hv. split.
  - rewrite (generate_plan_valid _ _ _ _ _ _ _ Hv).
    set (p := prompt subject level duration goals).
    pose proof (loop_outcome w subject level duration goals p ms None []) as H.
    destruct (try_models w subject level duration goals p ms None []) as [[r|] log].
    + destruct H as (called & model & rest & raw & _ & _ & _ & Hst & _). exact Hst.
    + destruct (fallback_outcome w subject level duration goals log)
        as (r & doc & Ef & _ & _ & _ & Hst & _).
      rewrite Ef. exact Hst.
  - intros model rest lastError log err. apply loop_rejects.
Qed.

(** C4. When one of the four fields is missing or the empty string, the
    response is a 400 with an [error] field and the handler has called no
    provider and attempted no store write. *)
Theorem missing_field_is_rejected
    (ms : list jsstring) (w : world) (body : request_body) :
  missing_or_empty (body_subject body) \/ missing_or_empty (body_level body)
  \/ missing_or_empty (body_duration body) \/ missing_or_empty (body_goals body) ->
  let out := generate_plan_with ms w body in
  status (fst out) = 400%Z
  /\ error (fst out) <> None
  /\ snd out = []
  /\ provider_calls (snd out) = []
  /\ store_writes (snd out) = [].
Proof.
  intros H out.
  assert (E : out = (bad_request, [])).
  { subst out. unfold generate_plan_with.
    destruct body as [s l d g]. simpl in *.
    unfold missing_or_empty in H.
    destruct H as [[-> | ->]|[[-> | ->]|[[-> | ->]|[-> | ->]]]]; simpl;
      rewrite ?orb_true_r; reflexivity. }
  rewrite E. simpl. repeat split. discriminate.
Qed.

(** C5. On a valid request, when the store write the handler attempts
    raises, the response is still a 200 with [success] true, the plan that
    was to be written, a non-empty [warning] and no [planId]. *)
Theorem store_failure_becomes_warning
    (ms : list jsstring) (w : world) (body : request_body)
    (subject level duration goals : jsstring) (history : list event)
    (doc : StoredPlan) :
  valid_request body subject level duration goals ->
  snd (generate_plan_with ms w body) = history ++ [StoreAdd doc] ->
  studyPlans_add w history doc = None ->
  let r := fst (generate_plan_with ms w body) in
  status r = 200%Z /\ success r = Some true /\ plan r = Some (doc_plan doc)
  /\ (exists wtext, warning r = Some wtext /\ wtext <> [])
  /\ planId r = None.
Proof.
  intros Hv Hlog Hadd r. subst r. revert Hlog.
  rewrite (generate_plan_valid _ _ _ _ _ _ _ Hv).
  set (p := prompt subject level duration goals).
  pose proof (loop_outcome w subject level duration goals p ms None []) as H.
  destruct (try_models w subject level duration goals p ms None []) as [[r|] log].
  - destruct H as (called & model & rest & raw & _ & Hlog' & _ & Hst & Hsu & Hplan
                   & _ & _ & Hid & Hw).
    simpl. intros Hlog. rewrite Hlog' in Hlog.
    apply app_inj_tail in Hlog as [Hh Hd]. injection Hd as <-.
    rewrite Hh, Hadd in Hid. repeat split; auto.
  - destruct (fallback_outcome w subject level duration goals log)
      as (r & doc' & Ef & _ & _ & _ & Hst & Hsu & Hplan & _ & _ & Hid & Hw).
    rewrite Ef. simpl. intros Hlog.
    apply app_inj_tail in Hlog as [Hh Hd]. injection Hd as Hd.
    rewrite Hh, Hd, Hadd in Hid. rewrite Hd in Hplan. repeat split; auto.
Qed.

(** C9. A response with [success] true comes with at most one store write
    (the handler in fact attempts exactly one), and what is written is the
    plan, the model and the flag of the response: no rejected or failed
    attempt is written. *)
Theorem success_writes_only_the_final_plan
    (ms : list jsstring) (w : world) (body : request_body) :
  success (fst (generate_plan_with ms w body)) = Some true ->
  let out := generate_plan_with ms w body in
  (List.length (store_writes (snd out)) <= 1)%nat
  /\ (exists doc, store_writes (snd out) = [doc])
  /\ forall doc, In doc (store_writes (snd out)) ->
       plan (fst out) = Some (doc_plan doc)
       /\ modelUsed (fst out) = Some (doc_modelUsed doc)
       /\ isAiGenerated (fst out) = Some (doc_isAiGenerated doc).
Proof.
  intros Hs out. subst out.
  destruct (valid_or_rejected ms w body) as [E|(subject & level & duration & goals & Hv)].
  { rewrite E in Hs. discriminate. }
  clear Hs. rewrite (generate_plan_valid _ _ _ _ _ _ _ Hv).
  set (p := prompt subject level duration goals).
  pose proof (loop_outcome w subject level duration goals p ms None []) as H.
  destruct (try_models w subject level duration goals p ms None []) as [[r|] log].
  - destruct H as (called & model & rest & raw & _ & Hlog & _ & _ & _ & Hplan
                   & Hmodel & Hai & _).
    cbv zeta in Hlog. simpl fst; simpl snd.
    assert (W : store_writes log
                = [accepted_doc subject level duration goals model (generatedText p raw)]).
    { rewrite Hlog. simpl. rewrite store_writes_app, store_writes_before. reflexivity. }
    rewrite W. split; [simpl; lia|]. split; [eexists; reflexivity|].
    intros doc [<-|[]]. simpl. auto.
  - destruct (fallback_outcome w subject level duration goals log)
      as (r & doc' & Ef & _ & _ & Hfl & _ & _ & Hplan & Hmodel & Hai & _).
    rewrite Ef. simpl fst; simpl snd.
    assert (W : store_writes (log ++ [StoreAdd doc']) = [doc']).
    { rewrite H. simpl. rewrite store_writes_app, store_writes_before. reflexivity. }
    rewrite W. split; [simpl; lia|]. split; [eexists; reflexivity|].
    intros doc [<-|[]]. rewrite Hfl. auto.
Qed.

(** ** The handler theorems on concrete requests *)

Lemma biology_valid :
  valid_request Demo.biology (lit "Biology") (lit "Beginner") (lit "4 weeks")
                (lit "Pass exam").
Proof. repeat split; discriminate. Defined.

Lemma first_acceptable_provider_wins_witness :
  let out := post_generate_plan Demo.second_answers Demo.biology in
  status (fst out) = 200%Z
  /\ modelUsed (fst out) = Some (lit "microsoft/DialoGPT-medium")
  /\ isAiGenerated (fst out) = Some true
  /\ plan (fst out)
     = Some (generatedText Demo.biology_prompt
               (Demo.biology_prompt ++ lit "

" ++ Demo.long_plan ++ lit " "))
  /\ provider_calls (snd out)
     = [lit "mistralai/Mistral-7B-Instruct-v0.3"] ++ [lit "microsoft/DialoGPT-medium"]
  /\ (NoDup models -> NoDup (provider_calls (snd out))).
Proof.
  apply (first_acceptable_provider_wins Demo.second_answers Demo.biology
           (lit "Biology") (lit "Beginner") (lit "4 weeks") (lit "Pass exam")
           [lit "mistralai/Mistral-7B-Instruct-v0.3"]
           [lit "google/flan-t5-large"; lit "facebook/blenderbot-400M-distill";
            lit "bigscience/bloom-560m"]
           (lit "microsoft/DialoGPT-medium")
           (Demo.biology_prompt ++ lit "

" ++ Demo.long_plan ++ lit " ")).
  - exact biology_valid.
  - intros [|[|i]] m Hm; try discriminate Hm.
    injection Hm as <-. intros raw Hr. vm_compute in Hr. discriminate Hr.
  - vm_compute. reflexivity.
  - vm_compute. lia.
Defined.

Lemma all_unusable_gives_fallback_witness :
  let out := post_generate_plan Demo.providers_down Demo.biology in
  isAiGenerated (fst out) = Some false
  /\ modelUsed (fst out) = Some (lit "fallback")
  /\ plan (fst out)
     = Some (generateFallbackPlan (lit "Biology") (lit "Beginner") (lit "4 weeks")
                                  (lit "Pass exam"))
  /\ status (fst out) = 200%Z
  /\ provider_calls (snd out) = models.
Proof.
  apply (all_unusable_gives_fallback models Demo.providers_down Demo.biology
           (lit "Biology") (lit "Beginner") (lit "4 weeks") (lit "Pass exam")).
  - exact biology_valid.
  - intros i m Hm raw Hr.
    assert (Hi : (i < 5)%nat)
      by (apply (nth_error_Some models i); rewrite Hm; discriminate).
    destruct i as [|[|[|[|[|i]]]]]; [| | | | |lia];
      injection Hm as <-; vm_compute in Hr; try discriminate Hr;
      injection Hr as <-; vm_compute; lia.
Defined.

Lemma provider_errors_never_escape_witness :
  status (fst (post_generate_plan Demo.all_down Demo.biology)) = 200%Z.
Proof.
  apply (provider_errors_never_escape models Demo.all_down Demo.biology
           (lit "Biology") (lit "Beginner") (lit "4 weeks") (lit "Pass exam")).
  exact biology_valid.
Defined.

Lemma missing_field_is_rejected_witness :
  let out := post_generate_plan Demo.second_answers Demo.no_goals in
  status (fst out) = 400%Z
  /\ error (fst out) <> None
  /\ snd out = []
  /\ provider_calls (snd out) = []
  /\ store_writes (snd out) = [].
Proof.
  apply (missing_field_is_rejected models Demo.second_answers Demo.no_goals).
  right. right. right. right. reflexivity.
Defined.

Lemma store_failure_becomes_warning_witness :
  let r := fst (post_generate_plan Demo.all_down Demo.biology) in
  status r = 200%Z /\ success r = Some true
  /\ plan r = Some (generateFallbackPlan (lit "Biology") (lit "Beginner")
                      (lit "4 weeks") (lit "Pass exam"))
  /\ (exists wtext, warning r = Some wtext /\ wtext <> [])
  /\ planId r = None.
Proof.
  apply (store_failure_becomes_warning models Demo.all_down Demo.biology
           (lit "Biology") (lit "Beginner") (lit "4 weeks") (lit "Pass exam")
           (calls_before Demo.biology_prompt models)
           {| doc_subject := lit "Biology"; doc_level := lit "Beginner";
              doc_duration := lit "4 weeks"; doc_goals := lit "Pass exam";
              doc_plan := generateFallbackPlan (lit "Biology") (lit "Beginner")
                            (lit "4 weeks") (lit "Pass exam");
              doc_modelUsed := lit "fallback"; doc_isAiGenerated := false |}).
  - exact biology_valid.
  - vm_compute. reflexivity.
  - reflexivity.
Defined.

Lemma success_writes_only_the_final_plan_witness :
  let out := post_generate_plan Demo.second_answers Demo.biology in
  (List.length (store_writes (snd out)) <= 1)%nat
  /\ (exists doc, store_writes (snd out) = [doc])
  /\ forall doc, In doc (store_writes (snd out)) ->
       plan (fst out) = Some (doc_plan doc)
       /\ modelUsed (fst out) = Some (doc_modelUsed doc)
       /\ isAiGenerated (fst out) = Some (doc_isAiGenerated doc).
Proof.
  apply (success_writes_only_the_final_plan models Demo.second_answers Demo.biology).
  vm_compute. reflexivity.
Defined.

(* ================================================================== *)
(** * Numbers: the conversion of an integer to a Number *)
(* ================================================================== *)

Lemma digits2_pos_size (p : positive) : digits2_pos p = Pos.size p.
Proof. induction p; simpl; congruence. Qed.

(** [2^(d-1) <= p < 2^d] for the number [d] of binary digits of [p]. *)
Lemma digits2_pos_bounds (p : positive) :
  (2 ^ (Zpos (digits2_pos p) - 1) <= Zpos p < 2 ^ Zpos (digits2_pos p))%Z.
Proof.
  rewrite digits2_pos_size. split.
  - pose proof (Pos.size_le p) as H.
    apply Pos2Z.pos_le_pos in H. rewrite Pos2Z.inj_pow in H.
    replace (Zpos (Pos.size p)) with (Z.succ (Zpos (Pos.size p) - 1)) in H by lia.
    rewrite Z.pow_succ_r in H by lia.
    change (Zpos p~0) with (2 * Zpos p)%Z in H. lia.
  - pose proof (Pos.size_gt p) as H.
    apply Pos2Z.pos_lt_pos in H. now rewrite Pos2Z.inj_pow in H.
Qed.

Lemma iter_xO_value (p k : positive) :
  Zpos (Pos.iter xO p k) = (Zpos p * 2 ^ Zpos k)%Z.
Proof.
  induction k as [|k IH] using Pos.peano_ind.
  - simpl. lia.
  - rewrite Pos.iter_succ, Pos2Z.inj_succ, Z.pow_succ_r by lia.
    change (Zpos (Pos.iter xO p k)~0) with (2 * Zpos (Pos.iter xO p k))%Z.
    rewrite IH. ring.
Qed.

Lemma iter_xO_digits (p k : positive) :
  digits2_pos (Pos.iter xO p k) = (digits2_pos p + k)%positive.
Proof.
  induction k as [|k IH] using Pos.peano_ind.
  - simpl. lia.
  - rewrite Pos.iter_succ. simpl. rewrite IH. lia.
Qed.

(** A right shift of [n] bits divides the mantissa by [2^n]. *)
Lemma shr_1_m (mrs : shr_record) :
  (0 <= shr_m mrs)%Z -> shr_m (shr_1 mrs) = (shr_m mrs / 2)%Z.
Proof.
  destruct mrs as [m r s]. simpl. intros Hm.
  destruct m as [|[p|p|]|p]; simpl; try reflexivity; try lia.
  - rewrite Pos2Z.inj_xI. apply Z.div_unique with (r := 1%Z); lia.
  - rewrite Pos2Z.inj_xO. apply Z.div_unique with (r := 0%Z); lia.
Qed.

Lemma iter_shr_1_m (n : positive) :
  forall mrs : shr_record,
    (0 <= shr_m mrs)%Z ->
    shr_m (iter_pos shr_1 n mrs) = (shr_m mrs / 2 ^ Zpos n)%Z.
Proof.
  assert (Hdiv : forall a b c, (0 < b -> 0 < c -> a / b / c = a / (b * c))%Z)
    by (intros; apply Z.div_div; lia).
  assert (Hpow : forall k, (0 < 2 ^ Zpos k)%Z) by (intros; apply Z.pow_pos_nonneg; lia).
  assert (Hnn : forall a k, (0 <= a -> 0 <= a / 2 ^ Zpos k)%Z)
    by (intros; apply Z.div_pos; auto).
  induction n as [n IH|n IH|]; intros mrs Hm; cbn [iter_pos].
  - assert (H1 : (0 <= shr_m (shr_1 mrs))%Z)
      by (rewrite shr_1_m by assumption; apply Z.div_pos; lia).
    rewrite IH by (rewrite IH by assumption; auto).
    rewrite IH, shr_1_m by assumption.
    rewrite !Hdiv by (auto; lia). f_equal.
    change 2%Z with (2 ^ 1)%Z at 1.
    rewrite <- !Z.pow_add_r by lia. f_equal. lia.
  - rewrite IH by (rewrite IH by assumption; auto).
    rewrite IH by assumption.
    rewrite Hdiv by auto. f_equal.
    rewrite <- Z.pow_add_r by lia. f_equal. lia.
  - rewrite shr_1_m by assumption. reflexivity.
Qed.

Lemma shr_record_of_loc_m (m : Z) (l : location) :
  shr_m (shr_record_of_loc m l) = m.
Proof. destruct l as [|[]]; reflexivity. Qed.

(** Rounding a positive mantissa whose exponent is not below the least one
    leaves a positive mantissa. *)
Lemma shr_fexp_pos (p : positive) (e : Z) (l : location) :
  (-1074 <= e)%Z ->
  (0 < shr_m (fst (shr_fexp prec emax (Zpos p) e l)))%Z
  /\ (-1074 <= snd (shr_fexp prec emax (Zpos p) e l))%Z.
Proof.
  intros He. unfold shr_fexp, shr, fexp, emin, prec, emax. cbn [Zdigits2].
  pose proof (digits2_pos_bounds p) as [Hlo _].
  set (d := Zpos (digits2_pos p)) in *.
  destruct (Z.max (d + e - 53) (3 - 1024 - 53) - e)%Z as [|n|n] eqn:En;
    cbn [fst snd]; rewrite ?shr_record_of_loc_m; try (split; lia).
  rewrite iter_shr_1_m by (rewrite shr_record_of_loc_m; lia).
  rewrite shr_record_of_loc_m. split; [|lia].
  apply Z.div_str_pos. split; [apply Z.pow_pos_nonneg; lia|].
  apply Z.le_trans with (2 ^ (d - 1))%Z; [|exact Hlo].
  apply Z.pow_le_mono_r; lia.
Qed.

Lemma round_nearest_even_pos (m : Z) (l : location) :
  (0 < m)%Z -> (0 < round_nearest_even m l)%Z.
Proof. destruct l as [|[]]; simpl; try destruct (Z.even m); lia. Qed.

Lemma binary_round_aux_truthy (p : positive) (e : Z) :
  (-1074 <= e)%Z ->
  ToBoolean (binary_round_aux prec emax false (Zpos p) e loc_Exact) = true.
Proof.
  intros He. unfold binary_round_aux.
  destruct (shr_fexp_pos p e loc_Exact He) as [H1 H1e].
  destruct (shr_fexp prec emax (Zpos p) e loc_Exact) as [mrs' e'].
  cbn [fst snd] in H1, H1e.
  pose proof (round_nearest_even_pos (shr_m mrs') (loc_of_shr_record mrs') H1) as H2.
  destruct (round_nearest_even (shr_m mrs') (loc_of_shr_record mrs')) as [|q|q];
    try lia.
  destruct (shr_fexp_pos q e' loc_Exact H1e) as [H3 _].
  destruct (shr_fexp prec emax (Zpos q) e' loc_Exact) as [mrs'' e''].
  cbn [fst] in H3.
  destruct (shr_m mrs'') as [|m|m]; try lia.
  destruct (e'' <=? emax - prec)%Z; reflexivity.
Qed.

(** The Number of a positive integer is neither a zero nor NaN. *)
Lemma Number_of_Z_truthy (v : Z) :
  (0 < v)%Z -> ToBoolean (Number_of_Z v) = true.
Proof.
  intros Hv. destruct v as [|p|p]; try lia.
  unfold Number_of_Z, Number_of_Z_signed, binary_normalize, binary_round, shl_align.
  destruct (fexp prec emax (Zpos (digits2_pos p) + 0) - 0)%Z as [|k|k] eqn:Ek;
    apply binary_round_aux_truthy; try lia.
  unfold fexp, emin, prec, emax in *. lia.
Qed.

(** A mantissa of 53 bits is already rounded. *)
Lemma binary_round_aux_canonical (m : positive) (e : Z) :
  Zpos (digits2_pos m) = 53%Z -> (-1074 <= e <= 971)%Z ->
  binary_round_aux prec emax false (Zpos m) e loc_Exact = S754_finite false m e.
Proof.
  intros Hd He.
  assert (E : shr_fexp prec emax (Zpos m) e loc_Exact
              = ({| shr_m := Zpos m; shr_r := false; shr_s := false |}, e)).
  { unfold shr_fexp, shr, fexp, emin, prec, emax. cbn [Zdigits2]. rewrite Hd.
    replace (Z.max (53 + e - 53) (3 - 1024 - 53) - e)%Z with 0%Z by lia.
    reflexivity. }
  unfold binary_round_aux. rewrite E. cbn [shr_m loc_of_shr_record round_nearest_even].
  rewrite E. cbn [shr_m]. unfold emax, prec.
  destruct (Z.leb_spec e (1024 - 53)); [reflexivity|lia].
Qed.

(** Shifting out [n] zero bits is exact. *)
Lemma iter_shr_1_exact (n : positive) :
  forall a : positive,
    iter_pos shr_1 n {| shr_m := Zpos a * 2 ^ Zpos n; shr_r := false; shr_s := false |}
    = {| shr_m := Zpos a; shr_r := false; shr_s := false |}.
Proof.
  assert (Hsplit : forall (a k : positive),
            (Zpos a * 2 ^ Zpos k~0 = Zpos (a * 2 ^ k) * 2 ^ Zpos k)%Z).
  { intros a k. rewrite Pos2Z.inj_mul, Pos2Z.inj_pow.
    replace (Zpos k~0) with (Zpos k + Zpos k)%Z by lia.
    rewrite Z.pow_add_r by lia. ring. }
  induction n as [n IH|n IH|]; intros a; cbn [iter_pos].
  - replace (Zpos a * 2 ^ Zpos n~1)%Z with (Zpos (a * 2 ^ n~0)~0).
    + cbn [shr_1 orb]. rewrite Pos2Z.inj_mul, Pos2Z.inj_pow.
      change (Zpos 2) with 2%Z. rewrite Hsplit, IH.
      rewrite Pos2Z.inj_mul, Pos2Z.inj_pow. apply IH.
    + rewrite Pos2Z.inj_xO, Pos2Z.inj_mul, Pos2Z.inj_pow.
      replace (Zpos n~1) with (Zpos n~0 + 1)%Z by lia.
      rewrite Z.pow_add_r by lia. change (Zpos 2) with 2%Z. ring.
  - rewrite Hsplit, IH. rewrite Pos2Z.inj_mul, Pos2Z.inj_pow. apply IH.
  - replace (Zpos a * 2 ^ 1)%Z with (Zpos a~0) by lia. reflexivity.
Qed.

(** A mantissa of 53 bits followed by [j] zero bits rounds to itself. *)
Lemma binary_round_aux_exact (a : positive) (j e : Z) :
  Zpos (digits2_pos a) = 53%Z -> (0 <= j)%Z -> (-1074 <= e + j <= 971)%Z ->
  binary_round_aux prec emax false (Zpos a * 2 ^ j) e loc_Exact
  = S754_finite false a (e + j).
Proof.
  intros Hd Hj He. destruct j as [|j|j]; try lia.
  - rewrite Z.mul_1_r, Z.add_0_r in *. apply binary_round_aux_canonical; lia.
  - assert (E : shr_fexp prec emax (Zpos a * 2 ^ Zpos j) e loc_Exact
                = ({| shr_m := Zpos a; shr_r := false; shr_s := false |}, (e + Zpos j)%Z)).
    { unfold shr_fexp, shr, fexp, emin, prec, emax.
      rewrite <- iter_xO_value. cbn [Zdigits2].
      rewrite iter_xO_digits, Pos2Z.inj_add, Hd.
      replace (Z.max (53 + Zpos j + e - 53) (3 - 1024 - 53) - e)%Z with (Zpos j) by lia.
      cbn [shr_record_of_loc]. rewrite iter_xO_value, iter_shr_1_exact. reflexivity. }
    unfold binary_round_aux. rewrite E.
    cbn [shr_m loc_of_shr_record round_nearest_even].
    assert (E2 : shr_fexp prec emax (Zpos a) (e + Zpos j) loc_Exact
                 = ({| shr_m := Zpos a; shr_r := false; shr_s := false |}, (e + Zpos j)%Z)).
    { unfold shr_fexp, shr, fexp, emin, prec, emax. cbn [Zdigits2]. rewrite Hd.
      replace (Z.max (53 + (e + Zpos j) - 53) (3 - 1024 - 53) - (e + Zpos j))%Z
        with 0%Z by lia.
      reflexivity. }
    rewrite E2. cbn [shr_m]. unfold emax, prec.
    destruct (Z.leb_spec (e + Zpos j) (1024 - 53)); [reflexivity|lia].
Qed.

(** The canonical form of the Number of an integer below [2^53]. *)
Lemma Number_of_Z_canonical (v : Z) :
  (0 < v < 2 ^ 53)%Z ->
  (Zdigits2 v <= 53)%Z
  /\ Number_of_Z v
     = S754_finite false (Z.to_pos (v * 2 ^ (53 - Zdigits2 v))) (Zdigits2 v - 53).
Proof.
  intros [Hv Hlt]. destruct v as [|p|p]; try lia. cbn [Zdigits2].
  pose proof (digits2_pos_bounds p) as [Hlo _].
  assert (Hd : (Zpos (digits2_pos p) <= 53)%Z).
  { destruct (Z.le_gt_cases (Zpos (digits2_pos p)) 53) as [H|H]; [exact H|].
    assert (2 ^ 53 <= 2 ^ (Zpos (digits2_pos p) - 1))%Z
      by (apply Z.pow_le_mono_r; lia).
    lia. }
  split; [exact Hd|].
  unfold Number_of_Z, Number_of_Z_signed, binary_normalize, binary_round, shl_align.
  unfold fexp, emin, prec, emax.
  destruct (Z.max (Zpos (digits2_pos p) + 0 - 53) (3 - 1024 - 53) - 0)%Z
    as [|k|k] eqn:Ek; try lia.
  - change (binary_round_aux 53 1024) with (binary_round_aux prec emax).
    rewrite binary_round_aux_canonical by lia.
    replace (53 - Zpos (digits2_pos p))%Z with 0%Z by lia.
    rewrite Z.mul_1_r. cbn [Z.to_pos]. f_equal. lia.
  - assert (Hk : (Zpos k = 53 - Zpos (digits2_pos p))%Z) by lia.
    change (binary_round_aux 53 1024) with (binary_round_aux prec emax).
    rewrite binary_round_aux_canonical
      by (rewrite ?iter_xO_digits, ?Pos2Z.inj_add; lia).
    rewrite <- Hk, <- iter_xO_value. cbn [Z.to_pos]. f_equal. lia.
Qed.

(** Below [2^53] the conversion is exact: the Number of [v] denotes [v]. *)
Lemma Number_of_Z_exact (v : Z) :
  (0 < v < 2 ^ 53)%Z -> Number_to_Z (Number_of_Z v) = Some v.
Proof.
  intros Hv. destruct (Number_of_Z_canonical v Hv) as [Hd ->].
  set (j := (53 - Zdigits2 v)%Z).
  assert (H2j : (0 < 2 ^ j)%Z) by (apply Z.pow_pos_nonneg; unfold j; lia).
  unfold Number_to_Z. rewrite Z2Pos.id by (apply Z.mul_pos_pos; lia).
  destruct (Z.leb_spec 0 (Zdigits2 v - 53)) as [H|H].
  - replace (Zdigits2 v - 53)%Z with 0%Z by lia.
    replace j with 0%Z by (unfold j; lia). cbn. f_equal. lia.
  - replace (- (Zdigits2 v - 53))%Z with j by (unfold j; lia).
    rewrite Z.mod_mul, Z.eqb_refl, Z.div_mul by lia. reflexivity.
Qed.

(** [binary_normalize] only sees the value: an integer below [2^53] given
    with [t] more bits and the exponent [-t] is the Number of that integer. *)
Lemma binary_normalize_scaled (v t : Z) :
  (0 < v < 2 ^ 53)%Z -> (0 <= t <= 1000)%Z ->
  binary_normalize prec emax (v * 2 ^ t) (- t) false = Number_of_Z v.
Proof.
  intros Hv Ht. destruct (Number_of_Z_canonical v Hv) as [Hd ->].
  destruct v as [|p|p]; try lia. cbn [Zdigits2] in *.
  set (d := Zpos (digits2_pos p)) in *.
  assert (Hd1 : (1 <= d)%Z) by (unfold d; lia).
  assert (Hpt : exists q, (Zpos p * 2 ^ t)%Z = Zpos q
                          /\ Zpos (digits2_pos q) = (d + t)%Z).
  { destruct t as [|t|t]; try lia.
    - exists p. split; [lia|]. unfold d. lia.
    - exists (Pos.iter xO p t). rewrite iter_xO_value, iter_xO_digits, Pos2Z.inj_add.
      split; [reflexivity|]. unfold d. lia. }
  destruct Hpt as (q & Eq & Hq). rewrite Eq.
  unfold binary_normalize, binary_round, shl_align.
  unfold fexp, emin, prec, emax. rewrite Hq.
  destruct (Z.max (d + t + - t - 53) (3 - 1024 - 53) - - t)%Z as [|k|k] eqn:Ek.
  - (* d + t = 53: already canonical *)
    change (binary_round_aux 53 1024) with (binary_round_aux prec emax).
    rewrite binary_round_aux_canonical by lia.
    f_equal; [|lia].
    apply Pos2Z.inj. rewrite <- Eq, Z2Pos.id.
    + f_equal. f_equal. lia.
    + apply Z.mul_pos_pos; [lia|apply Z.pow_pos_nonneg; lia].
  - (* more than 53 bits: the low ones are zero *)
    change (binary_round_aux 53 1024) with (binary_round_aux prec emax).
    assert (Hpos : (0 < Zpos p * 2 ^ (53 - d))%Z)
      by (apply Z.mul_pos_pos; [lia|apply Z.pow_pos_nonneg; lia]).
    assert (Ea : Zpos q = (Zpos (Z.to_pos (Zpos p * 2 ^ (53 - d))) * 2 ^ Zpos k)%Z).
    { rewrite Z2Pos.id by exact Hpos. rewrite <- Eq, <- Z.mul_assoc.
      rewrite <- Z.pow_add_r by lia. f_equal. f_equal. lia. }
    rewrite Ea. rewrite binary_round_aux_exact; try lia.
    + f_equal. lia.
    + destruct (53 - d)%Z as [|j|j] eqn:Ej; try lia.
      * rewrite Z.mul_1_r. cbn [Z.to_pos]. unfold d in *. lia.
      * rewrite <- iter_xO_value. cbn [Z.to_pos].
        rewrite iter_xO_digits, Pos2Z.inj_add. unfold d in *. lia.
  - (* fewer than 53 bits: shifted left *)
    change (binary_round_aux 53 1024) with (binary_round_aux prec emax).
    rewrite binary_round_aux_canonical
      by (rewrite ?iter_xO_digits, ?Pos2Z.inj_add; lia).
    f_equal; [|lia].
    apply Pos2Z.inj. rewrite iter_xO_value, <- Eq, Z2Pos.id.
    + rewrite <- Z.mul_assoc, <- Z.pow_add_r by lia. f_equal. f_equal. lia.
    + apply Z.mul_pos_pos; [lia|apply Z.pow_pos_nonneg; lia].
Qed.

(* ================================================================== *)
(** * Numbers: arithmetic on integers *)
(* ================================================================== *)

Lemma Zdigits2_bounds (v : Z) :
  (0 < v)%Z -> (1 <= Zdigits2 v /\ 2 ^ (Zdigits2 v - 1) <= v < 2 ^ Zdigits2 v)%Z.
Proof.
  intros Hv. destruct v as [|p|p]; try lia. cbn [Zdigits2].
  pose proof (digits2_pos_bounds p). lia.
Qed.

(** Aligning the canonical mantissa of an integer on a lower exponent. *)
Lemma shl_align_canonical (v ez : Z) :
  (0 < v < 2 ^ 53)%Z -> (ez <= Zdigits2 v - 53)%Z ->
  Zpos (fst (shl_align (Z.to_pos (v * 2 ^ (53 - Zdigits2 v))) (Zdigits2 v - 53) ez))
  = (v * 2 ^ (- ez))%Z.
Proof.
  intros Hv He. destruct (Number_of_Z_canonical v Hv) as [Hd _].
  destruct (Zdigits2_bounds v) as [Hd1 _]; [lia|].
  set (d := Zdigits2 v) in *.
  assert (Hpos : (0 < v * 2 ^ (53 - d))%Z)
    by (apply Z.mul_pos_pos; [lia|apply Z.pow_pos_nonneg; lia]).
  unfold shl_align.
  destruct (ez - (d - 53))%Z as [|k|k] eqn:Ek; try lia; cbn [fst].
  - rewrite Z2Pos.id by exact Hpos. f_equal. f_equal. lia.
  - rewrite iter_xO_value, Z2Pos.id by exact Hpos.
    rewrite <- Z.mul_assoc, <- Z.pow_add_r by lia. f_equal. f_equal. lia.
Qed.

(** Addition and subtraction of integers are exact below [2^53]. *)
Lemma add_integers (a b : Z) :
  (0 < a)%Z -> (0 < b)%Z -> (a + b < 2 ^ 53)%Z ->
  add (Number_of_Z a) (Number_of_Z b) = Number_of_Z (a + b).
Proof.
  intros Ha Hb Hab.
  destruct (Number_of_Z_canonical a) as [Hda ->]; [lia|].
  destruct (Number_of_Z_canonical b) as [Hdb ->]; [lia|].
  destruct (Zdigits2_bounds a Ha) as [Ha1 _].
  destruct (Zdigits2_bounds b Hb) as [Hb1 _].
  unfold add, SFadd. cbn [cond_Zopp].
  set (ez := Z.min (Zdigits2 a - 53) (Zdigits2 b - 53)).
  rewrite !shl_align_canonical by lia.
  rewrite <- Z.mul_add_distr_r.
  replace ez with (- - ez)%Z at 2 by lia.
  apply binary_normalize_scaled; lia.
Qed.

Lemma sub_integers (a b : Z) :
  (0 < b <= a)%Z -> (a < 2 ^ 53)%Z ->
  sub (Number_of_Z a) (Number_of_Z b) = Number_of_Z (a - b).
Proof.
  intros Hb Ha.
  destruct (Number_of_Z_canonical a) as [Hda ->]; [lia|].
  destruct (Number_of_Z_canonical b) as [Hdb ->]; [lia|].
  destruct (Zdigits2_bounds a) as [Ha1 _]; [lia|].
  destruct (Zdigits2_bounds b) as [Hb1 _]; [lia|].
  unfold sub, SFsub. cbn [cond_Zopp].
  set (ez := Z.min (Zdigits2 a - 53) (Zdigits2 b - 53)).
  rewrite !shl_align_canonical by lia.
  rewrite <- Z.mul_sub_distr_r.
  destruct (Z.eq_dec a b) as [->|Hne].
  - rewrite Z.sub_diag. reflexivity.
  - replace ez with (- - ez)%Z at 2 by lia.
    apply binary_normalize_scaled; lia.
Qed.

(** The order of the Numbers of two integers is the order of the integers. *)
Lemma gt_integers (a b : Z) :
  (0 < a < 2 ^ 53)%Z -> (0 < b < 2 ^ 53)%Z ->
  gt (Number_of_Z a) (Number_of_Z b) = (b <? a)%Z.
Proof.
  intros Ha Hb.
  destruct (Number_of_Z_canonical a Ha) as [Hda ->].
  destruct (Number_of_Z_canonical b Hb) as [Hdb ->].
  destruct (Zdigits2_bounds a) as [Ha1 [Halo Hahi]]; [lia|].
  destruct (Zdigits2_bounds b) as [Hb1 [Hblo Hbhi]]; [lia|].
  unfold gt, SFltb, SFcompare.
  destruct (Z.compare_spec (Zdigits2 b - 53) (Zdigits2 a - 53)) as [E|E|E].
  - rewrite Pos.compare_cont_spec. cbn [Pos.switch_Eq].
    rewrite Pos2Z.inj_compare.
    assert (E' : Zdigits2 b = Zdigits2 a) by lia. rewrite E'.
    assert (H2 : (0 < 2 ^ (53 - Zdigits2 a))%Z) by pow_pos.
    rewrite !Z2Pos.id by (apply Z.mul_pos_pos; lia).
    destruct (Z.compare_spec (b * 2 ^ (53 - Zdigits2 a)) (a * 2 ^ (53 - Zdigits2 a)));
      destruct (Z.ltb_spec b a); try reflexivity; nia.
  - assert (2 ^ Zdigits2 b <= 2 ^ (Zdigits2 a - 1))%Z by (apply Z.pow_le_mono_r; lia).
    symmetry. apply Z.ltb_lt. lia.
  - assert (2 ^ Zdigits2 a <= 2 ^ (Zdigits2 b - 1))%Z by (apply Z.pow_le_mono_r; lia).
    symmetry. apply Z.ltb_ge. lia.
Qed.

Lemma digits2_pos_unique (p : positive) (k : Z) :
  (2 ^ (k - 1) <= Zpos p < 2 ^ k)%Z -> Zpos (digits2_pos p) = k.
Proof.
  intros [Hlo Hhi]. pose proof (digits2_pos_bounds p) as [Hlo' Hhi'].
  set (d := Zpos (digits2_pos p)) in *.
  assert (Hd : (1 <= d)%Z) by (unfold d; lia).
  assert (Hk : (1 <= k)%Z).
  { destruct (Z.le_gt_cases 1 k) as [H|H]; [exact H|].
    assert (k <= 0)%Z by lia.
    destruct (Z.eq_dec k 0) as [->|Hn]; [simpl in Hhi; lia|].
    rewrite (Z.pow_neg_r 2 k) in Hhi by lia. lia. }
  destruct (Z.lt_trichotomy d k) as [H|[H|H]]; [|exact H|].
  - assert (2 ^ d <= 2 ^ (k - 1))%Z by (apply Z.pow_le_mono_r; lia). lia.
  - assert (2 ^ k <= 2 ^ (d - 1))%Z by (apply Z.pow_le_mono_r; lia). lia.
Qed.

Lemma round_nearest_even_bounds (m : Z) (l : location) :
  (m <= round_nearest_even m l <= m + 1)%Z.
Proof. destruct l as [|[]]; simpl; try destruct (Z.even m); lia. Qed.

(** Rounding a mantissa [P] of [D >= 54] bits: [D - 53] bits are shifted
    out and the mantissa kept is the quotient or the next integer; when
    that is [2^53] it is renormalised with one more shift. *)
Lemma binary_round_aux_shift (P : positive) (E : Z) :
  let D := Zpos (digits2_pos P) in
  (54 <= D)%Z -> (-1074 <= E)%Z -> (E + (D - 53) + 1 <= 971)%Z ->
  exists (m : positive) (e m1 : Z),
    binary_round_aux prec emax false (Zpos P) E loc_Exact = S754_finite false m e
    /\ Zpos (digits2_pos m) = 53%Z
    /\ (Zpos P / 2 ^ (D - 53) <= m1 <= Zpos P / 2 ^ (D - 53) + 1)%Z
    /\ ((e = E + (D - 53) /\ m1 = Zpos m)%Z
        \/ (e = E + (D - 53) + 1 /\ m1 = 2 * Zpos m)%Z).
Proof.
  intros D HD HE Hmax.
  pose proof (digits2_pos_bounds P) as [Plo Phi]. fold D in Plo, Phi.
  destruct (D - 53)%Z as [|n|n] eqn:En; try lia.
  assert (H2n : (0 < 2 ^ Zpos n)%Z) by pow_pos.
  set (m' := (Zpos P / 2 ^ Zpos n)%Z).
  assert (Hm' : (2 ^ 52 <= m' < 2 ^ 53)%Z).
  { unfold m'. split.
    - apply Z.div_le_lower_bound; [exact H2n|].
      rewrite <- Z.pow_add_r by lia. replace (Zpos n + 52)%Z with (D - 1)%Z by lia.
      exact Plo.
    - apply Z.div_lt_upper_bound; [exact H2n|].
      rewrite <- Z.pow_add_r by lia. replace (Zpos n + 53)%Z with D by lia.
      exact Phi. }
  assert (E1 : exists mrs, shr_fexp prec emax (Zpos P) E loc_Exact = (mrs, (E + Zpos n)%Z)
                           /\ shr_m mrs = m').
  { unfold shr_fexp, shr, fexp, emin, prec, emax. cbn [Zdigits2]. fold D.
    replace (Z.max (D + E - 53) (3 - 1024 - 53) - E)%Z with (Zpos n) by lia.
    eexists. split; [reflexivity|].
    rewrite iter_shr_1_m by (cbn; lia). reflexivity. }
  destruct E1 as (mrs & E1 & Hmrs).
  unfold binary_round_aux. rewrite E1, Hmrs.
  pose proof (round_nearest_even_bounds m' (loc_of_shr_record mrs)) as Hr.
  set (m1 := round_nearest_even m' (loc_of_shr_record mrs)) in *.
  destruct m1 as [|q|q] eqn:Eq1; try lia.
  destruct (Z.lt_ge_cases (Zpos q) (2 ^ 53)) as [Hq|Hq].
  - (* no carry *)
    assert (Hdq : Zpos (digits2_pos q) = 53%Z) by (apply digits2_pos_unique; lia).
    assert (E2 : shr_fexp prec emax (Zpos q) (E + Zpos n) loc_Exact
                 = ({| shr_m := Zpos q; shr_r := false; shr_s := false |}, (E + Zpos n)%Z)).
    { unfold shr_fexp, shr, fexp, emin, prec, emax. cbn [Zdigits2]. rewrite Hdq.
      replace (Z.max (53 + (E + Zpos n) - 53) (3 - 1024 - 53) - (E + Zpos n))%Z
        with 0%Z by lia.
      reflexivity. }
    rewrite E2. cbn [shr_m]. unfold emax, prec.
    destruct (Z.leb_spec (E + Zpos n) (1024 - 53)); [|lia].
    exists q, (E + Zpos n)%Z, (Zpos q). repeat split; lia.
  - (* the mantissa has become 2^53 *)
    assert (Hq53 : Zpos q = (2 ^ 53)%Z) by lia.
    assert (Hdq : Zpos (digits2_pos q) = 54%Z)
      by (apply digits2_pos_unique; rewrite Hq53; simpl; lia).
    assert (E2 : shr_fexp prec emax (Zpos q) (E + Zpos n) loc_Exact
                 = ({| shr_m := 2 ^ 52; shr_r := false; shr_s := false |},
                    (E + Zpos n + 1)%Z)).
    { unfold shr_fexp, shr, fexp, emin, prec, emax. cbn [Zdigits2]. rewrite Hdq.
      replace (Z.max (54 + (E + Zpos n) - 53) (3 - 1024 - 53) - (E + Zpos n))%Z
        with 1%Z by lia.
      rewrite Hq53. reflexivity. }
    rewrite E2. cbn [shr_m]. unfold emax, prec.
    change (2 ^ 52)%Z with (Zpos (2 ^ 52)).
    destruct (Z.leb_spec (E + Zpos n + 1) (1024 - 53)); [|lia].
    exists (2 ^ 52)%positive, (E + Zpos n + 1)%Z, (Zpos q).
    repeat split; lia.
Qed.

(** A positive finite Number with a 53-bit mantissa that denotes the
    integer [c] is the Number of [c]. *)
Lemma canonical_unique (m : positive) (e c : Z) :
  Zpos (digits2_pos m) = 53%Z -> (e <= 0)%Z -> Zpos m = (c * 2 ^ (- e))%Z ->
  S754_finite false m e = Number_of_Z c.
Proof.
  intros Hd He Hm.
  pose proof (digits2_pos_bounds m) as [Mlo Mhi]. rewrite Hd in Mlo, Mhi.
  change (53 - 1)%Z with 52%Z in Mlo.
  assert (H2e : (0 < 2 ^ (- e))%Z) by pow_pos.
  assert (Hc : (0 < c)%Z) by nia.
  assert (He52 : (-52 <= e)%Z).
  { destruct (Z.le_gt_cases (-52) e) as [H|H]; [exact H|].
    assert (2 ^ 53 <= 2 ^ (- e))%Z by (apply Z.pow_le_mono_r; lia). nia. }
  assert (Hsplit : (2 ^ 53 = 2 ^ (53 + e) * 2 ^ (- e))%Z).
  { rewrite <- Z.pow_add_r by lia. f_equal. lia. }
  assert (Hsplit' : (2 ^ 52 = 2 ^ (52 + e) * 2 ^ (- e))%Z).
  { rewrite <- Z.pow_add_r by lia. f_equal. lia. }
  assert (Hcb : (2 ^ (52 + e) <= c < 2 ^ (53 + e))%Z) by nia.
  assert (Hc53 : (c < 2 ^ 53)%Z).
  { assert (2 ^ (53 + e) <= 2 ^ 53)%Z by (apply Z.pow_le_mono_r; lia). lia. }
  destruct (Number_of_Z_canonical c) as [_ ->]; [lia|].
  assert (Hdc : Zdigits2 c = (53 + e)%Z).
  { destruct c as [|pc|pc]; try lia. cbn [Zdigits2].
    apply digits2_pos_unique. replace (53 + e - 1)%Z with (52 + e)%Z by lia. exact Hcb. }
  rewrite Hdc. f_equal; [|lia].
  replace (53 - (53 + e))%Z with (- e)%Z by lia.
  rewrite <- Hm. reflexivity.
Qed.

(** [Math.ceil(W * 0.7)] is [ceil(7W/10)] for every integer [W] from 1 to
    [2^49]: the product is rounded by less than one unit in the last place,
    which is at most a sixteenth, while [0.7 W] is at least a tenth away
    from the integers it is not equal to. *)
Lemma ceil_mul_0_7 (W : Z) :
  (1 <= W < 2 ^ 49)%Z ->
  Math_ceil (mul (Number_of_Z W) lit_0_7) = Number_of_Z (Spec.ceil_0_7 W).
Proof.
  intros HW.
  destruct (Number_of_Z_canonical W) as [_ ->]; [lia|].
  destruct (Zdigits2_bounds W) as [Hd1 [Wlo Whi]]; [lia|].
  set (d := Zdigits2 W) in *.
  assert (Hd49 : (d <= 49)%Z).
  { destruct (Z.le_gt_cases d 49) as [H|H]; [exact H|].
    assert (2 ^ 49 <= 2 ^ (d - 1))%Z by (apply Z.pow_le_mono_r; lia). lia. }
  set (g := (2 ^ (53 - d))%Z).
  assert (Hg16 : (16 <= g)%Z).
  { unfold g. change 16%Z with (2 ^ 4)%Z. apply Z.pow_le_mono_r; lia. }
  assert (Hg : (2 ^ 53 = 2 ^ d * g /\ 2 ^ 52 = 2 ^ (d - 1) * g)%Z).
  { unfold g. rewrite <- !Z.pow_add_r by lia. split; f_equal; lia. }
  destruct Hg as [Hg53 Hg52].
  assert (HmW : (2 ^ 52 <= W * g < 2 ^ 53)%Z) by nia.
  unfold mul, SFmul, lit_0_7. cbn [xorb].
  set (P := (Z.to_pos (W * g) * 6305039478318694)%positive).
  assert (HP : Zpos P = (W * g * 6305039478318694)%Z).
  { unfold P. rewrite Pos2Z.inj_mul, Z2Pos.id by lia. reflexivity. }
  assert (HPb : (2 ^ 104 <= Zpos P < 2 ^ 106)%Z).
  { rewrite HP. change (2 ^ 104)%Z with (2 ^ 52 * 2 ^ 52)%Z.
    change (2 ^ 106)%Z with (2 ^ 53 * 2 ^ 53)%Z.
    change (2 ^ 52)%Z with 4503599627370496%Z in *.
    change (2 ^ 53)%Z with 9007199254740992%Z in *. nia. }
  set (D := Zpos (digits2_pos P)).
  assert (HD : (D = 105 \/ D = 106)%Z).
  { destruct (Z.lt_ge_cases (Zpos P) (2 ^ 105)) as [H|H].
    - left. apply digits2_pos_unique. change (105 - 1)%Z with 104%Z. lia.
    - right. apply digits2_pos_unique. change (106 - 1)%Z with 105%Z. lia. }
  destruct (binary_round_aux_shift P (d - 53 + -53)) as (m & e & m1 & -> & Hm53 & Hm1 & He);
    fold D; try lia.
  fold D in Hm1, He.
  set (c := Spec.ceil_0_7 W).
  assert (Hc : (7 * W <= 10 * c <= 7 * W + 9)%Z).
  { unfold c, Spec.ceil_0_7. pose proof (Z.div_mod (7 * W + 9) 10 ltac:(lia)).
    pose proof (Z.mod_pos_bound (7 * W + 9) 10 ltac:(lia)). lia. }
  (* the unit in the last place before renormalisation, and the shift *)
  set (u := (2 ^ (159 - d - D))%Z).
  set (N2 := (2 ^ (D - 53))%Z) in *.
  assert (Hu : (0 < u)%Z) by pow_pos.
  assert (HN2 : (0 < N2)%Z) by pow_pos.
  assert (HuN : (N2 * u = 9007199254740992 * g)%Z).
  { unfold u, N2, g. change 9007199254740992%Z with (2 ^ 53)%Z.
    rewrite <- !Z.pow_add_r by lia. f_equal. lia. }
  assert (HN53 : (N2 <= 9007199254740992)%Z).
  { unfold N2. change 9007199254740992%Z with (2 ^ 53)%Z.
    apply Z.pow_le_mono_r; lia. }
  change (2 ^ 49)%Z with 562949953421312%Z in HW.
  assert (Hi : (m1 <= c * u)%Z).
  { assert (Zpos P / N2 < c * u)%Z; [|lia].
    apply Z.div_lt_upper_bound; [exact HN2|].
    rewrite Z.mul_assoc, (Z.mul_comm N2 c), <- Z.mul_assoc, HuN, HP.
    assert (W * 6305039478318694 < c * 9007199254740992)%Z by lia. nia. }
  assert (Hii : ((c - 1) * u < m1)%Z).
  { assert ((c - 1) * u + 1 <= Zpos P / N2)%Z; [|lia].
    apply Z.div_le_lower_bound; [exact HN2|].
    rewrite Z.mul_add_distr_l, Z.mul_1_r.
    rewrite Z.mul_assoc, (Z.mul_comm N2 (c - 1)), <- Z.mul_assoc, HuN, HP.
    set (X := (W * 6305039478318694 - (c - 1) * 9007199254740992)%Z).
    assert (HX : (675539944105574 <= X)%Z) by (unfold X; lia).
    assert (HXg : (X * 16 <= X * g)%Z) by (apply Z.mul_le_mono_nonneg_l; lia).
    replace (W * g * 6305039478318694)%Z
      with ((c - 1) * (9007199254740992 * g) + X * g)%Z by (unfold X; ring).
    lia. }
  (* in the units of the result *)
  assert (He0 : (e < 0)%Z) by lia.
  set (d' := (2 ^ (- e))%Z).
  assert (Hd' : (0 < d')%Z) by pow_pos.
  assert (Hbounds : ((c - 1) * d' < Zpos m <= c * d')%Z).
  { destruct He as [[Ee Em]|[Ee Em]].
    - assert (d' = u) by (unfold d', u; f_equal; lia). subst m1. lia.
    - assert (u = 2 * d')%Z.
      { unfold d', u. replace (159 - d - D)%Z with (1 + - e)%Z by lia.
        rewrite Z.pow_add_r by lia. reflexivity. }
      subst m1. nia. }
  unfold Math_ceil. destruct (Z.leb_spec 0 e) as [H|_]; [lia|]. fold d'.
  pose proof (Z.div_mod (Zpos m) d' ltac:(lia)) as Hdm.
  pose proof (Z.mod_pos_bound (Zpos m) d' Hd') as Hmod.
  destruct (Z.eqb_spec (Zpos m mod d') 0) as [Hr|Hr].
  - apply canonical_unique; [exact Hm53|lia|]. fold d'.
    assert (Zpos m / d' = c)%Z by nia. nia.
  - f_equal. fold c. nia.
Qed.

(* ================================================================== *)
(** * Numbers: printing an integer *)
(* ================================================================== *)

Lemma decimal_acc_app (fuel : nat) :
  forall z acc, decimal_acc fuel z acc = decimal_acc fuel z [] ++ acc.
Proof.
  induction fuel as [|fuel IH]; intros z acc; cbn [decimal_acc]; [reflexivity|].
  destruct (z <? 10)%Z; [reflexivity|].
  rewrite IH, (IH _ [_]), <- app_assoc. reflexivity.
Qed.

(** Enough fuel is any fuel. *)
Lemma decimal_acc_fuel (f1 : nat) :
  forall f2 z acc,
    (0 <= z < 2 ^ Z.of_nat (S f1))%Z -> (z < 2 ^ Z.of_nat (S f2))%Z ->
    decimal_acc (S f1) z acc = decimal_acc (S f2) z acc.
Proof.
  induction f1 as [|f1 IH]; intros f2 z acc H1 H2;
    cbn [decimal_acc]; destruct (Z.ltb_spec z 10) as [_|H10]; try reflexivity.
  - simpl in H1. lia.
  - destruct f2 as [|f2]; [simpl in H2; lia|].
    rewrite !Nat2Z.inj_succ, !Z.pow_succ_r in * by lia.
    apply IH; rewrite ?Nat2Z.inj_succ, ?Z.pow_succ_r by lia;
      [split; [apply Z.div_pos; lia|]|];
      apply Z.div_lt_upper_bound; lia.
Qed.

Lemma log2_fuel (z : Z) : (0 <= z)%Z -> (z < 2 ^ Z.of_nat (S (Z.to_nat (Z.log2 z))))%Z.
Proof.
  intros Hz. rewrite Nat2Z.inj_succ, Z2Nat.id by apply Z.log2_nonneg.
  destruct (Z.eq_dec z 0) as [->|Hn]; [reflexivity|].
  apply Z.log2_spec. lia.
Qed.

(** The digits of [z] are those of [z / 10] followed by the last one. *)
Lemma decimal_step (z : Z) :
  (0 <= z)%Z ->
  decimal z = if (z <? 10)%Z then [(48 + Z.to_N z)%N]
              else decimal (z / 10) ++ [(48 + Z.to_N (z mod 10))%N].
Proof.
  intros Hz. unfold decimal at 1. cbn [decimal_acc].
  destruct (Z.ltb_spec z 10) as [Hlt|Hge].
  - rewrite Z.mod_small by lia. reflexivity.
  - rewrite decimal_acc_app. f_equal. unfold decimal.
    assert (Hq : (0 <= z / 10)%Z) by (apply Z.div_pos; lia).
    pose proof (log2_fuel z Hz) as H.
    destruct (Z.to_nat (Z.log2 z)) as [|f] eqn:Ef; [simpl in H; lia|].
    apply decimal_acc_fuel.
    + split; [exact Hq|]. apply Z.div_lt_upper_bound; [lia|].
      rewrite !Nat2Z.inj_succ, !Z.pow_succ_r in * by lia. lia.
    + apply log2_fuel. exact Hq.
Qed.

Lemma decimal_tenfold (s : Z) (i : nat) :
  (0 < s)%Z -> decimal (s * 10 ^ Z.of_nat i) = decimal s ++ repeat 48%N i.
Proof.
  intros Hs. induction i as [|i IH].
  - simpl. rewrite Z.mul_1_r, app_nil_r. reflexivity.
  - rewrite Nat2Z.inj_succ, Z.pow_succ_r by lia.
    assert (Hp : (0 < 10 ^ Z.of_nat i)%Z) by pow_pos.
    rewrite decimal_step by nia.
    destruct (Z.ltb_spec (s * (10 * 10 ^ Z.of_nat i)) 10) as [H|_]; [nia|].
    replace (s * (10 * 10 ^ Z.of_nat i))%Z with (s * 10 ^ Z.of_nat i * 10)%Z by ring.
    rewrite Z.div_mul, Z.mod_mul by lia. rewrite IH.
    rewrite <- app_assoc. f_equal.
    change [(48 + Z.to_N 0)%N] with (repeat 48%N 1).
    rewrite <- repeat_app. f_equal. lia.
Qed.

(** A positive integer of [L] decimal digits lies between [10^(L-1)] and
    [10^L]. *)
Lemma decimal_length (z : Z) :
  (0 < z)%Z ->
  (10 ^ (Z.of_nat (List.length (decimal z)) - 1) <= z
   < 10 ^ Z.of_nat (List.length (decimal z)))%Z.
Proof.
  intros Hz.
  assert (G : forall (f : nat) z, (0 < z < 2 ^ Z.of_nat f)%Z ->
            (10 ^ (Z.of_nat (List.length (decimal z)) - 1) <= z
             < 10 ^ Z.of_nat (List.length (decimal z)))%Z).
  { clear z Hz. induction f as [|f IH]; intros z Hz.
    - simpl in Hz. lia.
    - rewrite decimal_step by lia.
      destruct (Z.ltb_spec z 10) as [Hlt|Hge].
      + simpl. lia.
      + rewrite length_app, Nat2Z.inj_add. cbn [List.length].
        rewrite Nat2Z.inj_succ, Z.pow_succ_r in Hz by lia.
        assert (Hq : (0 < z / 10 < 2 ^ Z.of_nat f)%Z).
        { split; [apply Z.div_str_pos; lia|apply Z.div_lt_upper_bound; lia]. }
        specialize (IH _ Hq).
        set (L := Z.of_nat (List.length (decimal (z / 10)))) in *.
        assert (HL : (1 <= L)%Z).
        { destruct (Z.le_gt_cases 1 L) as [H|H]; [exact H|].
          assert (L = 0)%Z by lia. rewrite H0 in IH. simpl in IH. lia. }
        replace (L + Z.of_nat 1 - 1)%Z with (Z.succ (L - 1)) by lia.
        replace (L + Z.of_nat 1)%Z with (Z.succ L) by lia.
        rewrite !Z.pow_succ_r by lia.
        pose proof (Z.div_mod z 10 ltac:(lia)).
        pose proof (Z.mod_pos_bound z 10 ltac:(lia)). lia. }
  apply (G (S (Z.to_nat (Z.log2 z)))). split; [exact Hz|apply log2_fuel; lia].
Qed.

(** Two integers below [2^53] have the same Number only when equal. *)
Lemma eqb_integers (a b : Z) :
  (0 < a < 2 ^ 53)%Z -> (0 < b < 2 ^ 53)%Z ->
  SFeqb (Number_of_Z a) (Number_of_Z b) = (a =? b)%Z.
Proof.
  intros Ha Hb.
  destruct (Number_of_Z_canonical a Ha) as [Hda ->].
  destruct (Number_of_Z_canonical b Hb) as [Hdb ->].
  unfold SFeqb, SFcompare.
  destruct (Z.compare_spec (Zdigits2 a - 53) (Zdigits2 b - 53)) as [E|E|E].
  - rewrite Pos.compare_cont_spec. cbn [Pos.switch_Eq].
    rewrite Pos2Z.inj_compare.
    assert (E' : Zdigits2 a = Zdigits2 b) by lia. rewrite E'.
    assert (H2 : (0 < 2 ^ (53 - Zdigits2 b))%Z) by pow_pos.
    rewrite !Z2Pos.id by (apply Z.mul_pos_pos; lia).
    destruct (Z.compare_spec (a * 2 ^ (53 - Zdigits2 b)) (b * 2 ^ (53 - Zdigits2 b)));
      destruct (Z.eqb_spec a b); try reflexivity; nia.
  - destruct (Z.eqb_spec a b) as [->|_]; [lia|reflexivity].
  - destruct (Z.eqb_spec a b) as [->|_]; [lia|reflexivity].
Qed.

(** One step of the search of Number::toString on the Number of the
    integer [n], of [n0] decimal digits, at the length [k <= n0]: the
    candidate below is [n] without its last [n0 - k] digits and denotes [n]
    when those are zeros; the candidate above never does. *)
Lemma shortest_step (n j n0 k : Z) (fuel : nat) :
  (0 < n < 2 ^ 52)%Z -> (0 <= j)%Z ->
  (1 <= n0 <= 16)%Z -> (10 ^ (n0 - 1) <= n < 10 ^ n0)%Z ->
  (1 <= k <= n0)%Z ->
  shortest fuel (Number_of_Z n) (n * 2 ^ j) (2 ^ j) n0 k
  = if (n / 10 ^ (n0 - k) * 10 ^ (n0 - k) =? n)%Z then (n0, k, n / 10 ^ (n0 - k))%Z
    else match fuel with
         | O => (n0, k, n / 10 ^ (n0 - k))%Z
         | S fuel' => shortest fuel' (Number_of_Z n) (n * 2 ^ j) (2 ^ j) n0 (k + 1)
         end.
Proof.
  intros Hn Hj Hn0 Hmag Hk.
  assert (H2j : (0 < 2 ^ j)%Z) by pow_pos.
  set (i := (n0 - k)%Z).
  assert (Hi : (0 <= i <= n0 - 1)%Z) by (unfold i; lia).
  assert (H10i : (0 < 10 ^ i)%Z) by pow_pos.
  assert (H10i' : (10 ^ i <= 10 ^ (n0 - 1))%Z) by (apply Z.pow_le_mono_r; lia).
  assert (H1015 : (10 ^ (n0 - 1) <= 10 ^ 15)%Z) by (apply Z.pow_le_mono_r; lia).
  change (10 ^ 15)%Z with 1000000000000000%Z in H1015.
  change (2 ^ 52)%Z with 4503599627370496%Z in Hn.
  set (lo := (n / 10 ^ i)%Z).
  pose proof (Z.div_mod n (10 ^ i) ltac:(lia)) as Hdm.
  pose proof (Z.mod_pos_bound n (10 ^ i) H10i) as Hmod. fold lo in Hdm.
  assert (Hlo : (1 <= lo)%Z).
  { unfold lo. apply Z.div_le_lower_bound; lia. }
  assert (Hlo53 : (0 < lo * 10 ^ i < 2 ^ 53)%Z).
  { change (2 ^ 53)%Z with 9007199254740992%Z. nia. }
  assert (HV : (n < (lo + 1) * 10 ^ i < 2 ^ 53)%Z).
  { change (2 ^ 53)%Z with 9007199254740992%Z. nia. }
  assert (Hn53 : (0 < n < 2 ^ 53)%Z)
    by (change (2 ^ 53)%Z with 9007199254740992%Z; lia).
  (* the two candidates *)
  assert (Elo : ((n * 2 ^ j * 10 ^ Z.max (k - n0) 0)
                 / (2 ^ j * 10 ^ Z.max (n0 - k) 0) = lo)%Z).
  { rewrite Z.max_r, Z.max_l by lia. fold i.
    rewrite Z.pow_0_r, Z.mul_1_r, (Z.mul_comm (2 ^ j)).
    rewrite Z.div_mul_cancel_r by lia. reflexivity. }
  assert (Oklo : denotes (Number_of_Z n) lo n0 k = (lo * 10 ^ i =? n)%Z).
  { unfold denotes, Number_of_decimal.
    destruct (Z.leb_spec k n0); [|lia]. fold i. now apply eqb_integers. }
  assert (Okhi : forall nh sh,
            (if (lo + 1 =? 10 ^ k)%Z then ((n0 + 1)%Z, (10 ^ (k - 1))%Z)
             else (n0, (lo + 1)%Z)) = (nh, sh) ->
            denotes (Number_of_Z n) sh nh k = false).
  { intros nh sh E. unfold denotes, Number_of_decimal.
    destruct (Z.eqb_spec (lo + 1) (10 ^ k)) as [Er|Er]; injection E as <- <-.
    - destruct (Z.leb_spec k (n0 + 1)); [|lia].
      rewrite <- Z.pow_add_r by lia.
      replace (k - 1 + (n0 + 1 - k))%Z with (k + i)%Z by (unfold i; lia).
      rewrite Z.pow_add_r, <- Er by lia.
      rewrite eqb_integers by lia. apply Z.eqb_neq. lia.
    - destruct (Z.leb_spec k n0); [|lia]. fold i.
      rewrite eqb_integers by lia. apply Z.eqb_neq. lia. }
  assert (Body : forall rest,
    (let P := (n * 2 ^ j * 10 ^ Z.max (k - n0) 0)%Z in
     let Q := (2 ^ j * 10 ^ Z.max (n0 - k) 0)%Z in
     let lo := (P / Q)%Z in
     let hi := (lo + 1)%Z in
     let '(nh, sh) := if (hi =? 10 ^ k)%Z then ((n0 + 1)%Z, (10 ^ (k - 1))%Z)
                      else (n0, hi) in
     let ok_lo := denotes (Number_of_Z n) lo n0 k in
     let ok_hi := denotes (Number_of_Z n) sh nh k in
     let lo_closer :=
       match (2 * (P - lo * Q) ?= Q)%Z with
       | Lt => true
       | Gt => false
       | Eq => Z.even lo
       end in
     if ok_lo && (lo_closer || negb ok_hi) then (n0, k, lo)
     else if ok_hi then (nh, k, sh) else rest)
    = if (lo * 10 ^ i =? n)%Z then (n0, k, lo) else rest).
  { intros rest. cbv zeta. rewrite Elo.
    destruct (if (lo + 1 =? 10 ^ k)%Z then ((n0 + 1)%Z, (10 ^ (k - 1))%Z)
              else (n0, (lo + 1)%Z)) as [nh sh] eqn:E.
    rewrite (Okhi nh sh eq_refl), Oklo. cbn [negb]. rewrite orb_true_r, andb_true_r.
    reflexivity. }
  destruct fuel as [|fuel]; cbn [shortest];
    (etransitivity; [apply Body|]); rewrite ?Elo; reflexivity.
Qed.

(** The search of Number::toString on the Number of the integer [n], of
    [n0] decimal digits: it stops at the first length [k] for which [n] is
    a multiple of [10^(n0-k)], with the quotient as digits. *)
Lemma shortest_integer (n j n0 : Z) :
  (0 < n < 2 ^ 52)%Z -> (0 <= j)%Z ->
  (1 <= n0 <= 16)%Z -> (10 ^ (n0 - 1) <= n < 10 ^ n0)%Z ->
  forall (fuel : nat) (k : Z),
    (1 <= k <= n0)%Z -> (n0 - k <= Z.of_nat fuel)%Z ->
    exists k' s,
      shortest fuel (Number_of_Z n) (n * 2 ^ j) (2 ^ j) n0 k = (n0, k', s)
      /\ (k <= k' <= n0)%Z /\ (0 < s)%Z /\ (s * 10 ^ (n0 - k') = n)%Z.
Proof.
  intros Hn Hj Hn0 Hmag.
  induction fuel as [|fuel IH]; intros k Hk Hfuel;
    rewrite shortest_step by assumption;
    destruct (Z.eqb_spec (n / 10 ^ (n0 - k) * 10 ^ (n0 - k)) n) as [E|E].
  - assert (0 < 10 ^ (n0 - k))%Z by pow_pos.
    exists k, (n / 10 ^ (n0 - k))%Z. repeat split; try lia; nia.
  - exfalso. apply E. replace (n0 - k)%Z with 0%Z by lia.
    rewrite Z.pow_0_r, Z.div_1_r. lia.
  - assert (0 < 10 ^ (n0 - k))%Z by pow_pos.
    exists k, (n / 10 ^ (n0 - k))%Z. repeat split; try lia; nia.
  - assert (Hk' : (k < n0)%Z).
    { destruct (Z.eq_dec k n0) as [->|]; [|lia]. exfalso. apply E.
      rewrite Z.sub_diag, Z.pow_0_r, Z.div_1_r. lia. }
    destruct (IH (k + 1)%Z) as (k' & s & Es & Hk'' & Hs & Hv); try lia.
    exists k', s. repeat split; try assumption; lia.
Qed.

(** A Number that is an integer below [2^52] prints as that integer. *)
Lemma Number_toString_integer (n : Z) :
  (0 <= n < 2 ^ 52)%Z -> Number_toString (Number_of_Z n) = decimal n.
Proof.
  intros Hn. destruct (Z.eq_dec n 0) as [->|Hn0]; [reflexivity|].
  assert (Hpos : (0 < n)%Z) by lia.
  pose proof (decimal_length n Hpos) as Hmag.
  set (n0 := Z.of_nat (List.length (decimal n))) in *.
  assert (Hn0b : (1 <= n0 <= 16)%Z).
  { split.
    - destruct (Z.le_gt_cases 1 n0) as [H|H]; [exact H|].
      assert (n0 = 0)%Z by (unfold n0 in *; lia). rewrite H0 in Hmag. simpl in Hmag. lia.
    - destruct (Z.le_gt_cases n0 16) as [H|H]; [exact H|].
      assert (10 ^ 16 <= 10 ^ (n0 - 1))%Z by (apply Z.pow_le_mono_r; lia).
      change (2 ^ 52)%Z with 4503599627370496%Z in Hn.
      change (10 ^ 16)%Z with 10000000000000000%Z in H0. lia. }
  assert (Hn53 : (0 < n < 2 ^ 53)%Z).
  { change (2 ^ 52)%Z with 4503599627370496%Z in Hn.
    change (2 ^ 53)%Z with 9007199254740992%Z. lia. }
  destruct (Number_of_Z_canonical n Hn53) as [_ Ecan].
  destruct (Zdigits2_bounds n Hpos) as [Hd1 [Hdlo Hdhi]].
  assert (Hd52 : (Zdigits2 n <= 52)%Z).
  { destruct (Z.le_gt_cases (Zdigits2 n) 52) as [H|H]; [exact H|].
    assert (2 ^ 52 <= 2 ^ (Zdigits2 n - 1))%Z by (apply Z.pow_le_mono_r; lia). lia. }
  set (j := (53 - Zdigits2 n)%Z) in *.
  assert (H2j : (0 < 2 ^ j)%Z) by (apply Z.pow_pos_nonneg; unfold j; lia).
  destruct (shortest_integer n j n0 ltac:(lia) ltac:(unfold j; lia) Hn0b Hmag 20 1)
    as (k' & s & Es & Hk' & Hs & Hv); [lia|simpl; lia|].
  unfold Number_toString. rewrite Ecan at 1.
  destruct (Z.leb_spec 0 (Zdigits2 n - 53)) as [H|_]; [lia|].
  replace (- (Zdigits2 n - 53))%Z with j by (unfold j; lia).
  rewrite Z2Pos.id by (apply Z.mul_pos_pos; lia).
  rewrite <- Ecan.
  assert (Emag : magnitude (n * 2 ^ j) (2 ^ j) = n0).
  { unfold magnitude. destruct (Z.leb_spec (2 ^ j) (n * 2 ^ j)) as [_|H]; [|nia].
    rewrite Z.div_mul by lia. reflexivity. }
  rewrite Emag, Es. cbn [app].
  unfold layout.
  destruct (Z.leb_spec k' n0); [|lia]. destruct (Z.leb_spec n0 21); [|lia].
  cbn [andb]. rewrite <- (Z2Nat.id (n0 - k')) in Hv by lia.
  rewrite <- decimal_tenfold by exact Hs. rewrite Hv. reflexivity.
Qed.

(* ================================================================== *)
(** * The week count: match(/\d+/), parseInt and || 4 *)
(* ================================================================== *)

Lemma take_drop_while (f : code_unit -> bool) (s : jsstring) :
  s = take_while f s ++ drop_while f s
  /\ (forall c, In c (take_while f s) -> f c = true)
  /\ (forall c t, drop_while f s = c :: t -> f c = false).
Proof.
  induction s as [|c s (IH1 & IH2 & IH3)]; simpl.
  - repeat split; [intros c []|discriminate].
  - destruct (f c) eqn:Hc; simpl.
    + repeat split; [now f_equal| |exact IH3].
      intros x [<-|Hx]; auto.
    + repeat split; [intros x []|]. intros x t E. injection E as <- _. exact Hc.
Qed.

Lemma while_app (f : code_unit -> bool) (a b : jsstring) :
  (forall c, In c a -> f c = true) ->
  (forall c t, b = c :: t -> f c = false) ->
  take_while f (a ++ b) = a /\ drop_while f (a ++ b) = b.
Proof.
  intros Ha Hb. induction a as [|c a IH]; simpl.
  - destruct b as [|c t]; [now split|]. simpl. now rewrite (Hb c t eq_refl).
  - rewrite (Ha c (or_introl eq_refl)).
    destruct IH as [IH1 IH2]; [intros x Hx; apply Ha; now right|].
    now rewrite IH1, IH2.
Qed.

(** [match(/\d+/)] is [null] exactly on the strings without a digit. *)
Lemma match_digits_None (s : jsstring) :
  match_digits s = None <-> no_digit s.
Proof.
  unfold match_digits, no_digit.
  destruct (take_drop_while (fun c => negb (is_digit c)) s) as (Hs & Ht & Hd).
  destruct (drop_while (fun c => negb (is_digit c)) s) as [|c t] eqn:E.
  - split; [intros _|reflexivity]. intros c Hc.
    rewrite app_nil_r in Hs. rewrite Hs in Hc.
    apply Ht in Hc. now apply negb_true_iff in Hc.
  - split; [discriminate|]. intros Hn. exfalso.
    specialize (Hd c t eq_refl). apply negb_false_iff in Hd.
    rewrite (Hn c) in Hd; [discriminate|].
    rewrite Hs. apply in_or_app. right. now left.
Qed.

(** Otherwise its match is the first maximal run of digits. *)
Lemma match_digits_Some (s run : jsstring) :
  match_digits s = Some run <-> first_digit_run s run.
Proof.
  unfold match_digits, first_digit_run. split.
  - destruct (take_drop_while (fun c => negb (is_digit c)) s) as (Hs & Ht & Hd).
    destruct (drop_while (fun c => negb (is_digit c)) s) as [|c t] eqn:E;
      [discriminate|].
    intros H. injection H as <-.
    destruct (take_drop_while is_digit (c :: t)) as (Hs' & Ht' & Hd').
    exists (take_while (fun c => negb (is_digit c)) s), (drop_while is_digit (c :: t)).
    specialize (Hd c t eq_refl). apply negb_false_iff in Hd.
    repeat split.
    + change (s = take_while (fun c0 => negb (is_digit c0)) s
                  ++ take_while is_digit (c :: t) ++ drop_while is_digit (c :: t)).
      now rewrite <- Hs'.
    + intros x Hx. apply Ht in Hx. now apply negb_true_iff in Hx.
    + simpl. rewrite Hd. discriminate.
    + exact Ht'.
    + exact Hd'.
  - intros (before & after & -> & Hb & Hne & Hr & Ha).
    destruct run as [|c t]; [congruence|].
    destruct (while_app (fun c => negb (is_digit c)) before ((c :: t) ++ after))
      as [_ E].
    + intros x Hx. apply negb_true_iff. now apply Hb.
    + intros x u Hx. injection Hx as <- _. apply negb_false_iff. apply Hr. now left.
    + rewrite E.
      change (Some (take_while is_digit ((c :: t) ++ after)) = Some (c :: t)).
      destruct (while_app is_digit (c :: t) after Hr Ha) as [-> _]. reflexivity.
Qed.

Lemma digit_not_white_space (c : code_unit) :
  is_digit c = true -> is_white_space c = false.
Proof.
  unfold is_digit, is_white_space. intros H.
  apply andb_true_iff in H as [H1 H2]. apply N.leb_le in H1, H2.
  apply orb_false_iff. split.
  - simpl. repeat (apply orb_false_iff; split); try reflexivity;
      apply N.eqb_neq; lia.
  - apply andb_false_iff. left. apply N.leb_gt. lia.
Qed.

Lemma radix_digit_10 (c : code_unit) :
  is_digit c = true -> radix_digit 10 c = Some (Z.of_N c - 48)%Z.
Proof.
  unfold is_digit, radix_digit, digit_of. intros H. rewrite H.
  apply andb_true_iff in H as [H1 H2]. apply N.leb_le in H1, H2.
  destruct (Z.ltb_spec (Z.of_N c - 48) 10); [reflexivity|lia].
Qed.

Lemma radix_prefix_digits (run : jsstring) :
  (forall c, In c run -> is_digit c = true) ->
  radix_prefix 10 run = map (fun c => (Z.of_N c - 48)%Z) run.
Proof.
  induction run as [|c run IH]; intros H; simpl; [reflexivity|].
  rewrite radix_digit_10 by (apply H; now left).
  rewrite IH by (intros x Hx; apply H; now right). reflexivity.
Qed.

Lemma radix_value_digits (run : jsstring) :
  radix_value 10 (map (fun c => (Z.of_N c - 48)%Z) run) = digits_value run.
Proof.
  unfold radix_value, digits_value. generalize 0%Z.
  induction run as [|c run IH]; intros acc; simpl; [reflexivity|apply IH].
Qed.

Lemma digits_value_nonneg (run : jsstring) :
  (forall c, In c run -> is_digit c = true) -> (0 <= digits_value run)%Z.
Proof.
  unfold digits_value. intros H.
  assert (G : forall acc, (0 <= acc)%Z ->
            (0 <= fold_left (fun a c => (a * 10 + (Z.of_N c - 48))%Z) run acc)%Z);
    [|apply G; lia].
  induction run as [|c run IH]; intros acc Hacc; simpl; [exact Hacc|].
  apply IH; [intros x Hx; apply H; now right|].
  specialize (H c (or_introl eq_refl)). unfold is_digit in H.
  apply andb_true_iff in H as [H1 H2]. apply N.leb_le in H1, H2. lia.
Qed.

(** [parseInt] of a run of digits is the Number of its decimal value. *)
Lemma parseInt_digits (run : jsstring) :
  run <> [] -> (forall c, In c run -> is_digit c = true) ->
  parseInt run = Number_of_Z (digits_value run).
Proof.
  intros Hne Hr. destruct run as [|c t]; [congruence|].
  assert (Hc : is_digit c = true) by (apply Hr; now left).
  unfold parseInt. cbn [trimStart]. rewrite (digit_not_white_space c Hc).
  pose proof Hc as Hc'. unfold is_digit in Hc'.
  apply andb_true_iff in Hc' as [H1 H2]. apply N.leb_le in H1, H2.
  replace (c =? 45)%N with false by (symmetry; apply N.eqb_neq; lia).
  replace (c =? 43)%N with false by (symmetry; apply N.eqb_neq; lia).
  assert (Hend : match radix_prefix 10 (c :: t) with
                 | [] => S754_nan
                 | z :: l => Number_of_Z_signed false (radix_value 10 (z :: l))
                 end = Number_of_Z (digits_value (c :: t))).
  { rewrite (radix_prefix_digits (c :: t) Hr). cbn [map].
    change (Z.of_N c - 48 :: map (fun c0 => Z.of_N c0 - 48) t)%Z
      with (map (fun c0 => Z.of_N c0 - 48)%Z (c :: t)).
    rewrite radix_value_digits. reflexivity. }
  destruct t as [|x r]; [exact Hend|].
  assert (Hx : is_digit x = true) by (apply Hr; right; now left).
  unfold is_digit in Hx. apply andb_true_iff in Hx as [H3 H4].
  apply N.leb_le in H3, H4.
  replace (x =? 120)%N with false by (symmetry; apply N.eqb_neq; lia).
  replace (x =? 88)%N with false by (symmetry; apply N.eqb_neq; lia).
  rewrite andb_false_r. exact Hend.
Qed.

Lemma parseInt_null : parseInt (lit "null") = S754_nan.
Proof. reflexivity. Qed.

(** Line 31 on a string without a digit, and on a string with one. *)
Lemma durationWeeks_no_digit (duration : jsstring) :
  no_digit duration -> durationWeeks duration = Number_of_Z 4.
Proof.
  intros H. apply match_digits_None in H.
  unfold durationWeeks. rewrite H. reflexivity.
Qed.

Lemma durationWeeks_run (duration run : jsstring) :
  first_digit_run duration run ->
  durationWeeks duration
  = if (digits_value run =? 0)%Z then Number_of_Z 4
    else Number_of_Z (digits_value run).
Proof.
  intros H. pose proof H as (_ & _ & _ & _ & Hne & Hr & _).
  apply match_digits_Some in H.
  pose proof (digits_value_nonneg run Hr) as Hnn.
  unfold durationWeeks. rewrite H. cbn [match_result_toString].
  rewrite (parseInt_digits run Hne Hr). unfold or_else.
  destruct (Z.eqb_spec (digits_value run) 0) as [E|E].
  - rewrite E. reflexivity.
  - rewrite Number_of_Z_truthy by lia. reflexivity.
Qed.

Lemma zero_weeks_run : first_digit_run (lit "0 weeks") (lit "0").
Proof. apply match_digits_Some. reflexivity. Defined.

(** C6, as it is stated, fails on "0 weeks": the first maximal run of
    digits is "0", so an integer is found, and it is 0; yet the week count
    is not that integer but the default 4. *)
Lemma durationWeeks_zero_counterexample :
  first_digit_run (lit "0 weeks") (lit "0")
  /\ digits_value (lit "0") = 0%Z
  /\ durationWeeks (lit "0 weeks") = Number_of_Z 4
  /\ Number_to_Z (durationWeeks (lit "0 weeks")) <> Some (digits_value (lit "0")).
Proof.
  split; [exact zero_weeks_run|].
  split; [reflexivity|]. split; [reflexivity|].
  vm_compute. discriminate.
Qed.

(** C6, amended. The week count is read from the first maximal run of
    digits of [duration]: it is the Number of the run's decimal value
    (that very integer below [2^53]) when the value is not 0, and it is 4
    when the string holds no digit or the run's value is 0.  "6 weeks"
    gives 6, "1 week" gives 1, "no number here" and "0 weeks" give 4. *)
Theorem durationWeeks_first_nonzero_run :
  (forall duration, no_digit duration \/ exists run, first_digit_run duration run)
  /\ (forall duration, no_digit duration -> durationWeeks duration = Number_of_Z 4)
  /\ (forall duration run, first_digit_run duration run ->
        (digits_value run = 0%Z -> durationWeeks duration = Number_of_Z 4)
        /\ (digits_value run <> 0%Z ->
            durationWeeks duration = Number_of_Z (digits_value run))
        /\ ((0 < digits_value run < 2 ^ 53)%Z ->
            Number_to_Z (durationWeeks duration) = Some (digits_value run)))
  /\ Number_to_Z (durationWeeks (lit "6 weeks")) = Some 6%Z
  /\ Number_to_Z (durationWeeks (lit "1 week")) = Some 1%Z
  /\ Number_to_Z (durationWeeks (lit "no number here")) = Some 4%Z
  /\ Number_to_Z (durationWeeks (lit "0 weeks")) = Some 4%Z.
Proof.
  split; [|split; [|split]].
  - intros duration. destruct (match_digits duration) as [run|] eqn:E.
    + right. exists run. now apply match_digits_Some.
    + left. now apply match_digits_None.
  - exact durationWeeks_no_digit.
  - intros duration run H. rewrite (durationWeeks_run duration run H).
    repeat split.
    + intros ->. reflexivity.
    + intros Hne. destruct (Z.eqb_spec (digits_value run) 0); [contradiction|reflexivity].
    + intros Hv. destruct (Z.eqb_spec (digits_value run) 0); [lia|].
      now apply Number_of_Z_exact.
  - repeat split; reflexivity.
Qed.

(** C10. When the first maximal run of digits of [duration] has value 0,
    [parseInt] gives 0, which is falsy, so [|| 4] applies as it does to the
    NaN of a failed match: the week count is 4, the same as for any string
    without a digit, and the plan is the template for 4 weeks. *)
Theorem zero_weeks_defaults_to_4 (duration run : jsstring) :
  first_digit_run duration run -> digits_value run = 0%Z ->
  parseInt (match_result_toString (match_digits duration)) = S754_zero false
  /\ durationWeeks duration = Number_of_Z 4
  /\ (forall other, no_digit other ->
        parseInt (match_result_toString (match_digits other)) = S754_nan
        /\ durationWeeks other = durationWeeks duration)
  /\ (forall subject level goals,
        generateFallbackPlan subject level duration goals
        = planTemplate subject level duration goals (Number_of_Z 4)).
Proof.
  intros H H0.
  assert (HW : durationWeeks duration = Number_of_Z 4)
    by (rewrite (durationWeeks_run duration run H), H0; reflexivity).
  repeat split.
  - pose proof H as (_ & _ & _ & _ & Hne & Hr & _).
    apply match_digits_Some in H. rewrite H. cbn [match_result_toString].
    rewrite (parseInt_digits run Hne Hr), H0. reflexivity.
  - exact HW.
  - apply match_digits_None in H1. rewrite H1. reflexivity.
  - rewrite HW. now apply durationWeeks_no_digit.
  - intros subject level goals. unfold generateFallbackPlan. now rewrite HW.
Qed.

Lemma zero_weeks_defaults_to_4_witness :
  parseInt (match_result_toString (match_digits (lit "0 weeks"))) = S754_zero false
  /\ durationWeeks (lit "0 weeks") = Number_of_Z 4
  /\ (forall other, no_digit other ->
        parseInt (match_result_toString (match_digits other)) = S754_nan
        /\ durationWeeks other = durationWeeks (lit "0 weeks"))
  /\ (forall subject level goals,
        generateFallbackPlan subject level (lit "0 weeks") goals
        = planTemplate subject level (lit "0 weeks") goals (Number_of_Z 4)).
Proof.
  apply (zero_weeks_defaults_to_4 (lit "0 weeks") (lit "0")).
  - exact zero_weeks_run.
  - reflexivity.
Defined.

(* ================================================================== *)
(** * The template *)
(* ================================================================== *)

Lemma durationWeeks_week_count (duration : jsstring) (n : Z) :
  Spec.week_count duration n ->
  (1 <= n)%Z /\ durationWeeks duration = Number_of_Z n.
Proof.
  intros [[Hno ->]|(run & Hrun & ->)].
  - split; [lia|]. now apply durationWeeks_no_digit.
  - rewrite (durationWeeks_run duration run Hrun).
    pose proof Hrun as (_ & _ & _ & _ & _ & Hr & _).
    pose proof (digits_value_nonneg run Hr).
    destruct (Z.eqb_spec (digits_value run) 0); split; try reflexivity; lia.
Qed.

(** Up to [2^49] weeks the binary64 arithmetic of lines 46 and 52 and the
    printing of its results give the week ranges of the exact arithmetic. *)
Lemma weeks_agree (W : Z) :
  (1 <= W < 2 ^ 49)%Z ->
  phase2Weeks (Number_of_Z W) = Spec.phase2_weeks W
  /\ phase3Weeks (Number_of_Z W) = Spec.phase3_weeks W.
Proof.
  intros HW. change (2 ^ 49)%Z with 562949953421312%Z in HW.
  assert (Hc : (1 <= Spec.ceil_0_7 W <= W)%Z).
  { unfold Spec.ceil_0_7. pose proof (Z.div_mod (7 * W + 9) 10 ltac:(lia)).
    pose proof (Z.mod_pos_bound (7 * W + 9) 10 ltac:(lia)). lia. }
  assert (H53 : (2 ^ 53 = 9007199254740992)%Z) by reflexivity.
  assert (H52 : (2 ^ 52 = 4503599627370496)%Z) by reflexivity.
  assert (Hceil := ceil_mul_0_7 W ltac:(change (2 ^ 49)%Z with 562949953421312%Z; lia)).
  unfold phase2Weeks, phase3Weeks, Spec.phase2_weeks, Spec.phase3_weeks.
  rewrite Hceil, gt_integers by lia.
  rewrite add_integers, sub_integers by lia.
  rewrite !Number_toString_integer by lia.
  split; reflexivity.
Qed.

(** The Phase 2 and Phase 3 lines of the template, for any week count:
    Phase 3 is labelled whatever the week count is. *)
Lemma phase_lines_in_plan (subject level duration goals : jsstring) (W : number) :
  exists before after,
    planTemplate subject level duration goals W
    = before
      ++ lit "Phase 2: Core Learning (Week " ++ phase2Weeks W ++ lit ")"
      ++ lit "
- Deep dive into main topics and concepts
- Practice problem-solving techniques
- Create summary notes and mind maps
- Regular self-assessment and progress tracking

"
      ++ lit "Phase 3: Advanced Application (Week " ++ phase3Weeks W ++ lit ")"
      ++ after.
Proof.
  unfold planTemplate.
  set (p2 := phase2Weeks W). set (p3 := phase3Weeks W).
  set (g2 := gt W (Number_of_Z 2)). set (g3 := gt W (Number_of_Z 3)).
  clearbody p2 p3 g2 g3.
  exists (lit "Study Plan for " ++ subject ++ lit " (" ++ level
          ++ lit " Level)
Duration: " ++ duration ++ lit "
Goals: " ++ goals ++ lit "

=== STUDY PLAN OVERVIEW ===

Phase 1: Foundation (Week 1"
          ++ (if g2 then lit "-2" else [])
          ++ lit ")
- Review fundamental concepts and terminology
- Gather study materials and resources
- Establish daily study routine (1-2 hours)
- Complete basic exercises and assessments

").
  eexists. rewrite <- ?app_assoc. simpl. reflexivity.
Qed.

(** C8, as it is stated for every duration, fails on
    "844424930131973 weeks": the week count is 844424930131973, above
    [2^49], and seven tenths of it is 591097451092381.1, of which the
    ceiling is 591097451092382; the binary64 product of line 46 is
    591097451092381, so the plan labels Phase 2 as weeks 3 through
    591097451092381 and Phase 3 as starting at week 591097451092382,
    each one short of [ceil(W * 0.7)] and [ceil(W * 0.7) + 1]. *)
Lemma fallback_plan_phases_counterexample :
  let duration := lit "844424930131973 weeks" in
  let n := 844424930131973%Z in
  Spec.week_count duration n
  /\ durationWeeks duration = Number_of_Z n
  /\ (2 ^ 49 <= n)%Z
  /\ (10 * (Spec.ceil_0_7 n - 1) < 7 * n <= 10 * Spec.ceil_0_7 n)%Z
  /\ Spec.ceil_0_7 n = 591097451092382%Z
  /\ phase2Weeks (durationWeeks duration) = lit "3-591097451092381"
  /\ phase3Weeks (durationWeeks duration) = lit "591097451092382-844424930131972"
  /\ phase2Weeks (durationWeeks duration) <> lit "3-" ++ decimal (Spec.ceil_0_7 n)
  /\ phase3Weeks (durationWeeks duration)
     <> decimal (Spec.ceil_0_7 n + 1) ++ lit "-" ++ decimal (n - 1)
  /\ forall subject level goals,
       exists before after,
         generateFallbackPlan subject level duration goals
         = before
           ++ lit "Phase 2: Core Learning (Week " ++ lit "3-591097451092381" ++ lit ")"
           ++ lit "
- Deep dive into main topics and concepts
- Practice problem-solving techniques
- Create summary notes and mind maps
- Regular self-assessment and progress tracking

"
           ++ lit "Phase 3: Advanced Application (Week "
           ++ lit "591097451092382-844424930131972" ++ lit ")"
           ++ after.
Proof.
  intros duration n.
  assert (HW : durationWeeks duration = Number_of_Z n) by (vm_compute; reflexivity).
  assert (H2 : phase2Weeks (Number_of_Z n) = lit "3-591097451092381")
    by (vm_compute; reflexivity).
  assert (H3 : phase3Weeks (Number_of_Z n) = lit "591097451092382-844424930131972")
    by (vm_compute; reflexivity).
  split.
  { right. exists (lit "844424930131973").
    split; [apply match_digits_Some; reflexivity|reflexivity]. }
  split; [exact HW|]. split; [vm_compute; discriminate|].
  split; [vm_compute; split; [reflexivity|discriminate]|].
  split; [reflexivity|]. rewrite HW, H2, H3.
  split; [reflexivity|]. split; [reflexivity|].
  split; [vm_compute; discriminate|]. split; [vm_compute; discriminate|].
  intros subject level goals. unfold generateFallbackPlan. rewrite HW.
  destruct (phase_lines_in_plan subject level duration goals (Number_of_Z n))
    as (before & after & E).
  exists before, after. rewrite E, H2, H3. reflexivity.
Qed.

(** C8, amended. For all four arguments the text of [generateFallbackPlan]
    begins with "Study Plan for {subject} ({level} Level)" and holds a
    Phase 2 line and a Phase 3 line, the latter with no guard.  For every
    duration whose week count [n] is below [2^49], Phase 2 is labelled
    weeks 3 through [ceil(7n/10)] when [n > 2] and week 2 otherwise, and
    Phase 3 weeks [ceil(7n/10) + 1] through [n - 1], in decimal, even when
    that range is empty or inverted: 4 weeks print 4-3 and 1 week prints
    2-0.  The plan for Biology at Beginner level begins with
    "Study Plan for Biology (Beginner Level)". *)
Theorem fallback_plan_header_and_phases (subject level duration goals : jsstring) :
  let text := generateFallbackPlan subject level duration goals in
  let W := durationWeeks duration in
  (exists rest,
     text = lit "Study Plan for " ++ subject ++ lit " (" ++ level ++ lit " Level)"
            ++ rest)
  /\ (exists before after,
        text = before
               ++ lit "Phase 2: Core Learning (Week " ++ phase2Weeks W ++ lit ")"
               ++ lit "
- Deep dive into main topics and concepts
- Practice problem-solving techniques
- Create summary notes and mind maps
- Regular self-assessment and progress tracking

"
               ++ lit "Phase 3: Advanced Application (Week " ++ phase3Weeks W ++ lit ")"
               ++ after)
  /\ (forall n, Spec.week_count duration n -> (n < 2 ^ 49)%Z ->
        phase2Weeks W
        = (if (2 <? n)%Z then lit "3-" ++ decimal (Spec.ceil_0_7 n) else lit "2")
        /\ phase3Weeks W
           = decimal (Spec.ceil_0_7 n + 1) ++ lit "-" ++ decimal (n - 1)
        /\ (10 * (Spec.ceil_0_7 n - 1) < 7 * n <= 10 * Spec.ceil_0_7 n)%Z)
  /\ phase3Weeks (durationWeeks (lit "4 weeks")) = lit "4-3"
  /\ phase3Weeks (durationWeeks (lit "1 week")) = lit "2-0"
  /\ phase2Weeks (durationWeeks (lit "1 week")) = lit "2"
  /\ starts_with (lit "Study Plan for Biology (Beginner Level)")
       (generateFallbackPlan (lit "Biology") (lit "Beginner") (lit "4 weeks")
                             (lit "Pass exam")) = true.
Proof.
  intros text W. subst text. unfold generateFallbackPlan. fold W.
  split; [|split; [|split; [|split; [|split; [|split]]]]].
  - eexists. unfold planTemplate. rewrite <- ?app_assoc. reflexivity.
  - apply phase_lines_in_plan.
  - intros n Hn Hlt. destruct (durationWeeks_week_count duration n Hn) as [H1 HW].
    unfold W. rewrite HW.
    destruct (weeks_agree n ltac:(lia)) as [H2 H3]. rewrite H2, H3.
    split; [reflexivity|]. split; [reflexivity|].
    unfold Spec.ceil_0_7.
    pose proof (Z.div_mod (7 * n + 9) 10 ltac:(lia)).
    pose proof (Z.mod_pos_bound (7 * n + 9) 10 ltac:(lia)). lia.
  - reflexivity.
  - reflexivity.
  - reflexivity.
  - vm_compute. reflexivity.
Qed.

(* ================================================================== *)
(** * Objects *)
(* ================================================================== *)

Import Routes.

Lemma string_eqb_eq (a b : jsstring) : string_eqb a b = true <-> a = b.
Proof.
  revert b; induction a as [|c a IH]; intros [|d b]; simpl;
    try (split; [discriminate|discriminate]); [tauto|].
  rewrite andb_true_iff, N.eqb_eq, IH. split.
  - intros [-> ->]. reflexivity.
  - intros H. injection H as -> ->. now split.
Qed.

Lemma string_eqb_refl (a : jsstring) : string_eqb a a = true.
Proof. now apply string_eqb_eq. Qed.

Lemma string_eqb_neq (a b : jsstring) : a <> b -> string_eqb a b = false.
Proof.
  intros H. destruct (string_eqb a b) eqn:E; [|reflexivity].
  apply string_eqb_eq in E. contradiction.
Qed.

Section ObjectFacts.

Context {V : Type}.
Implicit Types (o : object V) (k : jsstring) (v : V).

Lemma obj_get_set_same o k v : obj_get (obj_set o k v) k = Some v.
Proof.
  induction o as [|[k' v'] o IH]; simpl.
  - now rewrite string_eqb_refl.
  - destruct (string_eqb k' k) eqn:E; simpl; rewrite E; [reflexivity|exact IH].
Qed.

Lemma obj_get_set_other o k k' v :
  k <> k' -> obj_get (obj_set o k v) k' = obj_get o k'.
Proof.
  intros Hne. induction o as [|[k0 v0] o IH]; simpl.
  - now rewrite string_eqb_neq.
  - destruct (string_eqb k0 k) eqn:E; simpl.
    + apply string_eqb_eq in E. subst k0. now rewrite string_eqb_neq.
    + now rewrite IH.
Qed.

Lemma obj_get_None o k : obj_get o k = None <-> ~ In k (obj_keys o).
Proof.
  induction o as [|[k' v'] o IH]; simpl; [tauto|].
  destruct (string_eqb k' k) eqn:E.
  - apply string_eqb_eq in E. split; [discriminate|]. intros H. exfalso. auto.
  - rewrite IH. split; intros H; [intros [->|Hin]|tauto].
    + now rewrite string_eqb_refl in E.
    + contradiction.
Qed.

(** Setting a property keeps the keys, or adds the new one at the end. *)
Lemma obj_keys_set_old o k v :
  In k (obj_keys o) -> obj_keys (obj_set o k v) = obj_keys o.
Proof.
  induction o as [|[k' v'] o IH]; simpl; [tauto|]. intros H.
  destruct (string_eqb k' k) eqn:E; [reflexivity|]. simpl. f_equal.
  apply IH. destruct H as [->|H]; [|exact H].
  now rewrite string_eqb_refl in E.
Qed.

Lemma obj_keys_set_new o k v :
  ~ In k (obj_keys o) -> obj_keys (obj_set o k v) = obj_keys o ++ [k].
Proof.
  induction o as [|[k' v'] o IH]; simpl; [reflexivity|]. intros H.
  destruct (string_eqb k' k) eqn:E.
  - apply string_eqb_eq in E. tauto.
  - simpl. f_equal. apply IH. tauto.
Qed.

(** A spread: the properties of the source win, the others stay. *)
Lemma obj_get_assign (source : object V) :
  forall (target : object V) k,
    NoDup (obj_keys source) ->
    obj_get (obj_assign target source) k
    = match obj_get source k with
      | Some v => Some v
      | None => obj_get target k
      end.
Proof.
  induction source as [|[k1 v1] s IH]; intros target k Hnd; [reflexivity|].
  simpl in Hnd. inversion Hnd as [|? ? Hnotin Hnd']; subst.
  change (obj_assign target ((k1, v1) :: s))
    with (obj_assign (obj_set target k1 v1) s).
  rewrite IH by exact Hnd'. simpl.
  destruct (string_eqb k1 k) eqn:E.
  - apply string_eqb_eq in E. subst k1.
    apply obj_get_None in Hnotin. rewrite Hnotin. apply obj_get_set_same.
  - destruct (obj_get s k); [reflexivity|].
    apply obj_get_set_other. intros ->. now rewrite string_eqb_refl in E.
Qed.

End ObjectFacts.

Lemma obj_get_map {A B : Type} (f : A -> B) (o : object A) (k : jsstring) :
  obj_get (map (fun kv => (fst kv, f (snd kv))) o) k = option_map f (obj_get o k).
Proof.
  induction o as [|[k' v'] o IH]; simpl; [reflexivity|].
  destruct (string_eqb k' k); [reflexivity|exact IH].
Qed.

Lemma obj_keys_map {A B : Type} (f : A -> B) (o : object A) :
  obj_keys (map (fun kv => (fst kv, f (snd kv))) o) = obj_keys o.
Proof. unfold obj_keys. rewrite map_map. reflexivity. Qed.

(* ================================================================== *)
(** * GET /check-models *)
(* ================================================================== *)

Lemma probes_app (a b : list jsstring) : probes (a ++ b) = probes a ++ probes b.
Proof. apply map_app. Qed.

Lemma provider_calls_probes (ms : list jsstring) : provider_calls (probes ms) = ms.
Proof. induction ms as [|m ms IH]; simpl; [|rewrite IH]; reflexivity. Qed.

Lemma store_writes_probes (ms : list jsstring) : store_writes (probes ms) = [].
Proof. induction ms as [|m ms IH]; simpl; [reflexivity|exact IH]. Qed.

Lemma provider_inputs_probes (ms : list jsstring) (i : jsstring) :
  In i (provider_inputs (probes ms)) -> i = lit "Hello".
Proof.
  induction ms as [|m ms IH]; simpl; [tauto|]. intros [<-|H]; [reflexivity|auto].
Qed.

(** The loop probes the models in order, whatever the answers. *)
Lemma probe_models_log (w : world) (ms : list jsstring) :
  forall st log, snd (probe_models w ms st log) = log ++ probes ms.
Proof.
  induction ms as [|m ms IH]; intros st log; simpl.
  - now rewrite app_nil_r.
  - rewrite IH, <- app_assoc. reflexivity.
Qed.

(** The status object after the loop: a model that is probed once holds
    the status of its probe, and the other keys are untouched. *)
Lemma probe_models_status (w : world) (ms : list jsstring) :
  forall st log,
    NoDup ms ->
    (forall k, ~ In k ms ->
       obj_get (fst (probe_models w ms st log)) k = obj_get st k)
    /\ (forall i m, nth_error ms i = Some m ->
          obj_get (fst (probe_models w ms st log)) m
          = Some (model_status
                    (textGeneration w (log ++ probes (firstn i ms)) m (lit "Hello")))).
Proof.
  induction ms as [|m ms IH]; intros st log Hnd.
  - split; [reflexivity|]. intros [|i] m H; discriminate H.
  - inversion Hnd as [|? ? Hnotin Hnd']; subst. simpl.
    destruct (IH (obj_set st m (model_status (textGeneration w log m (lit "Hello"))))
                 (log ++ [TextGeneration m (lit "Hello")]) Hnd') as [IHout IHin].
    split.
    + intros k Hk. rewrite IHout by tauto.
      apply obj_get_set_other. intros ->. apply Hk. now left.
    + intros [|i] m' H; simpl in H.
      * injection H as <-. rewrite IHout by exact Hnotin.
        rewrite obj_get_set_same. simpl. now rewrite app_nil_r.
      * rewrite (IHin i m' H). simpl. now rewrite <- app_assoc.
Qed.

Lemma probe_models_keys (w : world) (ms : list jsstring) :
  forall st log,
    NoDup ms -> (forall m, In m ms -> ~ In m (obj_keys st)) ->
    obj_keys (fst (probe_models w ms st log)) = obj_keys st ++ ms.
Proof.
  induction ms as [|m ms IH]; intros st log Hnd Hnew; simpl.
  - now rewrite app_nil_r.
  - inversion Hnd as [|? ? Hnotin Hnd']; subst.
    rewrite IH; [| exact Hnd' |].
    + rewrite obj_keys_set_new by (apply Hnew; now left).
      now rewrite <- app_assoc.
    + intros m' Hm'. rewrite obj_keys_set_new by (apply Hnew; now left).
      intros Hin. apply in_app_or in Hin as [Hin|[<-|[]]].
      * apply (Hnew m'); [now right|exact Hin].
      * contradiction.
Qed.

Lemma check_models_unfold (ms : list jsstring) (w : world) (now : jsstring) :
  check_models_with ms w now
  = ({| report_status := 200; report_timestamp := now;
        report_modelStatus := fst (probe_models w ms [] []) |},
     probes ms).
Proof.
  unfold check_models_with.
  pose proof (probe_models_log w ms [] []) as H.
  destruct (probe_models w ms [] []) as [st log]. simpl in *. now subst.
Qed.

(** X1. [GET /check-models] answers 200 whatever the providers do,
    having called each of its five models exactly once, in the order of
    the list, each time with the input "Hello", and having written nothing
    to the store. *)
Theorem check_models_probes_each_model_once (w : world) (now : jsstring) :
  let out := get_check_models w now in
  report_status (fst out) = 200%Z
  /\ provider_calls (snd out) = probed_models
  /\ (forall i, In i (provider_inputs (snd out)) -> i = lit "Hello")
  /\ store_writes (snd out) = [].
Proof.
  intros out. subst out. unfold get_check_models.
  rewrite check_models_unfold. cbn [fst snd report_status].
  split; [reflexivity|]. split; [apply provider_calls_probes|].
  split; [apply provider_inputs_probes|apply store_writes_probes].
Qed.

Lemma unavailable_is_not_available (err : jsstring) :
  lit "Unavailable: " ++ err <> lit "Available".
Proof. discriminate. Qed.

Lemma probed_models_NoDup : NoDup probed_models.
Proof. exact models_NoDup. Qed.

(** X2. The report of [GET /check-models] has one entry per model of the
    list; the entry of a model is "Available" exactly when its probe
    resolved, whatever the response holds, and "Unavailable: " followed by
    the message of the error when the probe was rejected. *)
Theorem check_models_reports_each_model (w : world) (now : jsstring) :
  let report := report_modelStatus (fst (get_check_models w now)) in
  obj_keys report = probed_models
  /\ forall i m, nth_error probed_models i = Some m ->
       let answer :=
         textGeneration w (probes (firstn i probed_models)) m (lit "Hello") in
       (obj_get report m = Some (lit "Available")
        <-> exists response, answer = Resolves response)
       /\ (forall err, answer = Rejects err ->
             obj_get report m = Some (lit "Unavailable: " ++ err)).
Proof.
  intros report. subst report. unfold get_check_models.
  rewrite check_models_unfold. cbn [fst report_modelStatus]. split.
  - rewrite probe_models_keys; [reflexivity|exact probed_models_NoDup|].
    intros m _ [].
  - intros i m Hm.
    destruct (probe_models_status w probed_models [] [] probed_models_NoDup)
      as [_ Hin].
    rewrite (Hin i m Hm). cbn [app].
    destruct (textGeneration w (probes (firstn i probed_models)) m (lit "Hello"))
      as [err|response]; cbn [model_status]; split.
    + split.
      * intros H. exfalso. apply (unavailable_is_not_available err). congruence.
      * intros [response H]. discriminate H.
    + intros err' H. injection H as <-. reflexivity.
    + split; [eauto|reflexivity].
    + intros err H. discriminate H.
Qed.

(** The loop of [POST /generate-plan] over providers that are all
    unusable, then the fallback. *)
Lemma unusable_providers_fall_back (ms : list jsstring) (w : world)
    (body : request_body) (subject level duration goals : jsstring) :
  valid_request body subject level duration goals ->
  all_unusable w (prompt subject level duration goals) ms ->
  exists r doc,
    generate_plan_with ms w body
    = (r, calls_before (prompt subject level duration goals) ms ++ [StoreAdd doc])
    /\ modelUsed r = Some (lit "fallback") /\ isAiGenerated r = Some false
    /\ plan r = Some (generateFallbackPlan subject level duration goals).
Proof.
  intros Hv Hall. rewrite (generate_plan_valid _ _ _ _ _ _ _ Hv).
  set (p := prompt subject level duration goals) in *.
  destruct (loop_skip w subject level duration goals p ms [] None [])
    as [le E]; [exact Hall|].
  rewrite app_nil_r in E. rewrite E. simpl.
  destruct (fallback_outcome w subject level duration goals (calls_before p ms))
    as (r & doc & Ef & Hp & Hm & _ & _ & _ & Hplan & Hmodel & Hai & _).
  exists r, doc. rewrite Ef, Hplan, Hmodel, Hp, Hm. auto.
Qed.

(** X3. "Available" does not mean usable: when every model answers each
    call with a response that carries no text of 100 code units,
    [GET /check-models] reports every model as "Available" while
    [POST /generate-plan] on a valid request still returns the fallback
    plan. *)
Theorem available_does_not_mean_usable
    (w : world) (now : jsstring) (body : request_body)
    (subject level duration goals : jsstring) :
  valid_request body subject level duration goals ->
  (forall m, In m models ->
     exists response,
       always_answers w m (Resolves response)
       /\ unusable (prompt subject level duration goals) (Resolves response)) ->
  (forall m, In m probed_models ->
     obj_get (report_modelStatus (fst (get_check_models w now))) m
     = Some (lit "Available"))
  /\ isAiGenerated (fst (post_generate_plan w body)) = Some false
  /\ plan (fst (post_generate_plan w body))
     = Some (generateFallbackPlan subject level duration goals).
Proof.
  intros Hv Hall. split.
  - intros m Hm. destruct (Hall m Hm) as (response & Hans & _).
    destruct (In_nth_error probed_models m Hm) as [i Hi].
    unfold get_check_models. rewrite check_models_unfold.
    cbn [fst report_modelStatus].
    destruct (probe_models_status w probed_models [] [] probed_models_NoDup)
      as [_ Hin].
    rewrite (Hin i m Hi), Hans. reflexivity.
  - destruct (unusable_providers_fall_back models w body subject level duration
                goals Hv) as (r & doc & E & Hm & Hai & Hplan).
    + intros i m Hi. destruct (Hall m (nth_error_In _ _ Hi)) as (response & Hans & Hu).
      now rewrite Hans.
    + unfold post_generate_plan. rewrite E. auto.
Qed.

Lemma available_does_not_mean_usable_witness :
  (forall m, In m probed_models ->
     obj_get (report_modelStatus
                (fst (get_check_models Samples.empty_answers (lit "now")))) m
     = Some (lit "Available"))
  /\ isAiGenerated (fst (post_generate_plan Samples.empty_answers Demo.biology))
     = Some false
  /\ plan (fst (post_generate_plan Samples.empty_answers Demo.biology))
     = Some (generateFallbackPlan (lit "Biology") (lit "Beginner") (lit "4 weeks")
                                  (lit "Pass exam")).
Proof.
  apply (available_does_not_mean_usable Samples.empty_answers (lit "now")
           Demo.biology (lit "Biology") (lit "Beginner") (lit "4 weeks")
           (lit "Pass exam")).
  - exact biology_valid.
  - intros m _. exists (Some {| generated_text := Some [] |}). split.
    + intros log inputs. reflexivity.
    + intros raw H. injection H as <-. vm_compute. lia.
Defined.

(* ================================================================== *)
(** * GET /study-plans and GET /study-plan/:id *)
(* ================================================================== *)

Lemma createdAt_toDate_dated (d : data) :
  dated d <-> createdAt_toDate d <> None.
Proof.
  unfold dated, createdAt_toDate.
  destruct (obj_get d (lit "createdAt")) as [[]|]; split; try tauto;
    try discriminate; intros H; now apply H.
Qed.

Lemma plan_object_dated (id : jsstring) (d : data) :
  dated d <-> plan_object id d <> None.
Proof.
  rewrite createdAt_toDate_dated. unfold plan_object.
  destruct (createdAt_toDate d); split; try discriminate; try tauto.
Qed.

(** X4. The object returned for a document (whose fields are distinct):
    its [id] is the document id unless the document has a field [id] of
    its own, which then replaces it; its [createdAt] is the date of the
    stored Timestamp, or [undefined] when the field is absent or null;
    every other field is returned as stored. *)
Theorem plan_object_fields (id : jsstring) (d : data) (o : object jsvalue) :
  NoDup (obj_keys d) ->
  plan_object id d = Some o ->
  obj_get o (lit "id")
  = Some (match obj_get d (lit "id") with
          | Some own => JStored own
          | None => JStored (FString id)
          end)
  /\ obj_get o (lit "createdAt")
     = Some (match obj_get d (lit "createdAt") with
             | Some (FTimestamp date) => JDate date
             | _ => JUndefined
             end)
  /\ forall key, key <> lit "id" -> key <> lit "createdAt" ->
       obj_get o key = option_map JStored (obj_get d key).
Proof.
  intros Hnd. unfold plan_object, createdAt_toDate.
  assert (Hget : forall key,
            obj_get (obj_assign [(lit "id", JStored (FString id))]
                       (map (fun kv => (fst kv, JStored (snd kv))) d)) key
            = match obj_get d key with
              | Some v => Some (JStored v)
              | None => if string_eqb (lit "id") key
                        then Some (JStored (FString id)) else None
              end).
  { intros key. rewrite obj_get_assign by (now rewrite obj_keys_map).
    rewrite obj_get_map. destruct (obj_get d key); reflexivity. }
  destruct (obj_get d (lit "createdAt")) as [[| | | |date|]|] eqn:Ec;
    try discriminate; intros H; injection H as <-;
    (split; [|split]);
    try (rewrite obj_get_set_other by discriminate; rewrite Hget;
         destruct (obj_get d (lit "id")); reflexivity);
    try apply obj_get_set_same;
    intros key H1 H2; rewrite obj_get_set_other by congruence;
    rewrite Hget; destruct (obj_get d key); try reflexivity;
    rewrite string_eqb_neq by congruence; reflexivity.
Qed.

Lemma plan_object_fields_witness :
  obj_get Samples.own_id_object (lit "id") = Some (JStored (FString (lit "mine")))
  /\ obj_get Samples.own_id_object (lit "createdAt") = Some JUndefined
  /\ forall key, key <> lit "id" -> key <> lit "createdAt" ->
       obj_get Samples.own_id_object key
       = option_map JStored (obj_get Samples.own_id key).
Proof.
  apply (plan_object_fields (lit "def") Samples.own_id Samples.own_id_object).
  - unfold Samples.own_id, obj_keys. simpl.
    constructor; [|constructor; [|constructor]]; simpl; intuition discriminate.
  - reflexivity.
Defined.

(** What [forEach] has pushed when no callback throws, and the document
    that made one throw. *)
Lemma collect_plans_outcome (docs : list document) :
  forall plans,
    match collect_plans docs plans with
    | Some all =>
        exists new,
          all = plans ++ new
          /\ Forall2 (fun doc o =>
                        plan_object (document_id doc) (document_data doc) = Some o)
                     docs new
    | None => exists doc, In doc docs /\ ~ dated (document_data doc)
    end.
Proof.
  induction docs as [|doc docs IH]; intros plans; simpl.
  - exists []. split; [now rewrite app_nil_r|constructor].
  - destruct (plan_object (document_id doc) (document_data doc)) as [o|] eqn:Ho.
    + specialize (IH (plans ++ [o])).
      destruct (collect_plans docs (plans ++ [o])) as [all|].
      * destruct IH as (new & -> & Hnew). exists (o :: new).
        split; [now rewrite <- app_assoc|]. now constructor.
      * destruct IH as (bad & Hin & Hbad). exists bad. split; [now right|exact Hbad].
    + exists doc. split; [now left|].
      intros Hd. apply (plan_object_dated (document_id doc)) in Hd. contradiction.
Qed.

(** X5. When the query succeeds and the [createdAt] of every document is
    a Timestamp, null or absent, [GET /study-plans] answers 200 with one
    object per document of the snapshot, in the order of the snapshot,
    each built from its document; the handler itself neither sorts nor
    cuts the list. *)
Theorem study_plans_lists_every_document (st : store) (docs : list document) :
  store_query st recent_query = ReadGives docs ->
  Forall (fun doc => dated (document_data doc)) docs ->
  exists plans,
    get_study_plans st = read_ok plans
    /\ Forall2 (fun doc o =>
                  plan_object (document_id doc) (document_data doc) = Some o)
               docs plans.
Proof.
  intros Hq Hall. unfold get_study_plans. rewrite Hq.
  pose proof (collect_plans_outcome docs []) as H.
  destruct (collect_plans docs []) as [all|].
  - destruct H as (new & -> & Hnew). exists new. split; [reflexivity|exact Hnew].
  - destruct H as (bad & Hin & Hbad). rewrite Forall_forall in Hall.
    elim Hbad. exact (Hall bad Hin).
Qed.

Lemma study_plans_lists_every_document_witness :
  exists plans,
    get_study_plans Samples.two_documents = read_ok plans
    /\ Forall2 (fun doc o =>
                  plan_object (document_id doc) (document_data doc) = Some o)
         [ {| document_id := lit "abc";
              document_data :=
                stored_fields Samples.written (FTimestamp 1700000000000) |};
           {| document_id := lit "def"; document_data := Samples.own_id |} ]
         plans.
Proof.
  apply (study_plans_lists_every_document Samples.two_documents).
  - reflexivity.
  - repeat constructor.
Defined.

(** X6. One document whose [createdAt] is neither a Timestamp nor null
    makes the whole listing fail: [GET /study-plans] answers 500 with
    [success] false, the error 'Failed to fetch study plans', the message
    of the TypeError as details and no plan at all, wherever the document
    is in the snapshot. *)
Theorem one_bad_date_fails_the_listing
    (st : store) (docs : list document) (doc : document) :
  store_query st recent_query = ReadGives docs ->
  In doc docs ->
  ~ dated (document_data doc) ->
  let r := get_study_plans st in
  read_status r = 500%Z /\ read_success r = false /\ read_payload r = None
  /\ read_error r = Some (lit "Failed to fetch study plans")
  /\ read_details r = Some NotAFunction.
Proof.
  intros Hq Hin Hbad r. subst r. unfold get_study_plans. rewrite Hq.
  pose proof (collect_plans_outcome docs []) as H.
  destruct (collect_plans docs []) as [all|]; [|now repeat split].
  destruct H as (new & _ & Hnew). exfalso. clear Hq.
  induction Hnew as [|d o docs' new' Ho Hrest IH]; [contradiction|].
  destruct Hin as [->|Hin]; [|exact (IH Hin)].
  apply Hbad. apply (plan_object_dated (document_id doc)). congruence.
Qed.

Lemma one_bad_date_fails_the_listing_witness :
  let r := get_study_plans Samples.three_documents in
  read_status r = 500%Z /\ read_success r = false /\ read_payload r = None
  /\ read_error r = Some (lit "Failed to fetch study plans")
  /\ read_details r = Some NotAFunction.
Proof.
  apply (one_bad_date_fails_the_listing Samples.three_documents
           [ {| document_id := lit "abc";
                document_data :=
                  stored_fields Samples.written (FTimestamp 1700000000000) |};
             {| document_id := lit "def"; document_data := Samples.own_id |};
             {| document_id := lit "ghi"; document_data := Samples.string_date |} ]
           {| document_id := lit "ghi"; document_data := Samples.string_date |}).
  - reflexivity.
  - simpl. auto.
  - intros H. exact H.
Defined.

Ltac read_case :=
  intros;
  repeat match goal with
         | H : exists _, _ |- _ => destruct H
         | H : _ /\ _ |- _ => destruct H
         | H : _ \/ _ |- _ => destruct H
         | H : ReadGives _ = ReadGives _ |- _ => injection H as H; subst
         | H1 : ?a = Some ?x, H2 : ?a = Some ?y |- _ =>
             rewrite H1 in H2; injection H2 as H2; subst
         end;
  try discriminate; try congruence; try contradiction; eauto 10.

(** X7. The status of [GET /study-plan/:id] tells what the read gave: 200
    exactly when the document exists and its [createdAt] is a Timestamp,
    null or absent; 404 exactly when the read succeeded and the document
    does not exist; 500 exactly when the read threw or [createdAt] is
    another value; there is no other status, [success] is true and a plan
    is returned only with 200, and the details of a 500 are the message of
    whatever was thrown. *)
Theorem study_plan_status (st : store) (id : jsstring) :
  let r := get_study_plan st id in
  (read_status r = 200%Z
   <-> exists doc d, store_get st id = ReadGives doc
                     /\ snapshot_data doc = Some d /\ dated d)
  /\ (read_status r = 404%Z
      <-> exists doc, store_get st id = ReadGives doc /\ snapshot_data doc = None)
  /\ (read_status r = 500%Z
      <-> (exists message, store_get st id = ReadFails message
                           /\ read_details r = Some (StoreError message))
          \/ (exists doc d, store_get st id = ReadGives doc
                            /\ snapshot_data doc = Some d /\ ~ dated d
                            /\ read_details r = Some NotAFunction))
  /\ (read_status r = 200%Z \/ read_status r = 404%Z \/ read_status r = 500%Z)
  /\ (read_success r = true <-> read_status r = 200%Z)
  /\ (read_payload r <> None <-> read_status r = 200%Z).
Proof.
  intros r. subst r. unfold get_study_plan.
  destruct (store_get st id) as [message|doc] eqn:Hget.
  - cbn. repeat split; read_case.
  - destruct (snapshot_data doc) as [d|] eqn:Hd.
    + pose proof (plan_object_dated (snapshot_id doc) d) as Hdated.
      destruct (plan_object (snapshot_id doc) d) as [o|] eqn:Ho.
      * assert (Hyes : dated d) by (apply Hdated; discriminate).
        clear Hdated. cbn. repeat split; read_case.
      * assert (Hno : ~ dated d) by (intros H; apply Hdated in H; congruence).
        clear Hdated. cbn. repeat split; read_case.
    + cbn. repeat split; read_case.
Qed.

(* ================================================================== *)
(** * POST /generate-plan: what a response tells *)
(* ================================================================== *)

Lemma unusable_rejects (p err : jsstring) : unusable p (Rejects err).
Proof. intros raw H. discriminate H. Qed.

Lemma unusable_no_text (p : jsstring) (response : option generation_output) :
  truthy_generated_text response = None -> unusable p (Resolves response).
Proof.
  intros Ht raw H. injection H as ->. destruct raw as [|c t]; [|discriminate Ht].
  rewrite generatedText_nil. simpl. lia.
Qed.

Lemma unusable_short (p raw : jsstring) (response : option generation_output) :
  truthy_generated_text response = Some raw ->
  (List.length (generatedText p raw) < 100)%nat ->
  unusable p (Resolves response).
Proof.
  intros Ht Hlen raw' H. injection H as ->. 
  destruct raw' as [|c t]; [discriminate Ht|].
  simpl in Ht. injection Ht as <-. exact Hlen.
Qed.

Section LoopTrace.

Variable w : world.
Variables subject level duration goals p : jsstring.

(** The loop read backwards: a response comes from the first model whose
    answer is usable, every model before it having been called and found
    unusable; exhaustion means that every model was. *)
Lemma loop_trace (ms : list jsstring) :
  forall (lastError : option jsstring) (log : list event),
    match try_models w subject level duration goals p ms lastError log with
    | (Some r, log') =>
        exists called model rest raw,
          ms = called ++ model :: rest
          /\ (forall i m, nth_error called i = Some m ->
                unusable p (textGeneration w (log ++ calls_before p (firstn i called)) m p))
          /\ textGeneration w (log ++ calls_before p called) model p
             = Resolves (Some {| generated_text := Some raw |})
          /\ (100 <= List.length (generatedText p raw))%nat
          /\ let doc := accepted_doc subject level duration goals model
                          (generatedText p raw) in
             let log1 := log ++ calls_before p (called ++ [model]) in
             log' = log1 ++ [StoreAdd doc] /\ r = accepted_response w log1 doc
    | (None, log') =>
        log' = log ++ calls_before p ms
        /\ forall i m, nth_error ms i = Some m ->
             unusable p (textGeneration w (log ++ calls_before p (firstn i ms)) m p)
    end.
Proof.
  induction ms as [|m ms IH]; intros lastError log.
  - simpl. split; [now rewrite app_nil_r|]. intros [|i] m H; discriminate H.
  - assert (Hcont : unusable p (textGeneration w log m p) ->
      forall le,
      match try_models w subject level duration goals p ms le
              (log ++ [TextGeneration m p]) with
      | (Some r, log') =>
          exists called model rest raw,
            m :: ms = called ++ model :: rest
            /\ (forall i m', nth_error called i = Some m' ->
                  unusable p (textGeneration w (log ++ calls_before p (firstn i called)) m' p))
            /\ textGeneration w (log ++ calls_before p called) model p
               = Resolves (Some {| generated_text := Some raw |})
            /\ (100 <= List.length (generatedText p raw))%nat
            /\ let doc := accepted_doc subject level duration goals model
                            (generatedText p raw) in
               let log1 := log ++ calls_before p (called ++ [model]) in
               log' = log1 ++ [StoreAdd doc] /\ r = accepted_response w log1 doc
      | (None, log') =>
          log' = log ++ calls_before p (m :: ms)
          /\ forall i m', nth_error (m :: ms) i = Some m' ->
               unusable p (textGeneration w (log ++ calls_before p (firstn i (m :: ms))) m' p)
      end).
    { intros Hu le. specialize (IH le (log ++ [TextGeneration m p])).
      destruct (try_models w subject level duration goals p ms le
                  (log ++ [TextGeneration m p])) as [[r|] log'].
      - destruct IH as (called & model & rest & raw & Hms & Hpre & Hans & Hlen & H).
        exists (m :: called), model, rest, raw.
        split; [simpl; now f_equal|]. split; [|split; [|split; [exact Hlen|]]].
        + intros [|i] m' Hi; simpl in Hi.
          * injection Hi as <-. simpl. now rewrite app_nil_r.
          * specialize (Hpre i m' Hi). simpl. now rewrite <- app_assoc in Hpre.
        + simpl. now rewrite <- app_assoc in Hans.
        + assert (E : (log ++ [TextGeneration m p]) ++ calls_before p (called ++ [model])
                      = log ++ calls_before p ((m :: called) ++ [model]))
            by (rewrite <- app_assoc; reflexivity).
          cbv zeta in H |- *. rewrite E in H. exact H.
      - destruct IH as [-> Hall]. split; [now rewrite <- app_assoc|].
        intros [|i] m' Hi; simpl in Hi.
        + injection Hi as <-. simpl. now rewrite app_nil_r.
        + specialize (Hall i m' Hi). simpl. now rewrite <- app_assoc in Hall. }
    simpl try_models.
    destruct (textGeneration w log m p) as [err|resp] eqn:Hr;
      [apply Hcont, unusable_rejects|].
    destruct (truthy_generated_text resp) as [raw|] eqn:Ht;
      [|apply Hcont, unusable_no_text, Ht].
    destruct (Nat.ltb_spec (List.length (generatedText p raw)) 100) as [Hlt|Hge];
      [apply Hcont; exact (unusable_short p raw resp Ht Hlt)|].
    apply truthy_generated_text_Some in Ht as [-> _].
    assert (Hnil : log ++ calls_before p [] = log) by apply app_nil_r.
    destruct (studyPlans_add w (log ++ [TextGeneration m p]) _) as [id|] eqn:Hadd;
      exists [], m, ms, raw; (split; [reflexivity|]);
      (split; [intros [|i] m' Hi; discriminate Hi|]);
      (split; [rewrite Hnil; exact Hr|]); (split; [exact Hge|]);
      cbv zeta; simpl calls_before; (split; [reflexivity|]);
      unfold accepted_response, accepted_doc; simpl; rewrite Hadd; reflexivity.
Qed.

End LoopTrace.

Lemma fallback_trace (w : world) (subject level duration goals : jsstring)
    (log : list event) :
  fallback w subject level duration goals log
  = (fallback_response w log (fallback_doc subject level duration goals),
     log ++ [StoreAdd (fallback_doc subject level duration goals)]).
Proof.
  unfold fallback, fallback_response, fallback_doc.
  destruct (studyPlans_add w log _); reflexivity.
Qed.

(** The two ways a valid request is answered. *)
Lemma handler_trace (ms : list jsstring) (w : world) (body : request_body)
    (subject level duration goals : jsstring) :
  valid_request body subject level duration goals ->
  let p := prompt subject level duration goals in
  (exists called model rest raw,
     ms = called ++ model :: rest
     /\ all_unusable w p called
     /\ textGeneration w (calls_before p called) model p
        = Resolves (Some {| generated_text := Some raw |})
     /\ (100 <= List.length (generatedText p raw))%nat
     /\ let doc := accepted_doc subject level duration goals model
                     (generatedText p raw) in
        let log1 := calls_before p (called ++ [model]) in
        generate_plan_with ms w body
        = (accepted_response w log1 doc, log1 ++ [StoreAdd doc]))
  \/ (all_unusable w p ms
      /\ let doc := fallback_doc subject level duration goals in
         generate_plan_with ms w body
         = (fallback_response w (calls_before p ms) doc,
            calls_before p ms ++ [StoreAdd doc])).
Proof.
  intros Hv p. rewrite (generate_plan_valid _ _ _ _ _ _ _ Hv). fold p.
  pose proof (loop_trace w subject level duration goals p ms None []) as H.
  destruct (try_models w subject level duration goals p ms None []) as [[r|] log].
  - left. destruct H as (called & model & rest & raw & Hms & Hpre & Hans & Hlen & H).
    exists called, model, rest, raw. cbv zeta in H. simpl in H, Hans.
    destruct H as [-> ->]. repeat split; assumption.
  - right. destruct H as [-> Hall]. simpl in *. split; [exact Hall|].
    apply fallback_trace.
Qed.

Lemma fallback_is_no_model : ~ In (lit "fallback") models.
Proof.
  intros H. repeat (destruct H as [H|H]; [discriminate H|]). exact H.
Qed.

Lemma all_unusable_at (w : world) (p : jsstring) (called rest : list jsstring)
    (model raw : jsstring) :
  all_unusable w p (called ++ model :: rest) ->
  textGeneration w (calls_before p called) model p
  = Resolves (Some {| generated_text := Some raw |}) ->
  (List.length (generatedText p raw) < 100)%nat.
Proof.
  intros Hall Hans. specialize (Hall (List.length called) model).
  rewrite nth_error_app2, Nat.sub_diag in Hall by lia.
  specialize (Hall eq_refl).
  rewrite firstn_app, firstn_all, Nat.sub_diag in Hall. simpl in Hall.
  rewrite app_nil_r in Hall. exact (Hall raw Hans).
Qed.

(** X8. The converse of the selection rule: when the response to a valid
    request is marked [isAiGenerated], the model it names is in the list,
    every model before it was called and gave an unusable answer, its own
    answer carried a text of at least 100 code units once the echo is
    removed, that text is the plan, no model after it was called, and the
    response has no [message]. *)
Theorem ai_plan_comes_from_first_usable_model
    (w : world) (body : request_body) (subject level duration goals : jsstring) :
  valid_request body subject level duration goals ->
  let p := prompt subject level duration goals in
  let out := post_generate_plan w body in
  isAiGenerated (fst out) = Some true ->
  exists pre k post raw,
    models = pre ++ k :: post
    /\ all_unusable w p pre
    /\ textGeneration w (calls_before p pre) k p
       = Resolves (Some {| generated_text := Some raw |})
    /\ (100 <= List.length (generatedText p raw))%nat
    /\ modelUsed (fst out) = Some k
    /\ plan (fst out) = Some (generatedText p raw)
    /\ provider_calls (snd out) = pre ++ [k]
    /\ message (fst out) = None.
Proof.
  intros Hv p out. subst out. unfold post_generate_plan.
  destruct (handler_trace models w body subject level duration goals Hv)
    as [(called & model & rest & raw & Hms & Hpre & Hans & Hlen & E)|[_ E]];
    cbv zeta in E; rewrite E; simpl; [intros _|discriminate].
  exists called, model, rest, raw. fold p.
  repeat split; try assumption.
  rewrite provider_calls_app, provider_calls_before. simpl. apply app_nil_r.
Qed.

Lemma ai_plan_comes_from_first_usable_model_witness :
  exists pre k post raw,
    models = pre ++ k :: post
    /\ all_unusable Demo.second_answers Demo.biology_prompt pre
    /\ textGeneration Demo.second_answers (calls_before Demo.biology_prompt pre) k
         Demo.biology_prompt
       = Resolves (Some {| generated_text := Some raw |})
    /\ (100 <= List.length (generatedText Demo.biology_prompt raw))%nat
    /\ modelUsed (fst (post_generate_plan Demo.second_answers Demo.biology)) = Some k
    /\ plan (fst (post_generate_plan Demo.second_answers Demo.biology))
       = Some (generatedText Demo.biology_prompt raw)
    /\ provider_calls (snd (post_generate_plan Demo.second_answers Demo.biology))
       = pre ++ [k]
    /\ message (fst (post_generate_plan Demo.second_answers Demo.biology)) = None.
Proof.
  apply (ai_plan_comes_from_first_usable_model Demo.second_answers Demo.biology
           (lit "Biology") (lit "Beginner") (lit "4 weeks") (lit "Pass exam")).
  - exact biology_valid.
  - vm_compute. reflexivity.
Defined.

(** X9. On a valid request the fallback is used exactly when every model
    of the list, called in turn, gives an unusable answer; and the three
    marks of the fallback in the response go together: [isAiGenerated] is
    false exactly when [modelUsed] is 'fallback' and exactly when there is
    a [message]; then all five models were called. *)
Theorem fallback_exactly_when_all_unusable
    (w : world) (body : request_body) (subject level duration goals : jsstring) :
  valid_request body subject level duration goals ->
  let r := fst (post_generate_plan w body) in
  (isAiGenerated r = Some false
   <-> all_unusable w (prompt subject level duration goals) models)
  /\ (isAiGenerated r = Some false <-> modelUsed r = Some (lit "fallback"))
  /\ (isAiGenerated r = Some false <-> message r <> None)
  /\ (isAiGenerated r = Some false ->
      provider_calls (snd (post_generate_plan w body)) = models
      /\ plan r = Some (generateFallbackPlan subject level duration goals)).
Proof.
  intros Hv r. subst r. unfold post_generate_plan.
  destruct (handler_trace models w body subject level duration goals Hv)
    as [(called & model & rest & raw & Hms & Hpre & Hans & Hlen & E)|[Hall E]];
    cbv zeta in E; rewrite E;
    cbn [fst snd accepted_response fallback_response isAiGenerated modelUsed
         message plan accepted_doc fallback_doc doc_plan doc_modelUsed].
  - split; [|split; [|split]].
    + split; [discriminate|]. intros Hall. rewrite Hms in Hall.
      pose proof (all_unusable_at _ _ _ _ _ _ Hall Hans). lia.
    + split; [discriminate|]. intros H. injection H as ->.
      exfalso. apply fallback_is_no_model. rewrite Hms.
      apply in_or_app. right. now left.
    + split; [discriminate|]. intros H. now elim H.
    + discriminate.
  - split; [|split; [|split]].
    + tauto.
    + tauto.
    + split; [discriminate|reflexivity].
    + intros _. split; [|reflexivity].
      rewrite provider_calls_app, provider_calls_before. reflexivity.
Qed.

Lemma fallback_exactly_when_all_unusable_witness :
  let r := fst (post_generate_plan Demo.providers_down Demo.biology) in
  (isAiGenerated r = Some false
   <-> all_unusable Demo.providers_down Demo.biology_prompt models)
  /\ (isAiGenerated r = Some false <-> modelUsed r = Some (lit "fallback"))
  /\ (isAiGenerated r = Some false <-> message r <> None)
  /\ (isAiGenerated r = Some false ->
      provider_calls (snd (post_generate_plan Demo.providers_down Demo.biology))
      = models
      /\ plan r = Some (generateFallbackPlan (lit "Biology") (lit "Beginner")
                          (lit "4 weeks") (lit "Pass exam"))).
Proof.
  apply (fallback_exactly_when_all_unusable Demo.providers_down Demo.biology
           (lit "Biology") (lit "Beginner") (lit "4 weeks") (lit "Pass exam")).
  exact biology_valid.
Defined.

Lemma provider_inputs_app (a b : list event) :
  provider_inputs (a ++ b) = provider_inputs a ++ provider_inputs b.
Proof. apply flat_map_app. Qed.

Lemma provider_inputs_before (p : jsstring) (ms : list jsstring) (i : jsstring) :
  In i (provider_inputs (calls_before p ms)) -> i = p.
Proof.
  induction ms as [|m ms IH]; simpl; [tauto|]. intros [<-|H]; [reflexivity|auto].
Qed.

(** X10. The calls of a valid request, in order: the models are called in
    the order of the list from the first one on with no gap, each with the
    prompt of the request as input; the store is written once, after the
    last call; the document carries the four fields of the request
    unchanged; [planId] is the id the store gave for that write, and there
    is a [warning] exactly when there is no [planId]; the status is 200
    and there is no [error]. *)
Theorem calls_then_one_write
    (w : world) (body : request_body) (subject level duration goals : jsstring) :
  valid_request body subject level duration goals ->
  let out := post_generate_plan w body in
  exists called rest doc,
    models = called ++ rest
    /\ snd out = calls_before (prompt subject level duration goals) called
                 ++ [StoreAdd doc]
    /\ (forall i, In i (provider_inputs (snd out)) ->
          i = prompt subject level duration goals)
    /\ doc_subject doc = subject /\ doc_level doc = level
    /\ doc_duration doc = duration /\ doc_goals doc = goals
    /\ planId (fst out)
       = studyPlans_add w (calls_before (prompt subject level duration goals) called)
           doc
    /\ (warning (fst out) <> None <-> planId (fst out) = None)
    /\ status (fst out) = 200%Z /\ error (fst out) = None.
Proof.
  intros Hv out. subst out. unfold post_generate_plan.
  set (p := prompt subject level duration goals).
  destruct (handler_trace models w body subject level duration goals Hv)
    as [(called & model & rest & raw & Hms & Hpre & Hans & Hlen & E)|[Hall E]];
    cbv zeta in E; fold p in E; rewrite E; cbn [fst snd].
  - exists (called ++ [model]), rest,
      (accepted_doc subject level duration goals model (generatedText p raw)).
    split; [now rewrite <- app_assoc|]. split; [reflexivity|].
    split.
    { intros i Hi. rewrite provider_inputs_app in Hi.
      apply in_app_or in Hi as [Hi|Hi]; [|destruct Hi].
      exact (provider_inputs_before _ _ _ Hi). }
    unfold accepted_response. cbn.
    destruct (studyPlans_add w _ _); repeat split; congruence.
  - exists models, [], (fallback_doc subject level duration goals).
    split; [now rewrite app_nil_r|]. split; [reflexivity|].
    split.
    { intros i Hi. rewrite provider_inputs_app in Hi.
      apply in_app_or in Hi as [Hi|Hi]; [|destruct Hi].
      exact (provider_inputs_before _ _ _ Hi). }
    unfold fallback_response. cbn.
    destruct (studyPlans_add w _ _); repeat split; congruence.
Qed.

Lemma calls_then_one_write_witness :
  let out := post_generate_plan Demo.second_answers Demo.biology in
  exists called rest doc,
    models = called ++ rest
    /\ snd out = calls_before Demo.biology_prompt called ++ [StoreAdd doc]
    /\ (forall i, In i (provider_inputs (snd out)) -> i = Demo.biology_prompt)
    /\ doc_subject doc = lit "Biology" /\ doc_level doc = lit "Beginner"
    /\ doc_duration doc = lit "4 weeks" /\ doc_goals doc = lit "Pass exam"
    /\ planId (fst out)
       = studyPlans_add Demo.second_answers
           (calls_before Demo.biology_prompt called) doc
    /\ (warning (fst out) <> None <-> planId (fst out) = None)
    /\ status (fst out) = 200%Z /\ error (fst out) = None.
Proof.
  apply (calls_then_one_write Demo.second_answers Demo.biology
           (lit "Biology") (lit "Beginner") (lit "4 weeks") (lit "Pass exam")).
  exact biology_valid.
Defined.

(* ================================================================== *)
(** * From POST /generate-plan to GET /study-plan/:id *)
(* ================================================================== *)

(** X11. What [POST /generate-plan] writes is what [GET /study-plan/:id]
    returns: when the store holds, under [id], the fields of a document
    written by the handler, with a Timestamp for [createdAt], the read
    answers 200 with an object whose [id] is the document id, whose
    [createdAt] is the date of the Timestamp, and whose [plan],
    [modelUsed] and [isAiGenerated] are those of the response to the
    POST, and whose four request fields are those written. *)
Theorem written_plan_reads_back
    (w : world) (body : request_body) (st : store) (id : jsstring) (date : Z)
    (doc : StoredPlan) :
  In doc (store_writes (snd (post_generate_plan w body))) ->
  store_get st id
  = ReadGives {| snapshot_id := id;
                 snapshot_data := Some (stored_fields doc (FTimestamp date)) |} ->
  let r := fst (post_generate_plan w body) in
  exists o,
    get_study_plan st id = read_ok o
    /\ obj_get o (lit "id") = Some (JStored (FString id))
    /\ obj_get o (lit "createdAt") = Some (JDate date)
    /\ obj_get o (lit "plan")
       = option_map (fun s => JStored (FString s)) (plan r)
    /\ obj_get o (lit "modelUsed")
       = option_map (fun s => JStored (FString s)) (modelUsed r)
    /\ obj_get o (lit "isAiGenerated")
       = option_map (fun b => JStored (FBool b)) (isAiGenerated r)
    /\ obj_get o (lit "subject") = Some (JStored (FString (doc_subject doc)))
    /\ obj_get o (lit "level") = Some (JStored (FString (doc_level doc)))
    /\ obj_get o (lit "duration") = Some (JStored (FString (doc_duration doc)))
    /\ obj_get o (lit "goals") = Some (JStored (FString (doc_goals doc))).
Proof.
  intros Hin Hget r. subst r. unfold get_study_plan. rewrite Hget.
  cbn [snapshot_data snapshot_id].
  assert (Hsame : plan (fst (post_generate_plan w body)) = Some (doc_plan doc)
                  /\ modelUsed (fst (post_generate_plan w body))
                     = Some (doc_modelUsed doc)
                  /\ isAiGenerated (fst (post_generate_plan w body))
                     = Some (doc_isAiGenerated doc)).
  { revert Hin. unfold post_generate_plan.
    destruct (valid_or_rejected models w body)
      as [E|(subject & level & duration & goals & Hv)].
    { rewrite E. intros []. }
    destruct (handler_trace models w body subject level duration goals Hv)
      as [(called & model & rest & raw & _ & _ & _ & _ & E)|[_ E]];
      cbv zeta in E; rewrite E; cbn [fst snd];
      rewrite store_writes_app, store_writes_before;
      intros [<-|[]]; repeat split. }
  destruct Hsame as (-> & -> & ->).
  eexists. split; [reflexivity|]. repeat split.
Qed.

Lemma written_plan_reads_back_witness :
  let r := fst (post_generate_plan Samples.empty_answers Demo.biology) in
  exists o,
    get_study_plan Samples.three_documents (lit "abc") = read_ok o
    /\ obj_get o (lit "id") = Some (JStored (FString (lit "abc")))
    /\ obj_get o (lit "createdAt") = Some (JDate 1700000000000)
    /\ obj_get o (lit "plan")
       = option_map (fun s => JStored (FString s)) (plan r)
    /\ obj_get o (lit "modelUsed")
       = option_map (fun s => JStored (FString s)) (modelUsed r)
    /\ obj_get o (lit "isAiGenerated")
       = option_map (fun b => JStored (FBool b)) (isAiGenerated r)
    /\ obj_get o (lit "subject")
       = Some (JStored (FString (doc_subject Samples.written)))
    /\ obj_get o (lit "level")
       = Some (JStored (FString (doc_level Samples.written)))
    /\ obj_get o (lit "duration")
       = Some (JStored (FString (doc_duration Samples.written)))
    /\ obj_get o (lit "goals")
       = Some (JStored (FString (doc_goals Samples.written))).
Proof.
  apply (written_plan_reads_back Samples.empty_answers Demo.biology
           Samples.three_documents (lit "abc") 1700000000000 Samples.written).
  - left. vm_compute. reflexivity.
  - reflexivity.
Defined.

(* ================================================================== *)
(** * The echo and white space *)
(* ================================================================== *)

Lemma prompt_head (subject level duration goals : jsstring) :
  exists t, prompt subject level duration goals = 67%N :: t.
Proof. unfold prompt. eexists. reflexivity. Qed.

Lemma white_space_not_C (c : code_unit) : is_white_space c = true -> c <> 67%N.
Proof. intros H ->. discriminate H. Qed.

Lemma trimStart_white_space (ws s : jsstring) :
  forallb is_white_space ws = true -> trimStart (ws ++ s) = trimStart s.
Proof.
  induction ws as [|c ws IH]; simpl; [reflexivity|].
  intros H. apply andb_true_iff in H as [Hc Hws]. now rewrite Hc, IH.
Qed.

Lemma trim_white_space (ws : jsstring) :
  forallb is_white_space ws = true -> trim ws = [].
Proof.
  intros H. unfold trim. rewrite <- (app_nil_r ws), trimStart_white_space by exact H.
  reflexivity.
Qed.

(** The first occurrence of a text that begins with "C" is not inside
    white space. *)
Lemma indexOf_after_white_space (ws t s : jsstring) :
  forallb is_white_space ws = true ->
  indexOf (ws ++ (67%N :: t) ++ s) (67%N :: t) = Some (List.length ws).
Proof.
  pose proof (indexOf_prefix (67%N :: t) s) as H0.
  set (tail := (67%N :: t) ++ s) in *.
  induction ws as [|c ws IH]; intros H.
  - exact H0.
  - simpl in H. apply andb_true_iff in H as [Hc Hws].
    cbn [app indexOf starts_with List.length].
    destruct (N.eqb_spec 67 c) as [<-|_]; [discriminate Hc|].
    cbn [andb]. now rewrite (IH Hws).
Qed.

Lemma indexOf_white_space (ws t : jsstring) :
  forallb is_white_space ws = true -> indexOf ws (67%N :: t) = None.
Proof.
  induction ws as [|c ws IH]; intros H; [reflexivity|].
  simpl in H. apply andb_true_iff in H as [Hc Hws].
  cbn [indexOf starts_with].
  destruct (N.eqb_spec 67 c) as [<-|_]; [discriminate Hc|].
  cbn [andb]. now rewrite (IH Hws).
Qed.

(** X12. White space before the echoed prompt goes with it: for a
    generated text made of white space, the prompt and a suffix, the
    text the loop goes on with is the trimmed suffix; so a model that
    only echoes the prompt, with white space around it, gives the empty
    text and is passed over as too short. *)
Theorem echo_after_white_space
    (subject level duration goals ws suffix : jsstring) :
  forallb is_white_space ws = true ->
  let p := prompt subject level duration goals in
  generatedText p (ws ++ p ++ suffix) = trim suffix
  /\ (forallb is_white_space suffix = true ->
      generatedText p (ws ++ p ++ suffix) = []
      /\ unusable p
           (Resolves (Some {| generated_text := Some (ws ++ p ++ suffix) |}))).
Proof.
  intros Hws p.
  assert (Hg : generatedText p (ws ++ p ++ suffix) = trim suffix).
  { destruct (prompt_head subject level duration goals) as [t Ht].
    fold p in Ht. clearbody p.
    assert (Hi : indexOf (ws ++ p ++ suffix) p = Some (List.length ws))
      by (rewrite Ht; now apply indexOf_after_white_space).
    assert (F : firstn (List.length ws) (ws ++ p ++ suffix) = ws).
    { rewrite firstn_app, firstn_all, Nat.sub_diag. cbn [firstn].
      apply app_nil_r. }
    assert (S : skipn (List.length ws + List.length p) (ws ++ p ++ suffix) = suffix).
    { rewrite app_assoc, <- length_app.
      rewrite skipn_app, skipn_all, Nat.sub_diag. reflexivity. }
    unfold generatedText, includes, replace. rewrite Hi, F, S. cbn [app].
    unfold trim. now rewrite trimStart_white_space. }
  split; [exact Hg|]. intros Hs.
  assert (Hnil : generatedText p (ws ++ p ++ suffix) = [])
    by (rewrite Hg; now apply trim_white_space).
  split; [exact Hnil|].
  intros raw H.
  assert (Hraw : raw = ws ++ p ++ suffix) by congruence.
  rewrite Hraw, Hnil. simpl. lia.
Qed.

Lemma echo_after_white_space_witness :
  generatedText Demo.biology_prompt
    (lit " " ++ Demo.biology_prompt ++ lit "
") = trim (lit "
")
  /\ (forallb is_white_space (lit "
") = true ->
      generatedText Demo.biology_prompt (lit " " ++ Demo.biology_prompt ++ lit "
") = []
      /\ unusable Demo.biology_prompt
           (Resolves (Some {| generated_text :=
                                Some (lit " " ++ Demo.biology_prompt ++ lit "
") |}))).
Proof.
  apply (echo_after_white_space (lit "Biology") (lit "Beginner") (lit "4 weeks")
           (lit "Pass exam") (lit " ") (lit "
")).
  reflexivity.
Defined.

(** X13. The length test counts white space, and [trim] is applied only
    when the prompt was found: an answer of the first model that is made
    of white space only, 100 code units or more, is accepted and returned
    as the plan as it is, although trimming it leaves nothing. *)
Theorem blank_answer_is_accepted
    (w : world) (body : request_body) (subject level duration goals : jsstring)
    (model : jsstring) (rest : list jsstring) (raw : jsstring) :
  valid_request body subject level duration goals ->
  textGeneration w [] model (prompt subject level duration goals)
  = Resolves (Some {| generated_text := Some raw |}) ->
  forallb is_white_space raw = true ->
  (100 <= List.length raw)%nat ->
  let r := fst (generate_plan_with (model :: rest) w body) in
  plan r = Some raw /\ modelUsed r = Some model /\ isAiGenerated r = Some true
  /\ trim raw = [].
Proof.
  intros Hv Hans Hws Hlen r. subst r.
  set (p := prompt subject level duration goals) in *.
  assert (Hg : generatedText p raw = raw).
  { subst p. destruct (prompt_head subject level duration goals) as [t ->].
    unfold generatedText, includes. now rewrite indexOf_white_space. }
  rewrite (generate_plan_valid _ _ _ _ _ _ _ Hv). fold p.
  destruct (loop_accepts w subject level duration goals p model rest None [] raw)
    as (r & E & _ & _ & Hplan & Hmodel & Hai & _).
  - exact Hans.
  - now rewrite Hg.
  - rewrite E. cbn [fst]. rewrite Hplan, Hg. 
    split; [reflexivity|]. split; [exact Hmodel|]. split; [exact Hai|].
    now apply trim_white_space.
Qed.

Lemma blank_answer_is_accepted_witness :
  let r := fst (post_generate_plan Samples.blank_answer Demo.biology) in
  plan r = Some (repeat 32%N 100)
  /\ modelUsed r = Some (lit "mistralai/Mistral-7B-Instruct-v0.3")
  /\ isAiGenerated r = Some true
  /\ trim (repeat 32%N 100) = [].
Proof.
  apply (blank_answer_is_accepted Samples.blank_answer Demo.biology
           (lit "Biology") (lit "Beginner") (lit "4 weeks") (lit "Pass exam")).
  - exact biology_valid.
  - reflexivity.
  - reflexivity.
  - simpl. lia.
Defined.

(* ================================================================== *)
(** * The fallback plan *)
(* ================================================================== *)

(** X14. The week ranges of the fallback plan for a week count [n] below
    [2^49]: Phase 3 runs from [ceil(7n/10) + 1] to [n - 1], which is a
    range with its start not after its end exactly when [n >= 7]; Phase 2,
    when [n > 2], runs from 3 to [ceil(7n/10)], which is at least 3 and at
    most [n], and reaches the final week [n] only for 3 weeks. *)
Theorem phase3_range_is_proper_from_seven_weeks (duration : jsstring) (n : Z) :
  durationWeeks duration = Number_of_Z n ->
  (1 <= n < 2 ^ 49)%Z ->
  let W := durationWeeks duration in
  let c := ((7 * n + 9) / 10)%Z in
  phase3Weeks W = decimal (c + 1) ++ lit "-" ++ decimal (n - 1)
  /\ ((c + 1 <= n - 1)%Z <-> (7 <= n)%Z)
  /\ ((2 < n)%Z ->
      phase2Weeks W = lit "3-" ++ decimal c
      /\ (3 <= c <= n)%Z /\ (c = n <-> n = 3%Z)).
Proof.
  intros HW Hn W c. subst W. rewrite HW.
  destruct (weeks_agree n Hn) as [H2 H3]. rewrite H2, H3.
  unfold Spec.phase2_weeks, Spec.phase3_weeks, Spec.ceil_0_7. fold c.
  assert (Hc : (10 * c <= 7 * n + 9 < 10 * c + 10)%Z).
  { subst c. pose proof (Z.div_mod (7 * n + 9) 10 ltac:(lia)).
    pose proof (Z.mod_pos_bound (7 * n + 9) 10 ltac:(lia)). lia. }
  clearbody c. split; [reflexivity|]. split; [lia|].
  intros Hgt. destruct (Z.ltb_spec 2 n) as [_|]; [|lia].
  split; [reflexivity|]. lia.
Qed.

Lemma phase3_range_is_proper_from_seven_weeks_witness :
  let W := durationWeeks (lit "10 weeks") in
  let c := ((7 * 10 + 9) / 10)%Z in
  phase3Weeks W = decimal (c + 1) ++ lit "-" ++ decimal (10 - 1)
  /\ ((c + 1 <= 10 - 1)%Z <-> (7 <= 10)%Z)
  /\ ((2 < 10)%Z ->
      phase2Weeks W = lit "3-" ++ decimal c
      /\ (3 <= c <= 10)%Z /\ (c = 10%Z <-> 10%Z = 3%Z)).
Proof.
  apply (phase3_range_is_proper_from_seven_weeks (lit "10 weeks") 10).
  - vm_compute. reflexivity.
  - lia.
Defined.

Lemma length_app_ge {A : Type} (a b : list A) (n : nat) :
  (n <= List.length b)%nat -> (n <= List.length (a ++ b))%nat.
Proof. rewrite length_app. lia. Qed.

(** X15. Whatever its four arguments, the fallback plan is at least 100
    code units long: it would pass the length test that the loop applies
    to the text of a model. *)
Theorem fallback_plan_is_never_short (subject level duration goals : jsstring) :
  (100 <= List.length (generateFallbackPlan subject level duration goals))%nat.
Proof.
  unfold generateFallbackPlan, planTemplate.
  do 17 apply length_app_ge.
  apply Nat.leb_le. vm_compute. reflexivity.
Qed.
